(** * treatment_nccr: drug / regimen extraction pipeline

    A shallow embedding of the checkpointed batch pipeline
    (data_utils.py, main.py), the fuzzy drug normaliser and regimen mapper
    (drug_normalizer.py) and the metrics engine (metrics.py), with the
    properties the specification states about them.

    Conventions.
    - Python [str] values are modelled as [string] (8-bit characters);
      [lower] and [strip] act on the ASCII range as Python does there.
    - Python [None] as a function result is [None] of an [option].
    - Python floats that hold a quotient of two counters are modelled as
      exact rationals ([Q]).
    - fuzzywuzzy's scorers are an interface ([Fuzz]) the normaliser and
      the mapper are parameterised by; so are the text Python prints for
      a float ([FloatText]) and the generator with its prompt
      ([Collaborators]).
    - Files are the entries of two directories, the working directory
      and the backup directory; an operation on a file that is there
      succeeds. *)

From Stdlib Require Import ZArith QArith Lqa Ascii String List Lia Bool.
From stdpp Require Import base option list gmap strings pretty sorting.

Set Warnings "-register-all,-clear-no-such-hyp".

Local Open Scope string_scope.
Local Open Scope list_scope.

(** ** Python string primitives *)

Module PyStr.

(** [str.isspace] on one ASCII character: TAB, LF, VT, FF, CR, the four
    separators FS GS RS US, and the blank. *)
Definition is_space (c : ascii) : bool :=
  let n := nat_of_ascii c in
  ((9 <=? n)%nat && (n <=? 13)%nat) || ((28 <=? n)%nat && (n <=? 32)%nat).

Definition lower_char (c : ascii) : ascii :=
  let n := nat_of_ascii c in
  if ((65 <=? n)%nat && (n <=? 90)%nat) then ascii_of_nat (n + 32) else c.

(** [s.lower()] *)
Fixpoint lower (s : string) : string :=
  match s with
  | EmptyString => EmptyString
  | String c s' => String (lower_char c) (lower s')
  end.

(** [s.lstrip()] *)
Fixpoint lstrip (s : string) : string :=
  match s with
  | EmptyString => EmptyString
  | String c s' => if is_space c then lstrip s' else s
  end.

(** [s.rstrip()] *)
Fixpoint rstrip (s : string) : string :=
  match s with
  | EmptyString => EmptyString
  | String c s' =>
      match rstrip s' with
      | EmptyString => if is_space c then EmptyString else String c EmptyString
      | r => String c r
      end
  end.

(** [s.strip()] *)
Definition strip (s : string) : string := lstrip (rstrip s).

(** Truthiness of a [str]: [bool(s)]. *)
Definition truthy (s : string) : bool :=
  match s with EmptyString => false | _ => true end.

(** [s[:n]] *)
Fixpoint take (n : nat) (s : string) : string :=
  match n, s with
  | S n', String c s' => String c (take n' s')
  | _, _ => EmptyString
  end.

(** [s[n:]] *)
Fixpoint drop (n : nat) (s : string) : string :=
  match n, s with
  | S n', String _ s' => drop n' s'
  | _, _ => s
  end.

(** [s.startswith(p)] *)
Fixpoint startswith (p s : string) : bool :=
  match p, s with
  | EmptyString, _ => true
  | String a p', String b s' => if Ascii.eqb a b then startswith p' s' else false
  | String _ _, EmptyString => false
  end.

(** [s.replace(old, new)] with the empty [new]: every non-overlapping
    occurrence of [old], found left to right, is dropped.  [skip] counts
    the characters of the occurrence being dropped that are still
    ahead. *)
Fixpoint remove_from (old : string) (skip : nat) (s : string) : string :=
  match s with
  | EmptyString => EmptyString
  | String c s' =>
      match skip with
      | S k => remove_from old k s'
      | O =>
          match old with
          | EmptyString => String c (remove_from old 0 s')
          | String _ old' =>
              if startswith old s
              then remove_from old (String.length old') s'
              else String c (remove_from old 0 s')
          end
      end
  end.

Definition remove_all (old s : string) : string := remove_from old 0 s.

(** [s.split(sep)] for a one-character separator: the pieces between the
    separators, always at least one piece. *)
Fixpoint split_on (sep : ascii) (s : string) : list string :=
  match s with
  | EmptyString => [EmptyString]
  | String c s' =>
      if Ascii.eqb c sep then EmptyString :: split_on sep s'
      else match split_on sep s' with
           | [] => [String c EmptyString]
           | p :: ps => String c p :: ps
           end
  end.

(** [sep.join(parts)] *)
Fixpoint join (sep : string) (parts : list string) : string :=
  match parts with
  | [] => EmptyString
  | [p] => p
  | p :: ps => p +:+ sep +:+ join sep ps
  end.

(** [a <= b] on [str]: lexicographic on character codes. *)
Fixpoint leb (a b : string) : bool :=
  match a, b with
  | EmptyString, _ => true
  | String _ _, EmptyString => false
  | String x a', String y b' =>
      let nx := nat_of_ascii x in
      let ny := nat_of_ascii y in
      if (nx <? ny)%nat then true
      else if (ny <? nx)%nat then false
      else leb a' b'
  end.

End PyStr.

(** ** Python dictionaries with string keys

    Iteration follows insertion order, and assigning to a key that is
    present keeps its position: an association list with in-place update. *)

Module PyDict.

Definition dict (V : Type) : Type := list (string * V).

Fixpoint get {V} (k : string) (d : dict V) : option V :=
  match d with
  | [] => None
  | (k', v) :: d' => if String.eqb k k' then Some v else get k d'
  end.

(** [k in d] *)
Definition mem {V} (k : string) (d : dict V) : bool :=
  match get k d with Some _ => true | None => false end.

(** [d[k] = v] *)
Fixpoint set {V} (k : string) (v : V) (d : dict V) : dict V :=
  match d with
  | [] => [(k, v)]
  | (k', v') :: d' =>
      if String.eqb k k' then (k', v) :: d' else (k', v') :: set k v d'
  end.

(** [d.keys()] *)
Definition keys {V} (d : dict V) : list string := map fst d.

End PyDict.

(** ** Results of calls that may raise

    [Raise e] carries [str(e)], the text of the exception. *)

Inductive outcome (A : Type) : Type :=
| Ret (a : A)
| Raise (e : string).
Arguments Ret {A} a.
Arguments Raise {A} e.

(** ** drug_normalizer.py *)

(** The three fuzzywuzzy scorers the module calls, [fuzz.ratio],
    [fuzz.partial_ratio] and [fuzz.token_sort_ratio]: integer scores. *)
Class Fuzz : Type := {
  ratio : string -> string -> Z;
  partial_ratio : string -> string -> Z;
  token_sort_ratio : string -> string -> Z
}.

(** A scorer for running the definitions: 100 on equal strings, else 0. *)
Definition eq_score (a b : string) : Z := if String.eqb a b then 100%Z else 0%Z.

Definition exact_fuzz : Fuzz :=
  {| ratio := eq_score; partial_ratio := eq_score; token_sort_ratio := eq_score |}.

(** A scorer that counts the positions at which the two strings agree,
    scaled to 0..100 by the longer length. *)
Fixpoint agree (a b : string) : nat :=
  match a, b with
  | String x a', String y b' => (if Ascii.eqb x y then 1 else 0) + agree a' b'
  | _, _ => 0
  end.

Definition position_score (a b : string) : Z :=
  let n := Nat.max (String.length a) (String.length b) in
  match n with
  | O => 0%Z
  | _ => (100 * Z.of_nat (agree a b) / Z.of_nat n)%Z
  end.

Definition position_fuzz : Fuzz :=
  {| ratio := position_score; partial_ratio := position_score;
     token_sort_ratio := position_score |}.

Module DrugNormalizer.

Record t : Type := mk {
  threshold : Z;
  synonym_map : PyDict.dict string
}.

(** One line of the synonym file: the columns [DrugName], [DrugSynonym]. *)
Record synonym_row : Type := mk_row {
  DrugName : string;
  DrugSynonym : string
}.

(** The inner loop of [_load_synonyms]: [synonym_map[synonym.lower()] =
    generic_name] for every non-empty synonym. *)
Definition add_synonyms (generic_name : string) (synonyms : list string)
    (m : PyDict.dict string) : PyDict.dict string :=
  fold_left
    (fun m synonym =>
       if PyStr.truthy synonym
       then PyDict.set (PyStr.lower synonym) generic_name m
       else m)
    synonyms m.

Definition load_row (m : PyDict.dict string) (row : synonym_row)
    : PyDict.dict string :=
  let generic_name := PyStr.strip (DrugName row) in
  let synonyms := map PyStr.strip (PyStr.split_on "," (DrugSynonym row)) in
  let synonyms := synonyms ++ [generic_name] in
  add_synonyms generic_name synonyms m.

Definition _load_synonyms (rows : list synonym_row) : PyDict.dict string :=
  fold_left load_row rows [].

(** [DrugNormalizer(synonym_file, threshold)] *)
Definition init (rows : list synonym_row) (threshold : Z) : t :=
  {| threshold := threshold; synonym_map := _load_synonyms rows |}.

Section WithFuzz.
Context {F : Fuzz}.

(** The fuzzy scan of [_find_best_match]: [(best_match, best_score)],
    replaced only by a strictly greater score. *)
Definition scan_step (drug_name : string) (acc : option string * Z)
    (item : string * string) : option string * Z :=
  let '(synonym, generic) := item in
  let score := ratio drug_name synonym in
  if (snd acc <? score)%Z then (Some generic, score) else acc.

Definition scan (drug_name : string) (m : PyDict.dict string)
    : option string * Z :=
  fold_left (scan_step drug_name) m (None, 0%Z).

(** [_find_best_match]; the result is a [str] or [None]. *)
Definition _find_best_match (self : t) (drug_name : string) : option string :=
  if negb (PyStr.truthy (PyStr.strip drug_name)) then Some drug_name
  else
    let drug_name := PyStr.lower (PyStr.strip drug_name) in
    match PyDict.get drug_name (synonym_map self) with
    | Some generic => Some generic
    | None =>
        let '(best_match, best_score) := scan drug_name (synonym_map self) in
        if (threshold self <=? best_score)%Z then best_match
        else Some drug_name
    end.

(** The closing comprehension of [normalize_drugs]:
    [[x for x in normalized if not (x in seen or seen.add(x))]]. *)
Fixpoint unique_in_order (seen : gset (option string))
    (normalized : list (option string)) : list (option string) :=
  match normalized with
  | [] => []
  | x :: rest =>
      if decide (x ∈ seen) then unique_in_order seen rest
      else x :: unique_in_order ({[x]} ∪ seen) rest
  end.

Definition normalize_drugs (self : t) (drugs : list string)
    : list (option string) :=
  match drugs with
  | [] => []
  | _ =>
      let normalized := map (_find_best_match self) drugs in
      unique_in_order ∅ normalized
  end.

End WithFuzz.
End DrugNormalizer.

Module RegimenDrugMapper.

Record t : Type := mk {
  threshold : Z;
  regimen_map : PyDict.dict (list string)
}.

(** One line of the regimen file: the columns [Regimen], [Drugs]. *)
Record regimen_row : Type := mk_row {
  Regimen : string;
  Drugs : string
}.

Definition load_row (m : PyDict.dict (list string)) (row : regimen_row)
    : PyDict.dict (list string) :=
  let regimen := PyStr.lower (PyStr.strip (Regimen row)) in
  let drugs :=
    map (fun d => PyStr.lower (PyStr.strip d)) (PyStr.split_on "," (Drugs row)) in
  PyDict.set regimen drugs m.

Definition _load_regimen_map (rows : list regimen_row)
    : PyDict.dict (list string) :=
  fold_left load_row rows [].

Definition init (rows : list regimen_row) (threshold : Z) : t :=
  {| threshold := threshold; regimen_map := _load_regimen_map rows |}.

Definition _normalize_regimen_name (regimen : string) : string :=
  let regimen := PyStr.lower (PyStr.strip regimen) in
  let regimen := PyStr.strip (PyStr.remove_all "regimen" regimen) in
  let regimen := PyStr.strip (PyStr.remove_all "therapy" regimen) in
  let regimen := PyStr.strip (PyStr.remove_all "protocol" regimen) in
  regimen.

Section WithFuzz.
Context {F : Fuzz}.

(** One turn of the fuzzy loop of [_fuzzy_match_regimen]. *)
Definition fuzzy_step (self : t) (normalized_regimen : string)
    (acc : option string * Z) (known_regimen : string) : option string * Z :=
  let ratio_score := ratio normalized_regimen known_regimen in
  let partial_score := partial_ratio normalized_regimen known_regimen in
  let token_sort_score := token_sort_ratio normalized_regimen known_regimen in
  let score := Z.max (Z.max ratio_score partial_score) token_sort_score in
  if ((snd acc <? score)%Z && (threshold self <=? score)%Z)%bool
  then (Some known_regimen, score) else acc.

Definition _fuzzy_match_regimen (self : t) (regimen : string) : option string :=
  if negb (PyStr.truthy regimen) then None
  else
    let normalized_regimen := _normalize_regimen_name regimen in
    if PyDict.mem normalized_regimen (regimen_map self)
    then Some normalized_regimen
    else
      fst (fold_left (fuzzy_step self normalized_regimen)
             (PyDict.keys (regimen_map self)) (None, 0%Z)).

(** [get_drugs_from_regimen]; [self.regimen_map[matched_regimen]] raises
    [KeyError] on a missing key. *)
Definition get_drugs_from_regimen (self : t) (regimen : string)
    : outcome (list string) :=
  if negb (PyStr.truthy regimen) then Ret []
  else
    match _fuzzy_match_regimen self regimen with
    | Some matched_regimen =>
        if PyStr.truthy matched_regimen then
          match PyDict.get matched_regimen (regimen_map self) with
          | Some drugs => Ret drugs
          | None => Raise ("KeyError: " +:+ matched_regimen)
          end
        else Ret []
    | None => Ret []
    end.

(** The first loop of [get_combined_drugs]: [regimen_drugs]. *)
Fixpoint regimen_drugs_of (self : t) (extracted_regimens : list string)
    : outcome (list string) :=
  match extracted_regimens with
  | [] => Ret []
  | regimen :: rest =>
      if PyStr.truthy regimen then
        match get_drugs_from_regimen self regimen with
        | Ret drugs =>
            match regimen_drugs_of self rest with
            | Ret more => Ret (drugs ++ more)
            | Raise e => Raise e
            end
        | Raise e => Raise e
        end
      else regimen_drugs_of self rest
  end.

(** [get_combined_drugs]; the result is [list(all_drugs)] for a set
    [all_drugs], whose order Python leaves open: the set is returned. *)
Definition get_combined_drugs (self : t)
    (extracted_drugs extracted_regimens : list string) : outcome (gset string) :=
  match regimen_drugs_of self extracted_regimens with
  | Ret regimen_drugs =>
      Ret (list_to_set
             (map (fun drug => PyStr.lower (PyStr.strip drug))
                  (filter (fun drug => PyStr.truthy drug = true)
                          (extracted_drugs ++ regimen_drugs))))
  | Raise e => Raise e
  end.

End WithFuzz.
End RegimenDrugMapper.

(** ** metrics.py *)

Module Metrics.

(** [normalize_drug_list]: falsy entries are skipped, the others are
    stripped and lowered. *)
Definition normalize_drug_list (drugs : list string) : list string :=
  match drugs with
  | [] => []
  | _ => map (fun drug => PyStr.lower (PyStr.strip drug))
             (filter (fun drug => PyStr.truthy drug = true) drugs)
  end.

(** [x > 0] on a float. *)
Definition positive (x : Q) : bool := (0 <? Qnum x)%Z.

Definition of_count (n : nat) : Q := inject_Z (Z.of_nat n).

Record scores : Type := mk_scores {
  precision : Q;
  recall : Q;
  f1 : Q;
  missing : list string;
  hallucinated : list string
}.

(** The part [compute_metrics] and [compute_regimen_metrics] share, from
    the two sets on; [ground_truth] and [extracted] are the lists the
    report entries are taken from.  The scores are the exact quotients:
    the floats of the code are their roundings, one rounding for
    precision and for recall, one at each step for f1, so that f1 may
    differ from the exact value in its last bits. *)
Definition score_sets (extracted_set ground_truth_set : gset string)
    (extracted ground_truth : list string) : scores :=
  let true_positives := size (extracted_set ∩ ground_truth_set) in
  let false_positives := size (extracted_set ∖ ground_truth_set) in
  let false_negatives := size (ground_truth_set ∖ extracted_set) in
  let precision :=
    if (0 <? true_positives + false_positives)%nat
    then (of_count true_positives / of_count (true_positives + false_positives))%Q
    else 0%Q in
  let recall :=
    if (0 <? true_positives + false_negatives)%nat
    then (of_count true_positives / of_count (true_positives + false_negatives))%Q
    else 0%Q in
  let f1 :=
    if positive (precision + recall)
    then (2 * (precision * recall) / (precision + recall))%Q
    else 0%Q in
  {| precision := precision;
     recall := recall;
     f1 := f1;
     missing :=
       filter (fun drug => PyStr.strip (PyStr.lower drug)
                             ∈ ground_truth_set ∖ extracted_set) ground_truth;
     hallucinated :=
       filter (fun drug => PyStr.strip (PyStr.lower drug)
                             ∈ extracted_set ∖ ground_truth_set) extracted |}.

(** [compute_metrics], on the two list fields of the row it reads:
    [extracted_drugs] (or [normalized_drugs]) and [unique_drugs]. *)
Definition compute_metrics (extracted_drugs ground_truth : list string) : scores :=
  let extracted_set : gset string := list_to_set (normalize_drug_list extracted_drugs) in
  let ground_truth_set : gset string := list_to_set (normalize_drug_list ground_truth) in
  score_sets extracted_set ground_truth_set extracted_drugs ground_truth.

(** [set(str(reg).strip().lower() for reg in regs if reg)] *)
Definition regimen_set (regs : list string) : gset string :=
  list_to_set (map (fun reg => PyStr.lower (PyStr.strip reg))
                   (filter (fun reg => PyStr.truthy reg = true) regs)).

(** [compute_regimen_metrics], on [extracted_regimens] and [regimens]. *)
Definition compute_regimen_metrics (extracted_regimens ground_truth : list string)
    : scores :=
  score_sets (regimen_set extracted_regimens) (regimen_set ground_truth)
             extracted_regimens ground_truth.

End Metrics.

(** ** Values held in DataFrame cells *)

Module Py.

Inductive value : Type :=
| VNaN
| VNone
| VBool (b : bool)
| VInt (z : Z)
| VFloat (q : Q)
| VStr (s : string)
| VList (l : list value)
| VDict (items : list (string * value)).

Definition dquote : ascii := ascii_of_nat 34.
Definition backslash : ascii := ascii_of_nat 92.

Definition hex_digit (n : nat) : ascii :=
  ascii_of_nat (if (n <? 10)%nat then 48 + n else 87 + n).

Definition hex2 (n : nat) : string :=
  String (hex_digit (n / 16)) (String (hex_digit (n mod 16)) EmptyString).

Definition int_text (z : Z) : string :=
  match z with
  | Z0 => "0"
  | Zpos p => pretty (N.pos p)
  | Zneg p => "-" +:+ pretty (N.pos p)
  end.

Fixpoint contains_char (c : ascii) (s : string) : bool :=
  match s with
  | EmptyString => false
  | String x s' => Ascii.eqb x c || contains_char c s'
  end.

(** The body of [repr(s)] for a [str], between quotes [q]. *)
Fixpoint repr_chars (q : ascii) (s : string) : string :=
  match s with
  | EmptyString => EmptyString
  | String c s' =>
      let n := nat_of_ascii c in
      let rest := repr_chars q s' in
      if Ascii.eqb c backslash then String backslash (String backslash rest)
      else if Ascii.eqb c q then String backslash (String c rest)
      else if (n =? 10)%nat then String backslash (String "n" rest)
      else if (n =? 13)%nat then String backslash (String "r" rest)
      else if (n =? 9)%nat then String backslash (String "t" rest)
      else if ((n <? 32) || (n =? 127))%nat
      then String backslash (String "x" (hex2 n +:+ rest))
      else String c rest
  end.

(** [repr(s)]: single quotes, unless [s] has a single quote and no double
    quote. *)
Definition repr_str (s : string) : string :=
  let q : ascii :=
    if contains_char "'" s && negb (contains_char dquote s) then dquote
    else "'"%char in
  String q (repr_chars q s +:+ String q EmptyString).

(** [repr(x)] for a float [x]: the shortest decimal that reads back as
    [x].  It is the interpreter's business. *)
Class FloatText : Type := { float_text : Q -> string }.

(** A printer for running the definitions: numerator, slash, denominator. *)
Definition fraction_text : FloatText :=
  {| float_text := fun q => int_text (Qnum q) +:+ "/" +:+ pretty (N.pos (Qden q)) |}.

Section WithFloatText.
Context {FT : FloatText}.

(** [repr(v)] *)
Fixpoint repr (v : value) : string :=
  match v with
  | VNaN => "nan"
  | VNone => "None"
  | VBool true => "True"
  | VBool false => "False"
  | VInt z => int_text z
  | VFloat q => float_text q
  | VStr s => repr_str s
  | VList l => "[" +:+ PyStr.join ", " (map repr l) +:+ "]"
  | VDict items =>
      "{" +:+ PyStr.join ", "
                (map (fun kv => repr_str (fst kv) +:+ ": " +:+ repr (snd kv)) items)
          +:+ "}"
  end.

(** [str(v)] *)
Definition str (v : value) : string :=
  match v with
  | VStr s => s
  | _ => repr v
  end.

End WithFloatText.

(** [pd.isna(v)] on a scalar. *)
Definition isna (v : value) : bool :=
  match v with
  | VNaN | VNone => true
  | _ => false
  end.

End Py.

(** ** json.loads

    A recursive-descent reader for JSON texts: objects, arrays, strings
    with the one-letter escapes, integers and the three literals.
    Fractions, exponents and [\u] escapes are outside the fragment.
    [None] is [json.JSONDecodeError].  Every call spends one unit of fuel;
    [loads] supplies more than twice the length of the text. *)

Module Json.
Import Py.

Definition is_ws (c : ascii) : bool :=
  let n := nat_of_ascii c in
  ((n =? 32) || (n =? 9) || (n =? 10) || (n =? 13))%nat.

Fixpoint skip_ws (s : string) : string :=
  match s with
  | String c s' => if is_ws c then skip_ws s' else s
  | EmptyString => EmptyString
  end.

Definition is_digit (c : ascii) : bool :=
  let n := nat_of_ascii c in ((48 <=? n) && (n <=? 57))%nat.

(** The digits at the front of [s], as a number, and what follows. *)
Fixpoint read_digits (acc : Z) (s : string) : Z * string :=
  match s with
  | String c s' =>
      if is_digit c
      then read_digits (10 * acc + Z.of_nat (nat_of_ascii c - 48)) s'
      else (acc, s)
  | EmptyString => (acc, s)
  end.

(** An integer literal without sign: a lone 0, or digits that start with
    1 to 9. *)
Definition read_integer (s : string) : Z * string :=
  match s with
  | String "0" s' => (0%Z, s')
  | _ => read_digits 0 s
  end.

(** The characters of a string literal after its opening quote. *)
Fixpoint read_string (s : string) : option (string * string) :=
  match s with
  | EmptyString => None
  | String c s' =>
      if Ascii.eqb c dquote then Some (EmptyString, s')
      else if Ascii.eqb c backslash then
        match s' with
        | String e s'' =>
            let put (x : ascii) :=
              match read_string s'' with
              | Some (body, rest) => Some (String x body, rest)
              | None => None
              end in
            if Ascii.eqb e dquote then put dquote
            else if Ascii.eqb e backslash then put backslash
            else if Ascii.eqb e "/" then put "/"%char
            else if Ascii.eqb e "b" then put (ascii_of_nat 8)
            else if Ascii.eqb e "f" then put (ascii_of_nat 12)
            else if Ascii.eqb e "n" then put (ascii_of_nat 10)
            else if Ascii.eqb e "r" then put (ascii_of_nat 13)
            else if Ascii.eqb e "t" then put (ascii_of_nat 9)
            else None
        | EmptyString => None
        end
      else if (nat_of_ascii c <? 32)%nat then None
      else
        match read_string s' with
        | Some (body, rest) => Some (String c body, rest)
        | None => None
        end
  end.

Fixpoint read_value (fuel : nat) (s : string) : option (value * string) :=
  match fuel with
  | O => None
  | S fuel' =>
      match skip_ws s with
      | EmptyString => None
      | String c rest =>
          if Ascii.eqb c "[" then
            match skip_ws rest with
            | String "]" rest' => Some (VList [], rest')
            | _ => read_elements fuel' rest []
            end
          else if Ascii.eqb c "{" then
            match skip_ws rest with
            | String "}" rest' => Some (VDict [], rest')
            | _ => read_members fuel' rest []
            end
          else if Ascii.eqb c dquote then
            match read_string rest with
            | Some (body, rest') => Some (VStr body, rest')
            | None => None
            end
          else if Ascii.eqb c "-" then
            match rest with
            | String d _ =>
                if is_digit d
                then let '(n, rest') := read_integer rest in Some (VInt (- n), rest')
                else None
            | EmptyString => None
            end
          else if is_digit c then
            let '(n, rest') := read_integer (String c rest) in Some (VInt n, rest')
          else if PyStr.startswith "true" (String c rest)
          then Some (VBool true, PyStr.drop 4 (String c rest))
          else if PyStr.startswith "false" (String c rest)
          then Some (VBool false, PyStr.drop 5 (String c rest))
          else if PyStr.startswith "null" (String c rest)
          then Some (VNone, PyStr.drop 4 (String c rest))
          else None
      end
  end

with read_elements (fuel : nat) (s : string) (acc : list value)
    : option (value * string) :=
  match fuel with
  | O => None
  | S fuel' =>
      match read_value fuel' s with
      | Some (v, rest) =>
          match skip_ws rest with
          | String "," rest' => read_elements fuel' rest' (acc ++ [v])
          | String "]" rest' => Some (VList (acc ++ [v]), rest')
          | _ => None
          end
      | None => None
      end
  end

with read_members (fuel : nat) (s : string) (acc : list (string * value))
    : option (value * string) :=
  match fuel with
  | O => None
  | S fuel' =>
      match skip_ws s with
      | String q rest =>
          if Ascii.eqb q dquote then
            match read_string rest with
            | Some (key, rest1) =>
                match skip_ws rest1 with
                | String ":" rest2 =>
                    match read_value fuel' rest2 with
                    | Some (v, rest3) =>
                        match skip_ws rest3 with
                        | String "," rest4 =>
                            read_members fuel' rest4 (PyDict.set key v acc)
                        | String "}" rest4 =>
                            Some (VDict (PyDict.set key v acc), rest4)
                        | _ => None
                        end
                    | None => None
                    end
                | _ => None
                end
            | None => None
            end
          else None
      | EmptyString => None
      end
  end.

(** [json.loads(text)]: one value, then nothing but white space. *)
Definition loads (text : string) : option value :=
  match read_value (2 * String.length text + 2) text with
  | Some (v, rest) =>
      match skip_ws rest with
      | EmptyString => Some v
      | _ => None
      end
  | None => None
  end.

End Json.

(** ** DataFrames and CSV files

    A DataFrame is its column names and its rows of cells.  A file is
    either CSV text, kept as the header and the cell texts of each line
    (quoting and unquoting of cells is pandas' business), or text that
    [read_csv] cannot parse. *)

Module Frame.
Import Py.

Record DataFrame : Type := mk {
  columns : list string;
  rows : list (list value)
}.

(** [pd.DataFrame()] *)
Definition empty_frame : DataFrame := {| columns := []; rows := [] |}.

(** [len(df)] *)
Definition len (df : DataFrame) : nat := length (rows df).

(** [df.empty] *)
Definition is_empty (df : DataFrame) : bool :=
  match columns df, rows df with
  | [], _ | _, [] => true
  | _, _ => false
  end.

(** [col in df.columns] *)
Definition has_column (df : DataFrame) (col : string) : bool :=
  existsb (String.eqb col) (columns df).

(** The cell of [row] under [col], [NaN] when the frame has no such cell. *)
Fixpoint cell (cols : list string) (row : list value) (col : string) : value :=
  match cols, row with
  | c :: cols', v :: row' => if String.eqb col c then v else cell cols' row' col
  | _, _ => VNaN
  end.

(** [df[col]] as a list. *)
Definition column (df : DataFrame) (col : string) : list value :=
  map (fun row => cell (columns df) row col) (rows df).

(** [pd.concat([a, b], ignore_index=True)]: the columns of [a], then those
    of [b] that [a] lacks; cells a frame lacks are [NaN]. *)
Definition concat (a b : DataFrame) : DataFrame :=
  let cols :=
    columns a ++ filter (fun c => has_column a c = false) (columns b) in
  {| columns := cols;
     rows := map (fun row => map (cell (columns a) row) cols) (rows a)
          ++ map (fun row => map (cell (columns b) row) cols) (rows b) |}.

Inductive file : Type :=
| Csv (header : list string) (lines : list (list string))
| Garbage (raw : string).

Section WithFloatText.
Context {FT : FloatText}.

(** The text [to_csv] writes for a cell: missing values as the empty text,
    anything else through [str]. *)
Definition cell_text (v : value) : string :=
  if isna v then EmptyString else str v.

(** [df.to_csv(index=False)].  A file is kept as its fields, not as its
    characters: the quoting the writer adds and the reader removes is
    left out.  The two agree on a field unless it holds a carriage
    return on its own, which the writer leaves bare and the reader
    takes as the end of a line. *)
Definition to_csv (df : DataFrame) : file :=
  Csv (columns df) (map (map cell_text) (rows df)).

End WithFloatText.

(** A cell as [read_csv] hands it over: through the column's converter if
    it has one; otherwise the empty text is [NaN] and other text is kept
    (the inference of numeric columns is not modelled). *)
Definition read_cell (converters : PyDict.dict (string -> value))
    (col text : string) : value :=
  match PyDict.get col converters with
  | Some convert => convert text
  | None => match text with EmptyString => VNaN | _ => VStr text end
  end.

Fixpoint read_line (converters : PyDict.dict (string -> value))
    (header : list string) (line : list string) : list value :=
  match header with
  | [] => []
  | col :: header' =>
      match line with
      | [] => read_cell converters col EmptyString :: read_line converters header' []
      | text :: line' => read_cell converters col text :: read_line converters header' line'
      end
  end.

(** [pd.read_csv(file, converters=...)], on a file as its fields: what
    it raises on is what the three cases below say, for a header of
    non-empty, distinct names (the reader renames an empty or repeated
    name) and lines of fields without a bare carriage return; a line
    longer than the header is an error here, where the reader may take
    a leading field as the index when every line is longer. *)
Definition read_csv (converters : PyDict.dict (string -> value)) (f : file)
    : outcome DataFrame :=
  match f with
  | Garbage _ => Raise "ParserError: Error tokenizing data"
  | Csv [] _ => Raise "EmptyDataError: No columns to parse from file"
  | Csv header lines =>
      if existsb (fun line => (length header <? length line)%nat) lines
      then Raise "ParserError: Error tokenizing data"
      else Ret {| columns := header;
                  rows := map (read_line converters header) lines |}
  end.

End Frame.

(** ** The process state: files, clock, generator *)

Module Sys.
Import Frame.

Record World : Type := mkWorld {
  cwd : gmap string file;       (* the working directory, by file name *)
  backups : gmap string file;   (* BACKUP_DIR, by file name *)
  now : string;                 (* datetime.now().strftime("%Y%m%d_%H%M%S") *)
  now_iso : string;             (* datetime.now().isoformat() *)
  gen_calls : nat;              (* calls made to the generator so far *)
  slept : list Z                (* the time.sleep calls so far, latest first *)
}.

Definition with_cwd (w : World) (m : gmap string file) : World :=
  {| cwd := m; backups := backups w; now := now w; now_iso := now_iso w;
     gen_calls := gen_calls w; slept := slept w |}.

Definition with_backups (w : World) (m : gmap string file) : World :=
  {| cwd := cwd w; backups := m; now := now w; now_iso := now_iso w;
     gen_calls := gen_calls w; slept := slept w |}.

(** Computations that read and change the world and may raise. *)
Definition IO (A : Type) : Type := World -> outcome A * World.

Definition ret {A} (a : A) : IO A := fun w => (Ret a, w).
Definition raise {A} (e : string) : IO A := fun w => (Raise e, w).

Definition bind {A B} (m : IO A) (k : A -> IO B) : IO B :=
  fun w =>
    match m w with
    | (Ret a, w') => k a w'
    | (Raise e, w') => (Raise e, w')
    end.

(** [try: m / except Exception as e: handler(e)] *)
Definition try_except {A} (m : IO A) (handler : string -> IO A) : IO A :=
  fun w =>
    match m w with
    | (Ret a, w') => (Ret a, w')
    | (Raise e, w') => handler e w'
    end.

Notation "'do' x <- m ; k" := (bind m (fun x => k))
  (at level 10, x name, m at level 100, k at level 200).
Notation "m ;; k" := (bind m (fun _ => k))
  (at level 100, k at level 200, right associativity).

(** [for x in l: body(x)] *)
Fixpoint for_each {A} (l : list A) (body : A -> IO unit) : IO unit :=
  match l with
  | [] => ret tt
  | x :: l' => body x ;; for_each l' body
  end.

(** [os.path.exists(name)], in the working directory. *)
Definition path_exists (name : string) : IO bool :=
  fun w => (Ret (bool_decide (is_Some (cwd w !! name))), w).

(** [shutil.copy2(name, os.path.join(BACKUP_DIR, backup_name))] *)
Definition copy_to_backups (name backup_name : string) : IO unit :=
  fun w =>
    match cwd w !! name with
    | Some f => (Ret tt, with_backups w (<[backup_name := f]> (backups w)))
    | None => (Raise "FileNotFoundError", w)
    end.

(** [os.rename(src, dst)] and [os.replace(src, dst)], in the working
    directory: [dst] is overwritten. *)
Definition rename (src dst : string) : IO unit :=
  fun w =>
    match cwd w !! src with
    | Some f => (Ret tt, with_cwd w (<[dst := f]> (delete src (cwd w))))
    | None => (Raise "FileNotFoundError", w)
    end.

(** [os.remove(name)], in the working directory. *)
Definition remove (name : string) : IO unit :=
  fun w =>
    match cwd w !! name with
    | Some _ => (Ret tt, with_cwd w (delete name (cwd w)))
    | None => (Raise "FileNotFoundError", w)
    end.

(** [os.remove(os.path.join(BACKUP_DIR, name))] *)
Definition remove_backup (name : string) : IO unit :=
  fun w =>
    match backups w !! name with
    | Some _ => (Ret tt, with_backups w (delete name (backups w)))
    | None => (Raise "FileNotFoundError", w)
    end.

(** [os.listdir(BACKUP_DIR)] *)
Definition listdir_backups : IO (list string) :=
  fun w => (Ret (elements (dom (backups w))), w).

(** [df.to_csv(name, index=False)] *)
Definition write_csv {FT : Py.FloatText} (df : DataFrame) (name : string)
    : IO unit :=
  fun w => (Ret tt, with_cwd w (<[name := to_csv df]> (cwd w))).

(** [pd.read_csv(name, converters=...)] *)
Definition read_csv_file (name : string)
    (converters : PyDict.dict (string -> Py.value)) : IO DataFrame :=
  fun w =>
    match cwd w !! name with
    | Some f => (read_csv converters f, w)
    | None => (Raise "FileNotFoundError", w)
    end.

End Sys.

(** ** config.py *)

Module Config.
Definition CHECKPOINT_FILE : string := "drug_extraction_checkpoint.csv".
Definition BACKUP_DIR : string := "checkpoint_backups".
Definition BATCH_SIZE : nat := 40.
Definition MAX_RETRIES : nat := 3.
Definition RETRY_DELAY : Z := 5.
Definition FUZZY_MATCH_THRESHOLD : Z := 85.
End Config.

(** ** data_utils.py: the checkpoint store *)

Module DataUtils.
Import Py Frame Sys Config.

(** [safe_json_loads]; the converter is handed the text of a cell. *)
Definition safe_json_loads (x : string) : value :=
  let stripped := PyStr.strip x in
  if String.eqb stripped EmptyString || String.eqb stripped "{}"
     || String.eqb stripped "[]"
  then VList []
  else match Json.loads x with
       | Some v => v
       | None => VList []
       end.

(** The backup directory is made when config.py is imported, so it is
    there: nothing to do. *)
Definition create_backup_dir : IO unit := ret tt.

(** The name, inside [BACKUP_DIR], that [get_backup_filename] returns. *)
Definition get_backup_filename : IO string :=
  fun w => (Ret ("checkpoint_backup_" +:+ now w +:+ ".csv"), w).

Definition atomic_write {FT : FloatText} (df : DataFrame) (filename : string)
    : IO unit :=
  let temp_file := filename +:+ ".tmp" in
  try_except
    (write_csv df temp_file ;;
     rename temp_file filename)
    (fun e =>
       do there <- path_exists temp_file;
       (if there : bool then remove temp_file else ret tt) ;;
       raise e).

Definition converters : PyDict.dict (string -> value) :=
  [("unique_drugs", safe_json_loads);
   ("extracted_drugs", safe_json_loads);
   ("json_extraction", safe_json_loads)].

Definition required_columns : list string :=
  ["unique_key"; "text_concat"; "extracted_drugs"].

Definition load_checkpoint : IO DataFrame :=
  create_backup_dir ;;
  do there <- path_exists CHECKPOINT_FILE;
  if there : bool then
    try_except
      (do df <- read_csv_file CHECKPOINT_FILE converters;
       if forallb (has_column df) required_columns
       then ret df
       else raise "Corrupted checkpoint - missing required columns")
      (fun e =>
         do backup_file <- get_backup_filename;
         try_except
           (copy_to_backups CHECKPOINT_FILE backup_file)
           (fun backup_error => ret tt) ;;
         rename CHECKPOINT_FILE (CHECKPOINT_FILE +:+ ".corrupted") ;;
         ret empty_frame)
  else ret empty_frame.

(** [a <= b] on file names, as [sorted] compares them. *)
Definition name_le (a b : string) : Prop := PyStr.leb a b = true.

#[global] Instance name_le_dec (a b : string) : Decision (name_le a b).
Proof. unfold name_le. apply _. Defined.

(** [sorted(f for f in names if f.startswith("checkpoint_backup_"))] *)
Definition backup_files_of (names : list string) : list string :=
  merge_sort name_le
    (filter (fun f => PyStr.startswith "checkpoint_backup_" f = true) names).

(** [l[:-5]] *)
Definition all_but_last_5 {A} (l : list A) : list A :=
  firstn (length l - 5) l.

(** The three blocks of [save_checkpoint]: the backup of the file in
    place, the write, the pruning of old backups. *)
Definition backup_current : IO unit :=
  do there <- path_exists CHECKPOINT_FILE;
  if there : bool then
    do backup_file <- get_backup_filename;
    copy_to_backups CHECKPOINT_FILE backup_file
  else ret tt.

Definition prune_backups : IO unit :=
  do names <- listdir_backups;
  let backup_files := backup_files_of names in
  if (5 <? length backup_files)%nat
  then for_each (all_but_last_5 backup_files) remove_backup
  else ret tt.

Definition save_checkpoint {FT : FloatText} (df : DataFrame) : IO unit :=
  try_except
    (backup_current ;;
     atomic_write df CHECKPOINT_FILE ;;
     prune_backups)
    (fun e => raise e).

End DataUtils.

(** ** json.dumps *)

Module JsonOut.
Import Py.

Definition hex4 (n : nat) : string := "00" +:+ hex2 n.

(** The body of a JSON string literal. *)
Fixpoint escape (ensure_ascii : bool) (s : string) : string :=
  match s with
  | EmptyString => EmptyString
  | String c s' =>
      let n := nat_of_ascii c in
      let rest := escape ensure_ascii s' in
      if Ascii.eqb c dquote then String backslash (String dquote rest)
      else if Ascii.eqb c backslash then String backslash (String backslash rest)
      else if (n =? 10)%nat then String backslash (String "n" rest)
      else if (n =? 13)%nat then String backslash (String "r" rest)
      else if (n =? 9)%nat then String backslash (String "t" rest)
      else if (n =? 8)%nat then String backslash (String "b" rest)
      else if (n =? 12)%nat then String backslash (String "f" rest)
      else if ((n <? 32) || (ensure_ascii && (127 <? n)))%nat
      then String backslash (String "u" (hex4 n +:+ rest))
      else String c rest
  end.

Definition quoted (ensure_ascii : bool) (s : string) : string :=
  String dquote (escape ensure_ascii s +:+ String dquote EmptyString).

Fixpoint spaces (n : nat) : string :=
  match n with
  | O => EmptyString
  | S n' => String " " (spaces n')
  end.

Definition newline : string := String (ascii_of_nat 10) EmptyString.

(** The items of an array or object, laid out: on one line after
    [", "], or one per line at depth [level + 1] when [indent] is given. *)
Definition layout (indent : option nat) (level : nat) (opening closing : string)
    (items : list string) : string :=
  match items, indent with
  | [], _ => opening +:+ closing
  | _, None => opening +:+ PyStr.join ", " items +:+ closing
  | _, Some n =>
      let inner := newline +:+ spaces (n * S level) in
      opening +:+ inner +:+ PyStr.join ("," +:+ inner) items
        +:+ newline +:+ spaces (n * level) +:+ closing
  end.

Section WithFloatText.
Context {FT : FloatText}.

Fixpoint dumps_at (ensure_ascii : bool) (indent : option nat) (level : nat)
    (v : value) : string :=
  match v with
  | VNaN => "NaN"
  | VNone => "null"
  | VBool true => "true"
  | VBool false => "false"
  | VInt z => int_text z
  | VFloat q => float_text q
  | VStr s => quoted ensure_ascii s
  | VList l =>
      layout indent level "[" "]"
        (map (dumps_at ensure_ascii indent (S level)) l)
  | VDict items =>
      layout indent level "{" "}"
        (map (fun kv => quoted ensure_ascii (fst kv) +:+ ": "
                          +:+ dumps_at ensure_ascii indent (S level) (snd kv))
             items)
  end.

(** [json.dumps(v, ensure_ascii=..., indent=...)] *)
Definition dumps (ensure_ascii : bool) (indent : option nat) (v : value) : string :=
  dumps_at ensure_ascii indent 0 v.

End WithFloatText.

(** A dict of string lists, as a value. *)
Definition of_lists (d : PyDict.dict (list string)) : value :=
  VDict (map (fun kv => (fst kv, VList (map VStr (snd kv)))) d).

End JsonOut.

(** ** The batch pipeline: [process_batch] (data_utils.py) and main.py *)

Module Pipeline.
Import Py Frame Sys Config DataUtils.

(** A record of the raw data, after [run_pipeline] has derived
    [unique_key] and normalised the two ground-truth lists. *)
Record raw_record : Type := mk_raw {
  unique_key : string;
  text_concat : string;
  unique_drugs : list string;
  regimens : list string
}.

(** What the generator hands back for one prompt: a dict of string lists
    (the shape [DRUG_SCHEMA] asks for, keys possibly absent), or something
    on which [json.loads] or [.get] raises, with the text of the
    exception. *)
Inductive response : Type :=
| Structured (data : PyDict.dict (list string))
| Malformed (e : string).

(** One call of the generator: the responses, or an exception. *)
Inductive generation : Type :=
| Responses (l : list response)
| GenerationError (e : string).

(** The collaborators of model_utils.py.  [generator n prompts] is what
    the [n]-th call (from 0) answers to [prompts]. *)
Class Collaborators : Type := {
  format_prompt : string -> string;
  generator : nat -> list string -> generation
}.

(** A row of the frame [process_batch] returns. *)
Record result_row : Type := mk_result {
  r_unique_key : string;
  r_text_concat : string;
  json_extraction : string;
  extracted_drugs : list string;
  extracted_regimens : list string;
  processing_timestamp : string;
  error : option string
}.

Definition with_gen_calls (w : World) (n : nat) : World :=
  {| cwd := cwd w; backups := backups w; now := now w; now_iso := now_iso w;
     gen_calls := n; slept := slept w |}.

Definition with_slept (w : World) (l : list Z) : World :=
  {| cwd := cwd w; backups := backups w; now := now w; now_iso := now_iso w;
     gen_calls := gen_calls w; slept := l |}.

(** [time.sleep(seconds)] *)
Definition sleep (seconds : Z) : IO unit :=
  fun w => (Ret tt, with_slept w (seconds :: slept w)).

(** [datetime.now().isoformat()] *)
Definition isoformat_now : IO string := fun w => (Ret (now_iso w), w).

Definition lift {A} (o : outcome A) : IO A := fun w => (o, w).

Section WithCollaborators.
Context {C : Collaborators} {FT : FloatText} {F : Fuzz}.

(** [generator(prompts, sampling_params=sampling_params)] *)
Definition call_generator (prompts : list string) : IO (list response) :=
  fun w =>
    let w' := with_gen_calls w (S (gen_calls w)) in
    match generator (gen_calls w) prompts with
    | Responses l => (Ret l, w')
    | GenerationError e => (Raise e, w')
    end.

(** The row appended in both [except] branches of [process_batch]. *)
Definition failed_row (stamp e : string) (row : raw_record) : result_row :=
  {| r_unique_key := unique_key row;
     r_text_concat := text_concat row;
     json_extraction := "{}";
     extracted_drugs := [];
     extracted_regimens := [];
     processing_timestamp := stamp;
     error := Some (PyStr.take 200 e) |}.

(** [data.get(key, [])] *)
Definition get_list (key : string) (data : PyDict.dict (list string)) : list string :=
  match PyDict.get key data with
  | Some l => l
  | None => []
  end.

(** The body of the loop over the responses. *)
Definition row_of_response (stamp : string) (pair : response * raw_record)
    : result_row :=
  let '(response, row) := pair in
  match response with
  | Structured data =>
      {| r_unique_key := unique_key row;
         r_text_concat := text_concat row;
         json_extraction := JsonOut.dumps false None (JsonOut.of_lists data);
         extracted_drugs := get_list "drugs" data;
         extracted_regimens := get_list "regimens" data;
         processing_timestamp := stamp;
         error := None |}
  | Malformed e => failed_row stamp e row
  end.

(** [process_batch].  The clock is read once: it does not move while the
    rows are built. *)
Definition process_batch (batch_df : list raw_record) : IO (list result_row) :=
  let prompts := map (fun row => format_prompt (text_concat row)) batch_df in
  try_except
    (do responses <- call_generator prompts;
     do stamp <- isoformat_now;
     ret (map (row_of_response stamp) (combine responses batch_df)))
    (fun e =>
       do stamp <- isoformat_now;
       ret (map (failed_row stamp e) batch_df)).

(** The loop of [process_with_retry], from attempt number [attempt] with
    [remaining] turns to go.  Falling off the loop returns [None]. *)
Fixpoint retry_from (attempt remaining max_retries : nat)
    (batch : list raw_record) : IO (option (list result_row)) :=
  match remaining with
  | O => ret None
  | S remaining' =>
      try_except
        (do results <- process_batch batch; ret (Some results))
        (fun e =>
           if (attempt =? max_retries - 1)%nat then raise e
           else sleep RETRY_DELAY ;;
                retry_from (S attempt) remaining' max_retries batch)
  end.

Definition process_with_retry (batch : list raw_record) (max_retries : nat)
    : IO (option (list result_row)) :=
  retry_from 0 max_retries max_retries batch.

(** [pd.merge(batch, batch_results, on=["unique_key", "text_concat"],
    how="left")]: every row of [batch], in order, once with each matching
    result, or once with no result ([NaN] cells) when none matches. *)
Definition matches (row : raw_record) (r : result_row) : bool :=
  String.eqb (unique_key row) (r_unique_key r)
  && String.eqb (text_concat row) (r_text_concat r).

Definition merge_left (batch : list raw_record) (batch_results : list result_row)
    : list (raw_record * option result_row) :=
  flat_map
    (fun row =>
       match List.filter (matches row) batch_results with
       | [] => [(row, None)]
       | found => map (fun r => (row, Some r)) found
       end)
    batch.

(** A row of the checkpoint, as the batch loop completes it. *)
Record processed_row : Type := mk_processed {
  p_raw : raw_record;
  p_result : result_row;
  p_scores : Metrics.scores;
  p_regimen_scores : Metrics.scores;
  normalized_drugs : list (option string);
  p_normalized_scores : Metrics.scores;
  combined_drugs : gset string;
  mapped_regimen_drugs : string
}.

(** All entries of a list, if none is [None]. *)
Fixpoint all_strings (l : list (option string)) : option (list string) :=
  match l with
  | [] => Some []
  | Some s :: l' =>
      match all_strings l' with
      | Some r => Some (s :: r)
      | None => None
      end
  | None :: _ => None
  end.

(** [compute_metrics(row, use_normalized=True)]: a [None] among the
    normalised drugs is skipped when the set is built and raises at
    [drug.lower()] when the hallucinated drugs are listed. *)
Definition compute_metrics_normalized (normalized : list (option string))
    (ground_truth : list string) : outcome Metrics.scores :=
  match all_strings normalized with
  | Some drugs => Ret (Metrics.compute_metrics drugs ground_truth)
  | None => Raise "AttributeError: 'NoneType' object has no attribute 'lower'"
  end.

(** The dict comprehension of [mapped_regimen_drugs]. *)
Fixpoint mapped_regimens (mapper : RegimenDrugMapper.t) (acc : PyDict.dict (list string))
    (extracted_regimens : list string) : outcome (PyDict.dict (list string)) :=
  match extracted_regimens with
  | [] => Ret acc
  | regimen :: rest =>
      if PyStr.truthy regimen then
        match RegimenDrugMapper.get_drugs_from_regimen mapper regimen with
        | Ret drugs => mapped_regimens mapper (PyDict.set regimen drugs acc) rest
        | Raise e => Raise e
        end
      else mapped_regimens mapper acc rest
  end.

(** The metric, normalisation and mapping steps of the batch loop on one
    merged row.  (pandas runs each step over the whole batch before the
    next; only the text of the exception that surfaces can depend on
    that.) *)
Definition complete_row (normalizer : DrugNormalizer.t)
    (regimen_mapper : RegimenDrugMapper.t)
    (merged : raw_record * option result_row) : outcome processed_row :=
  let '(row, found) := merged in
  match found with
  | None => Raise "TypeError: 'float' object is not iterable"
  | Some r =>
      let normalized := DrugNormalizer.normalize_drugs normalizer (extracted_drugs r) in
      match compute_metrics_normalized normalized (unique_drugs row) with
      | Raise e => Raise e
      | Ret normalized_scores =>
          match RegimenDrugMapper.get_combined_drugs regimen_mapper
                  (extracted_drugs r) (extracted_regimens r) with
          | Raise e => Raise e
          | Ret combined =>
              match mapped_regimens regimen_mapper [] (extracted_regimens r) with
              | Raise e => Raise e
              | Ret mapped =>
                  Ret {| p_raw := row;
                         p_result := r;
                         p_scores :=
                           Metrics.compute_metrics (extracted_drugs r) (unique_drugs row);
                         p_regimen_scores :=
                           Metrics.compute_regimen_metrics
                             (extracted_regimens r) (regimens row);
                         normalized_drugs := normalized;
                         p_normalized_scores := normalized_scores;
                         combined_drugs := combined;
                         mapped_regimen_drugs :=
                           JsonOut.dumps true (Some 2) (JsonOut.of_lists mapped) |}
              end
          end
      end
  end.

Fixpoint complete_rows (normalizer : DrugNormalizer.t)
    (regimen_mapper : RegimenDrugMapper.t)
    (merged : list (raw_record * option result_row)) : outcome (list processed_row) :=
  match merged with
  | [] => Ret []
  | m :: rest =>
      match complete_row normalizer regimen_mapper m with
      | Raise e => Raise e
      | Ret p =>
          match complete_rows normalizer regimen_mapper rest with
          | Raise e => Raise e
          | Ret ps => Ret (p :: ps)
          end
      end
  end.

End WithCollaborators.
End Pipeline.

(** ** main.py: the batch loop of [run_pipeline] *)

Module Main.
Import Py Frame Sys Config DataUtils Pipeline.

Definition strings (l : list string) : value := VList (map VStr l).

Definition optional_string (o : option string) : value :=
  match o with
  | Some s => VStr s
  | None => VNone
  end.

(** The columns of a merged batch: those of the raw record, those
    [process_batch] adds ([error] only when some row of the batch has
    one), then the columns the loop assigns, in the order it assigns
    them. *)
Definition merged_columns (with_error : bool) : list string :=
  ["unique_key"; "text_concat"; "unique_drugs"; "regimens";
   "json_extraction"; "extracted_drugs"; "extracted_regimens";
   "processing_timestamp"]
  ++ (if with_error then ["error"] else [])
  ++ ["precision"; "recall"; "f1"; "missing_drugs"; "hallucinated_drugs";
      "precision_regimen"; "recall_regimen"; "f1_regimen";
      "missing_regimens"; "hallucinated_regimens";
      "normalized_drugs";
      "normalized_precision"; "normalized_recall"; "normalized_f1";
      "normalized_missing_drugs"; "normalized_hallucinated_drugs";
      "combined_drugs"; "mapped_regimen_drugs"].

Definition score_cells (s : Metrics.scores) : list value :=
  [VFloat (Metrics.precision s); VFloat (Metrics.recall s); VFloat (Metrics.f1 s);
   strings (Metrics.missing s); strings (Metrics.hallucinated s)].

Definition merged_cells (with_error : bool) (p : processed_row) : list value :=
  let r := p_result p in
  [VStr (unique_key (p_raw p)); VStr (text_concat (p_raw p));
   strings (unique_drugs (p_raw p)); strings (regimens (p_raw p));
   VStr (json_extraction r); strings (extracted_drugs r);
   strings (extracted_regimens r); VStr (processing_timestamp r)]
  ++ (if with_error
      then [match error r with Some e => VStr e | None => VNaN end]
      else [])
  ++ score_cells (p_scores p)
  ++ score_cells (p_regimen_scores p)
  ++ [VList (map optional_string (normalized_drugs p))]
  ++ score_cells (p_normalized_scores p)
  ++ [strings (elements (combined_drugs p)); VStr (mapped_regimen_drugs p)].

Definition has_error (p : processed_row) : bool :=
  match error (p_result p) with Some _ => true | None => false end.

(** The merged batch as a frame. *)
Definition frame_of (merged : list processed_row) : DataFrame :=
  let with_error := existsb has_error merged in
  {| columns := merged_columns with_error;
     rows := map (merged_cells with_error) merged |}.

Section WithCollaborators.
Context {C : Collaborators} {FT : FloatText} {F : Fuzz}.

(** From [process_with_retry] to the end of the metric steps. *)
Definition merged_batch (normalizer : DrugNormalizer.t)
    (regimen_mapper : RegimenDrugMapper.t) (batch : list raw_record)
    : IO (list processed_row) :=
  do batch_results <- process_with_retry batch MAX_RETRIES;
  match batch_results with
  | None => raise "TypeError: Can only merge Series or DataFrame objects"
  | Some results =>
      lift (complete_rows normalizer regimen_mapper (merge_left batch results))
  end.

(** One turn of the batch loop: the new [df].  Whatever the [try] block
    raises, the handler saves the [df] of that moment and raises again. *)
Definition run_batch (normalizer : DrugNormalizer.t)
    (regimen_mapper : RegimenDrugMapper.t) (df : DataFrame)
    (batch : list raw_record) : IO DataFrame :=
  do merged <-
    try_except (merged_batch normalizer regimen_mapper batch)
               (fun e => save_checkpoint df ;; raise e);
  let df' := concat df (frame_of merged) in
  try_except (save_checkpoint df')
             (fun e => save_checkpoint df' ;; raise e) ;;
  ret df'.

(** [todo.iloc[i:i+BATCH_SIZE]] for [i] in [range(0, len(todo), BATCH_SIZE)] *)
Fixpoint batches_from (size turns : nat) (todo : list raw_record)
    : list (list raw_record) :=
  match turns, todo with
  | S turns', _ :: _ => firstn size todo :: batches_from size turns' (skipn size todo)
  | _, _ => []
  end.

Definition batches (size : nat) (todo : list raw_record) : list (list raw_record) :=
  batches_from size (length todo) todo.

Fixpoint run_batches (normalizer : DrugNormalizer.t)
    (regimen_mapper : RegimenDrugMapper.t) (df : DataFrame)
    (todo : list (list raw_record)) : IO DataFrame :=
  match todo with
  | [] => ret df
  | batch :: rest =>
      do df' <- run_batch normalizer regimen_mapper df batch;
      run_batches normalizer regimen_mapper df' rest
  end.

Definition is_key (key : string) (v : value) : bool :=
  match v with
  | VStr s => String.eqb key s
  | _ => false
  end.

(** [run_pipeline], given the raw records and the lines of the two
    reference files.  The reports [print_avg_metrics] prints are left
    out: they read [df] only, and may raise on a [df] without the metric
    columns, so the outcome stands for a run whose reports go through;
    the world does not depend on them. *)
Definition run_pipeline (raw_data : list raw_record)
    (synonym_rows : list DrugNormalizer.synonym_row)
    (regimen_rows : list RegimenDrugMapper.regimen_row) : IO DataFrame :=
  do df <- load_checkpoint;
  let processed_keys :=
    if is_empty df then [] else column df "unique_key" in
  let todo :=
    List.filter (fun r => negb (existsb (is_key (unique_key r)) processed_keys))
                raw_data in
  match todo with
  | [] => ret df
  | _ =>
      let normalizer := DrugNormalizer.init synonym_rows 85 in
      let regimen_mapper := RegimenDrugMapper.init regimen_rows 70 in
      run_batches normalizer regimen_mapper df (batches BATCH_SIZE todo)
  end.

End WithCollaborators.
End Main.

(** * Properties *)

(** ** Strings *)

Module PyStrFacts.
Import PyStr.

Lemma is_space_lower_char (c : ascii) : is_space (lower_char c) = is_space c.
Proof. destruct c as [[] [] [] [] [] [] [] []]; reflexivity. Qed.

Lemma lower_char_idem (c : ascii) : lower_char (lower_char c) = lower_char c.
Proof. destruct c as [[] [] [] [] [] [] [] []]; reflexivity. Qed.

Lemma lower_idem (s : string) : lower (lower s) = lower s.
Proof.
  induction s as [|c s IH]; simpl; [reflexivity|].
  now rewrite lower_char_idem, IH.
Qed.

Lemma lower_empty (s : string) : lower s = EmptyString <-> s = EmptyString.
Proof. destruct s; simpl; split; congruence. Qed.

Lemma lstrip_lower (s : string) : lstrip (lower s) = lower (lstrip s).
Proof.
  induction s as [|c s IH]; simpl; [reflexivity|].
  rewrite is_space_lower_char. destruct (is_space c); [exact IH | reflexivity].
Qed.

Lemma rstrip_lower (s : string) : rstrip (lower s) = lower (rstrip s).
Proof.
  induction s as [|c s IH]; simpl; [reflexivity|].
  rewrite IH, is_space_lower_char.
  destruct (rstrip s) as [|d r]; simpl; [|reflexivity].
  destruct (is_space c); reflexivity.
Qed.

Lemma strip_lower (s : string) : strip (lower s) = lower (strip s).
Proof. unfold strip. now rewrite rstrip_lower, lstrip_lower. Qed.

(** [lstrip] leaves a text that does not start with white space alone. *)
Lemma lstrip_lstrip (s : string) : lstrip (lstrip s) = lstrip s.
Proof.
  induction s as [|c s IH]; simpl; [reflexivity|].
  destruct (is_space c) eqn:E; [exact IH|]. simpl. now rewrite E.
Qed.

Lemma rstrip_rstrip (s : string) : rstrip (rstrip s) = rstrip s.
Proof.
  induction s as [|c s IH]; simpl; [reflexivity|].
  destruct (rstrip s) as [|d r] eqn:E.
  - destruct (is_space c) eqn:Ec; simpl; [reflexivity|]. now rewrite Ec.
  - simpl in *. rewrite IH. reflexivity.
Qed.

(** Dropping leading white space keeps the end of the text clean. *)
Lemma rstrip_lstrip_fixed (s : string) :
  rstrip s = s -> rstrip (lstrip s) = lstrip s.
Proof.
  induction s as [|c s IH]; simpl; [reflexivity|].
  intros H. destruct (is_space c) eqn:Ec.
  - destruct (rstrip s) as [|d r] eqn:E; [discriminate|].
    apply IH. congruence.
  - simpl. rewrite Ec. exact H.
Qed.

Lemma strip_idem (s : string) : strip (strip s) = strip s.
Proof.
  unfold strip.
  rewrite (rstrip_lstrip_fixed (rstrip s)) by apply rstrip_rstrip.
  apply lstrip_lstrip.
Qed.

(** The form every key of a loaded synonym table has. *)
Lemma normal_form_fixed (s : string) :
  lower (strip (lower (strip s))) = lower (strip s).
Proof. now rewrite strip_lower, strip_idem, lower_idem. Qed.

Lemma truthy_lower (s : string) : truthy (lower s) = truthy s.
Proof. destruct s; reflexivity. Qed.

Lemma take_nonempty (n : nat) (s : string) :
  s <> EmptyString -> (0 < n)%nat -> take n s <> EmptyString.
Proof. destruct n, s; simpl; intros; try lia; congruence. Qed.

End PyStrFacts.

(** ** Dictionaries *)

Module PyDictFacts.
Import PyDict.

Lemma get_set_eq {V} (k : string) (v : V) (d : dict V) :
  get k (set k v d) = Some v.
Proof.
  induction d as [|[k' v'] d IH]; simpl.
  - now rewrite String.eqb_refl.
  - destruct (String.eqb k k') eqn:E; simpl; rewrite E; [reflexivity | exact IH].
Qed.

Lemma keys_set {V} (k : string) (v : V) (d : dict V) (k0 : string) :
  In k0 (keys (set k v d)) -> k0 = k \/ In k0 (keys d).
Proof.
  induction d as [|[k' v'] d IH]; simpl.
  - intros [H|[]]; auto.
  - destruct (String.eqb k k') eqn:E; simpl.
    + intros [H|H]; auto.
    + intros [H|H]; auto. destruct (IH H); auto.
Qed.

Lemma get_Some_key {V} (k : string) (v : V) (d : dict V) :
  get k d = Some v -> In k (keys d).
Proof.
  induction d as [|[k' v'] d IH]; simpl; [discriminate|].
  destruct (String.eqb k k') eqn:E.
  - apply String.eqb_eq in E. subst. auto.
  - auto.
Qed.

End PyDictFacts.

(** ** The drug normaliser *)

Module DrugNormalizerFacts.
Import PyStr PyStrFacts PyDict PyDictFacts DrugNormalizer.

(** A key in the form [_load_synonyms] gives it: non-empty, stripped and
    lowered. *)
Definition normal_key (k : string) : Prop :=
  truthy k = true /\ lower (strip k) = k.

Lemma normal_key_of_stripped (x : string) :
  truthy (strip x) = true -> normal_key (lower (strip x)).
Proof.
  intros H. split.
  - now rewrite truthy_lower.
  - apply normal_form_fixed.
Qed.

Lemma add_synonyms_keys (generic_name : string) (synonyms : list string)
    (m : dict string) :
  Forall (fun s => exists x, s = strip x) synonyms ->
  Forall normal_key (keys m) ->
  Forall normal_key (keys (add_synonyms generic_name synonyms m)).
Proof.
  unfold add_synonyms. revert m.
  induction synonyms as [|s l IH]; simpl; intros m Hs Hm; [exact Hm|].
  inversion Hs as [|? ? [x ->] Hl]; subst.
  apply IH; [exact Hl|].
  destruct (truthy (strip x)) eqn:E; [|exact Hm].
  apply List.Forall_forall. intros k Hk.
  destruct (keys_set _ _ _ _ Hk) as [->|Hin].
  - now apply normal_key_of_stripped.
  - rewrite List.Forall_forall in Hm. auto.
Qed.

Lemma load_row_keys (m : dict string) (row : synonym_row) :
  Forall normal_key (keys m) -> Forall normal_key (keys (load_row m row)).
Proof.
  intros Hm. unfold load_row. apply add_synonyms_keys; [|exact Hm].
  apply List.Forall_app. split.
  - apply List.Forall_forall. intros s Hs.
    apply List.in_map_iff in Hs as [x [<- _]]. now exists x.
  - constructor; [|constructor]. now exists (DrugName row).
Qed.

(** Every key of a loaded synonym table is non-empty, stripped, lowered. *)
Lemma load_synonyms_keys (rows : list synonym_row) :
  Forall normal_key (keys (_load_synonyms rows)).
Proof.
  unfold _load_synonyms.
  assert (G : forall m, Forall normal_key (keys m) ->
                        Forall normal_key (keys (fold_left load_row rows m))).
  { induction rows as [|r rows IH]; simpl; intros m Hm; [exact Hm|].
    apply IH. now apply load_row_keys. }
  apply G. constructor.
Qed.

Section WithFuzz.
Context {F : Fuzz}.

(** The exact lookup answers before any score is computed. *)
Lemma find_best_match_exact (self : t) (drug_name generic : string) :
  truthy (strip drug_name) = true ->
  get (lower (strip drug_name)) (synonym_map self) = Some generic ->
  _find_best_match self drug_name = Some generic.
Proof.
  intros Hb Hg. unfold _find_best_match. rewrite Hb. simpl. now rewrite Hg.
Qed.

(** C5. For every threshold and every string that is a key of the loaded
    synonym table, [_find_best_match] returns the canonical name the
    table maps it to, whatever the scorer says about the other keys. *)
Theorem exact_synonym_wins (rows : list synonym_row) (threshold : Z)
    (key canonical : string) :
  get key (_load_synonyms rows) = Some canonical ->
  _find_best_match (init rows threshold) key = Some canonical.
Proof.
  intros Hg.
  pose proof (load_synonyms_keys rows) as Hk.
  rewrite List.Forall_forall in Hk.
  destruct (Hk key (get_Some_key _ _ _ Hg)) as [Ht Hn].
  apply find_best_match_exact; simpl.
  - rewrite <- Hn in Ht. now rewrite truthy_lower in Ht.
  - now rewrite Hn.
Qed.

End WithFuzz.

Lemma exact_synonym_wins_witness :
  let rows := [mk_row "Vincristine" "Oncovin, VCR , vincristin"] in
  get "vcr" (_load_synonyms rows) = Some "Vincristine"
  /\ @_find_best_match position_fuzz (init rows 0) "vcr" = Some "Vincristine".
Proof.
  split; [reflexivity|].
  apply (@exact_synonym_wins position_fuzz). reflexivity.
Defined.

End DrugNormalizerFacts.

Module NormalizeDrugsFacts.
Import PyStr PyStrFacts PyDict PyDictFacts DrugNormalizer.

Section Unique.
Implicit Types (seen : gset (option string)) (l : list (option string)).

Lemma unique_not_seen seen l x :
  x ∈ unique_in_order seen l -> (x ∉ seen) /\ (x ∈ l).
Proof.
  revert seen. induction l as [|h t IH]; simpl; intros seen Hx.
  - inversion Hx.
  - destruct (decide (h ∈ seen)) as [Hh|Hh].
    + destruct (IH _ Hx) as [H1 H2]. split; [exact H1 | now right].
    + apply elem_of_cons in Hx as [->|Hx].
      * split; [exact Hh | now left].
      * destruct (IH _ Hx) as [H1 H2]. split; [set_solver | now right].
Qed.

Lemma unique_complete seen l x :
  x ∈ l -> x ∉ seen -> x ∈ unique_in_order seen l.
Proof.
  revert seen. induction l as [|h t IH]; simpl; intros seen Hx Hs.
  - inversion Hx.
  - destruct (decide (h ∈ seen)) as [Hh|Hh].
    + apply elem_of_cons in Hx as [->|Hx]; [contradiction | now apply IH].
    + destruct (decide (x = h)) as [->|Hne]; [now left|].
      right. apply elem_of_cons in Hx as [->|Hx]; [contradiction|].
      apply IH; [exact Hx | set_solver].
Qed.

Lemma unique_NoDup seen l : NoDup (unique_in_order seen l).
Proof.
  revert seen. induction l as [|h t IH]; simpl; intros seen.
  - constructor.
  - destruct (decide (h ∈ seen)); [apply IH|].
    constructor; [|apply IH].
    intros Hin. apply unique_not_seen in Hin as [Hin _]. set_solver.
Qed.

Lemma unique_sublist seen l : (unique_in_order seen l) `sublist_of` l.
Proof.
  revert seen. induction l as [|h t IH]; simpl; intros seen.
  - constructor.
  - destruct (decide (h ∈ seen)).
    + apply sublist_cons, IH.
    + apply sublist_skip, IH.
Qed.

(** If [x] comes before [y] in the output, the first occurrence of [x]
    in the input comes before every occurrence of [y]. *)
Lemma unique_order seen l a x b y c :
  unique_in_order seen l = a ++ x :: b ++ y :: c ->
  exists before after, l = before ++ x :: after /\ (x ∉ before) /\ (y ∉ before).
Proof.
  revert seen a. induction l as [|h t IH]; simpl; intros seen a E.
  - destruct a; discriminate.
  - assert (Hmem : forall s' a0, unique_in_order s' t = a0 ++ x :: b ++ y :: c ->
                     x ∈ unique_in_order s' t /\ y ∈ unique_in_order s' t).
    { intros s' a0 ->. split; set_solver. }
    destruct (decide (h ∈ seen)) as [Hh|Hh].
    + destruct (Hmem _ _ E) as [Hx Hy].
      apply unique_not_seen in Hx as [Hx _]. apply unique_not_seen in Hy as [Hy _].
      destruct (IH _ _ E) as (p & q & -> & Hxp & Hyp).
      exists (h :: p), q. split; [reflexivity|].
      split; intros Hin; apply elem_of_cons in Hin as [->|Hin]; contradiction.
    + destruct a as [|a0 a'].
      * simpl in E. injection E as -> _.
        exists [], t. split; [reflexivity|]. split; apply not_elem_of_nil.
      * simpl in E. injection E as <- E.
        destruct (Hmem _ _ E) as [Hx Hy].
        apply unique_not_seen in Hx as [Hx _]. apply unique_not_seen in Hy as [Hy _].
        destruct (IH _ _ E) as (p & q & -> & Hxp & Hyp).
        exists (h :: p), q. split; [reflexivity|].
        split; intros Hin; apply elem_of_cons in Hin as [->|Hin];
          try contradiction; set_solver.
Qed.

End Unique.

Section WithFuzz.
Context {F : Fuzz}.

Lemma normalize_drugs_unfold (self : t) (drugs : list string) :
  normalize_drugs self drugs
  = unique_in_order ∅ (map (_find_best_match self) drugs).
Proof. destruct drugs; reflexivity. Qed.

(** C6. The output of [normalize_drugs] is empty on the empty input, has
    no duplicates, holds exactly the normalised names, is a subsequence
    of the list of normalised names, and lists them in the order of
    their first occurrence there.  Duplicates are those of the normalised
    names, not of the raw input. *)
Theorem normalize_drugs_unique_in_order (self : t) (drugs : list string) :
  let normalized := map (_find_best_match self) drugs in
  let out := normalize_drugs self drugs in
  normalize_drugs self [] = []
  /\ NoDup out
  /\ (forall x, x ∈ out <-> x ∈ normalized)
  /\ (out `sublist_of` normalized)
  /\ (forall a x b y c, out = a ++ x :: b ++ y :: c ->
        exists before after,
          normalized = before ++ x :: after /\ (x ∉ before) /\ (y ∉ before)).
Proof.
  intros normalized out.
  assert (E : out = unique_in_order ∅ normalized) by apply normalize_drugs_unfold.
  rewrite E. clear E out.
  split; [reflexivity|].
  split; [apply unique_NoDup|].
  split.
  - intros x. split.
    + intros H. now apply unique_not_seen in H as [_ H].
    + intros H. apply unique_complete; [exact H | set_solver].
  - split; [apply unique_sublist|].
    intros a x b y c E. eapply unique_order. exact E.
Qed.

Lemma scan_all_zero (name : string) (m : dict string) :
  (forall synonym, In synonym (keys m) -> ratio name synonym = 0%Z) ->
  scan name m = (None, 0%Z).
Proof.
  unfold scan. induction m as [|[k v] m IH]; simpl; intros H; [reflexivity|].
  rewrite (H k) by now left. simpl. apply IH. intros s Hs. apply H. now right.
Qed.

(** C10. With threshold 0, a non-blank name whose normal form is not a
    key of the synonym table and scores 0 against every key comes back
    as [None], not as the name: the entry is lost from the output of
    [normalize_drugs]. *)
Theorem zero_threshold_no_match_is_None (m : dict string) (drug_name : string) :
  truthy (strip drug_name) = true ->
  get (lower (strip drug_name)) m = None ->
  (forall synonym, In synonym (keys m) ->
     ratio (lower (strip drug_name)) synonym = 0%Z) ->
  _find_best_match (mk 0 m) drug_name = None
  /\ normalize_drugs (mk 0 m) [drug_name] = [None].
Proof.
  intros Hb Hg Hs.
  assert (E : _find_best_match (mk 0 m) drug_name = None).
  { unfold _find_best_match. rewrite Hb. simpl. rewrite Hg.
    now rewrite (scan_all_zero _ _ Hs). }
  split; [exact E|].
  unfold normalize_drugs. simpl. rewrite E. reflexivity.
Qed.

End WithFuzz.

Lemma zero_threshold_no_match_is_None_witness :
  @_find_best_match exact_fuzz (mk 0 []) "Aspirin" = None
  /\ @normalize_drugs exact_fuzz (mk 0 []) ["Aspirin"] = [None].
Proof.
  apply (@zero_threshold_no_match_is_None exact_fuzz [] "Aspirin").
  - reflexivity.
  - reflexivity.
  - intros synonym [].
Defined.

(** The same on a table with entries the name shares nothing with. *)
Example zero_threshold_with_entries :
  @normalize_drugs position_fuzz
    (mk 0 [("oncovin", "vincristine"); ("vincristine", "vincristine")])
    ["Oncovin"; "zzzz"; "qqqq"]
  = [Some "vincristine"; None].
Proof. vm_compute. reflexivity. Qed.

(** Two different raw names with one normal form give one entry. *)
Example duplicates_of_normalised_names :
  @normalize_drugs position_fuzz
    (mk 85 [("oncovin", "vincristine"); ("vincristine", "vincristine")])
    ["Oncovin"; "vincristin"; "aspirin"; "ONCOVIN "]
  = [Some "vincristine"; Some "aspirin"].
Proof. vm_compute. reflexivity. Qed.

End NormalizeDrugsFacts.

(** ** The regimen mapper *)

Module RegimenDrugMapperFacts.
Import PyStr PyDict RegimenDrugMapper.

Definition chop_table : t :=
  mk 70 [("chop", ["cyclophosphamide"; "doxorubicin"; "vincristine"; "prednisone"])].

(** C7. With the table that maps chop to its four drugs and threshold
    70, the name CHOP Protocol is lowered to chop protocol, loses the
    substring protocol and the blank left behind, so its key is chop;
    the key is in the table, so the exact lookup answers, whatever the
    scorers are, and the four drugs come back. *)
Theorem chop_protocol_resolves (F : Fuzz) :
  lower (strip "CHOP Protocol") = "chop protocol"
  /\ remove_all "protocol" "chop protocol" = "chop "
  /\ _normalize_regimen_name "CHOP Protocol" = "chop"
  /\ mem (_normalize_regimen_name "CHOP Protocol") (regimen_map chop_table) = true
  /\ _fuzzy_match_regimen chop_table "CHOP Protocol" = Some "chop"
  /\ get_drugs_from_regimen chop_table "CHOP Protocol"
     = Ret ["cyclophosphamide"; "doxorubicin"; "vincristine"; "prednisone"].
Proof. repeat split; reflexivity. Qed.

(** The same table, read from a line of the regimen file. *)
Example chop_table_loaded :
  init [mk_row " CHOP" "Cyclophosphamide, Doxorubicin ,vincristine, prednisone"] 70
  = chop_table.
Proof. reflexivity. Qed.

End RegimenDrugMapperFacts.

(** ** The metrics *)

Module MetricsFacts.
Import Metrics.
Local Open Scope Q_scope.

Lemma of_count_pos (n : nat) : (0 < n)%nat -> 0 < of_count n.
Proof. intros H. unfold of_count, Qlt. simpl. lia. Qed.




Lemma positive_spec (x : Q) : positive x = true <-> 0 < x.
Proof.
  unfold positive, Qlt. simpl. rewrite Z.ltb_lt. lia.
Qed.


Section Sets.
Context (extracted_set ground_truth_set : gset string).
Context (extracted ground_truth : list string).

Let s := score_sets extracted_set ground_truth_set extracted ground_truth.

Lemma size_parts (X Y : gset string) : (size (X ∩ Y) + size (X ∖ Y) = size X)%nat.
Proof.
  rewrite <- size_union by set_solver.
  f_equal. apply set_eq. intros x. rewrite elem_of_union, elem_of_intersection,
    elem_of_difference. destruct (decide (x ∈ Y)); tauto.
Qed.









End Sets.
End MetricsFacts.

Module MetricsTheorems.
Import Metrics MetricsFacts.
Local Open Scope Q_scope.



(** The scenario of the specification: one hit out of two on each side. *)
Example half_right :
  let s := compute_metrics ["a"; "b"] ["a"; "c"] in
  precision s == 1 # 2 /\ recall s == 1 # 2 /\ f1 s == 1 # 2
  /\ missing s = ["c"] /\ hallucinated s = ["b"].
Proof. vm_compute. repeat split; reflexivity. Qed.

(** Nothing extracted, nothing expected: the scores are 0. *)
Example nothing_to_find :
  let s := compute_metrics [] [] in
  precision s = 0 /\ recall s = 0 /\ f1 s = 0.
Proof. vm_compute. repeat split; reflexivity. Qed.

End MetricsTheorems.

(** ** The checkpoint store *)

Module StoreFacts.
Import Py Frame Sys Config DataUtils.

Lemma leb_total (a b : string) : PyStr.leb a b = true \/ PyStr.leb b a = true.
Proof.
  revert b. induction a as [|x a IH]; intros [|y b]; simpl; auto.
  destruct (Nat.ltb_spec (nat_of_ascii x) (nat_of_ascii y));
    destruct (Nat.ltb_spec (nat_of_ascii y) (nat_of_ascii x)); auto; lia.
Qed.

Lemma leb_trans (a b c : string) :
  PyStr.leb a b = true -> PyStr.leb b c = true -> PyStr.leb a c = true.
Proof.
  revert b c. induction a as [|x a IH]; intros [|y b] [|z c]; simpl; auto;
    try discriminate.
  destruct (Nat.ltb_spec (nat_of_ascii x) (nat_of_ascii y));
    destruct (Nat.ltb_spec (nat_of_ascii y) (nat_of_ascii x));
    destruct (Nat.ltb_spec (nat_of_ascii y) (nat_of_ascii z));
    destruct (Nat.ltb_spec (nat_of_ascii z) (nat_of_ascii y));
    destruct (Nat.ltb_spec (nat_of_ascii x) (nat_of_ascii z));
    destruct (Nat.ltb_spec (nat_of_ascii z) (nat_of_ascii x));
    intros; try discriminate; try lia; eauto.
Qed.

Lemma leb_antisym (a b : string) :
  PyStr.leb a b = true -> PyStr.leb b a = true -> a = b.
Proof.
  revert b. induction a as [|x a IH]; intros [|y b]; simpl; try discriminate;
    [reflexivity|].
  destruct (Nat.ltb_spec (nat_of_ascii x) (nat_of_ascii y));
    destruct (Nat.ltb_spec (nat_of_ascii y) (nat_of_ascii x));
    try discriminate; try lia.
  intros H1 H2. f_equal; [|now apply IH].
  rewrite <- (ascii_nat_embedding x), <- (ascii_nat_embedding y). f_equal. lia.
Qed.

#[global] Instance name_le_total : Total name_le.
Proof. intros a b. apply leb_total. Qed.

#[global] Instance name_le_trans : Transitive name_le.
Proof. intros a b c. apply leb_trans. Qed.

(** The backups in a directory: the names [save_checkpoint] counts. *)
Definition is_backup_name (f : string) : Prop :=
  PyStr.startswith "checkpoint_backup_" f = true.

Definition backup_names (w : World) : list string :=
  filter is_backup_name (elements (dom (backups w))).

Lemma backup_files_perm (names : list string) :
  backup_files_of names ≡ₚ filter is_backup_name names.
Proof. unfold backup_files_of. apply merge_sort_Permutation. Qed.

Lemma backup_files_sorted (names : list string) :
  StronglySorted name_le (backup_files_of names).
Proof. unfold backup_files_of. apply StronglySorted_merge_sort; apply _. Qed.

(** Removing listed, distinct backups one by one cannot fail, and removes
    exactly them. *)
Lemma for_each_remove_backup (old : list string) (w : World) :
  NoDup old ->
  (forall n, n ∈ old -> is_Some (backups w !! n)) ->
  for_each old remove_backup w
  = (Ret tt, with_backups w (foldr delete (backups w) (reverse old))).
Proof.
  revert w. induction old as [|n old IH]; intros w Hnd Hin.
  - simpl. unfold ret. destruct w; reflexivity.
  - apply NoDup_cons in Hnd as [Hn Hnd].
    destruct (Hin n) as [f Hf]; [now left|].
    simpl. unfold bind, remove_backup at 1. rewrite Hf.
    rewrite IH; [|exact Hnd|].
    + simpl. rewrite reverse_cons, foldr_app. reflexivity.
    + intros k Hk. simpl. rewrite lookup_delete_ne; [apply Hin; now right|].
      intros ->. contradiction.
Qed.

Lemma lookup_foldr_delete (old : list string) (m : gmap string file) (k : string) :
  foldr delete m old !! k = if decide (k ∈ old) then None else m !! k.
Proof.
  induction old as [|n old IH]; simpl.
  - destruct (decide (k ∈ [])) as [H|H]; [inversion H | reflexivity].
  - destruct (decide (n = k)) as [->|Hne].
    + rewrite lookup_delete_eq.
      destruct (decide (k ∈ k :: old)) as [|H]; [reflexivity|].
      exfalso. apply H. now left.
    + rewrite lookup_delete_ne by exact Hne. rewrite IH.
      destruct (decide (k ∈ old)), (decide (k ∈ n :: old)); try reflexivity;
        set_solver.
Qed.

End StoreFacts.

Module SaveFacts.
Import Py Frame Sys Config DataUtils StoreFacts.

Definition backup_name (w : World) : string :=
  "checkpoint_backup_" +:+ now w +:+ ".csv".

Lemma startswith_app (p s : string) : PyStr.startswith p (p +:+ s) = true.
Proof.
  induction p as [|c p IH]; simpl; [reflexivity|].
  now rewrite Ascii.eqb_refl.
Qed.

Lemma backup_name_is_backup (w : World) : is_backup_name (backup_name w).
Proof. unfold is_backup_name, backup_name. apply startswith_app. Qed.

Lemma with_backups_same (w : World) : with_backups w (backups w) = w.
Proof. destruct w; reflexivity. Qed.

Lemma backup_current_spec (w : World) :
  backup_current w
  = (Ret tt,
     match cwd w !! CHECKPOINT_FILE with
     | Some f => with_backups w (<[backup_name w := f]> (backups w))
     | None => w
     end).
Proof.
  unfold backup_current, bind, path_exists, get_backup_filename, copy_to_backups.
  destruct (cwd w !! CHECKPOINT_FILE) as [f|] eqn:E.
  - rewrite bool_decide_eq_true_2 by eauto. now rewrite E.
  - rewrite bool_decide_eq_false_2 by (intros [? ?]; discriminate). reflexivity.
Qed.

Section WithFloatText.
Context {FT : FloatText}.

Lemma atomic_write_spec (df : DataFrame) (name : string) (w : World) :
  atomic_write df name w
  = (Ret tt,
     with_cwd w (<[name := to_csv df]>
                   (delete (name +:+ ".tmp")
                      (<[name +:+ ".tmp" := to_csv df]> (cwd w))))).
Proof.
  unfold atomic_write, try_except, bind, write_csv, rename. simpl.
  rewrite lookup_insert_eq. reflexivity.
Qed.

End WithFloatText.

(** The names the pruning removes and those it keeps. *)
Definition pruned (w : World) : list string :=
  let backup_files := backup_files_of (elements (dom (backups w))) in
  if (5 <? length backup_files)%nat then all_but_last_5 backup_files else [].

Definition kept (w : World) : list string :=
  let backup_files := backup_files_of (elements (dom (backups w))) in
  if (5 <? length backup_files)%nat
  then skipn (length backup_files - 5) backup_files else backup_files.

Lemma pruned_kept (w : World) :
  backup_files_of (elements (dom (backups w))) = pruned w ++ kept w.
Proof.
  unfold pruned, kept, all_but_last_5.
  destruct (5 <? _)%nat; [|reflexivity]. symmetry. apply firstn_skipn.
Qed.


Lemma backup_files_NoDup (w : World) :
  NoDup (backup_files_of (elements (dom (backups w)))).
Proof.
  rewrite backup_files_perm. apply NoDup_filter, NoDup_elements.
Qed.

Lemma elem_of_backup_files (w : World) (n : string) :
  n ∈ backup_files_of (elements (dom (backups w)))
  <-> is_backup_name n /\ is_Some (backups w !! n).
Proof.
  rewrite backup_files_perm, list_elem_of_filter, elem_of_elements, elem_of_dom.
  reflexivity.
Qed.

Lemma prune_backups_spec (w : World) :
  prune_backups w
  = (Ret tt, with_backups w (foldr delete (backups w) (reverse (pruned w)))).
Proof.
  unfold prune_backups, bind, listdir_backups.
  pose proof (pruned_kept w) as Hsplit.
  pose proof (backup_files_NoDup w) as Hnd.
  unfold pruned in *.
  destruct (5 <? _)%nat.
  - apply for_each_remove_backup.
    + rewrite Hsplit in Hnd. now apply NoDup_app in Hnd as [H _].
    + intros n Hn.
      assert (H : n ∈ backup_files_of (elements (dom (backups w))))
        by (rewrite Hsplit; apply elem_of_app; now left).
      now apply elem_of_backup_files in H as [_ H].
  - simpl. unfold ret. now rewrite with_backups_same.
Qed.





End SaveFacts.

Module SaveTheorems.
Import Py Frame Sys Config DataUtils StoreFacts SaveFacts.

(** The worlds [save_checkpoint] goes through. *)
Definition after_backup (w : World) : World :=
  match cwd w !! CHECKPOINT_FILE with
  | Some f => with_backups w (<[backup_name w := f]> (backups w))
  | None => w
  end.

Definition after_prune (w : World) : World :=
  with_backups w (foldr delete (backups w) (reverse (pruned w))).

Section WithFloatText.
Context {FT : FloatText}.

Definition after_write (df : DataFrame) (w : World) : World :=
  with_cwd w (<[CHECKPOINT_FILE := to_csv df]>
                (delete (CHECKPOINT_FILE +:+ ".tmp")
                   (<[CHECKPOINT_FILE +:+ ".tmp" := to_csv df]> (cwd w)))).

(** [save_checkpoint] always returns, in the world the three blocks
    leave. *)
Lemma save_checkpoint_spec (df : DataFrame) (w : World) :
  save_checkpoint df w
  = (Ret tt, after_prune (after_write df (after_backup w))).
Proof.
  unfold save_checkpoint, try_except, bind.
  rewrite backup_current_spec. fold (after_backup w).
  rewrite atomic_write_spec. fold (after_write df (after_backup w)).
  now rewrite prune_backups_spec.
Qed.

Lemma saved_file (df : DataFrame) (w : World) :
  cwd (after_prune (after_write df w)) !! CHECKPOINT_FILE = Some (to_csv df).
Proof. simpl. apply lookup_insert_eq. Qed.


End WithFloatText.
End SaveTheorems.

Module LoadTheorems.
Import Py Frame Sys Config DataUtils StoreFacts SaveFacts SaveTheorems.

(** A checkpoint file the [try] block of [load_checkpoint] raises on:
    [read_csv] raises, or a required column is missing. *)
Definition unusable (f : file) : Prop :=
  (exists e, read_csv converters f = Raise e)
  \/ (exists df, read_csv converters f = Ret df
                 /\ forallb (has_column df) required_columns = false).

(** A readable file with the required columns is returned as read. *)
Lemma load_checkpoint_present (w : World) (f : file) (df : DataFrame) :
  cwd w !! CHECKPOINT_FILE = Some f ->
  read_csv converters f = Ret df ->
  forallb (has_column df) required_columns = true ->
  load_checkpoint w = (Ret df, w).
Proof.
  intros Hf Hr Hc.
  unfold load_checkpoint, create_backup_dir, bind, ret, path_exists,
    try_except, read_csv_file.
  rewrite bool_decide_eq_true_2 by eauto.
  rewrite Hf, Hr, Hc. reflexivity.
Qed.

(** C8. Without a checkpoint file [load_checkpoint] returns the empty
    frame and changes nothing.  With a file that fails to parse or lacks
    a required column it returns the empty frame too, after copying the
    file to the backup named after the time and renaming it with the
    suffix .corrupted, so that no checkpoint file is left in place; no
    other file is touched. *)
Theorem load_checkpoint_quarantine (w : World) :
  (cwd w !! CHECKPOINT_FILE = None -> load_checkpoint w = (Ret empty_frame, w))
  /\ (forall f, cwd w !! CHECKPOINT_FILE = Some f -> unusable f ->
        exists w',
          load_checkpoint w = (Ret empty_frame, w')
          /\ backups w' !! backup_name w = Some f
          /\ cwd w' !! CHECKPOINT_FILE = None
          /\ cwd w' !! (CHECKPOINT_FILE +:+ ".corrupted") = Some f
          /\ (forall n, n <> CHECKPOINT_FILE ->
                n <> CHECKPOINT_FILE +:+ ".corrupted" ->
                cwd w' !! n = cwd w !! n)
          /\ (forall n, n <> backup_name w -> backups w' !! n = backups w !! n)).
Proof.
  split.
  - intros Hf.
    unfold load_checkpoint, create_backup_dir, bind, ret, path_exists.
    rewrite bool_decide_eq_false_2; [reflexivity|].
    rewrite Hf. intros [? ?]. discriminate.
  - intros f Hf Hbad.
    exists (with_cwd (with_backups w (<[backup_name w := f]> (backups w)))
              (<[CHECKPOINT_FILE +:+ ".corrupted" := f]>
                 (delete CHECKPOINT_FILE (cwd w)))).
    split.
    { unfold load_checkpoint, create_backup_dir, bind, ret, path_exists,
        try_except, read_csv_file, get_backup_filename, copy_to_backups,
        rename, raise.
      rewrite bool_decide_eq_true_2 by eauto.
      rewrite Hf.
      destruct Hbad as [[e He]|[df [Hr Hc]]].
      - rewrite He. rewrite Hf. simpl. rewrite Hf. reflexivity.
      - rewrite Hr, Hc. rewrite Hf. simpl. rewrite Hf. reflexivity. }
    simpl. split; [apply lookup_insert_eq|].
    split; [rewrite lookup_insert_ne by discriminate; apply lookup_delete_eq|].
    split; [apply lookup_insert_eq|].
    split.
    + intros n H1 H2. rewrite lookup_insert_ne by congruence.
      apply lookup_delete_ne. congruence.
    + intros n H. apply lookup_insert_ne. congruence.
Qed.

Definition start_world (files : list (string * file)) : World :=
  {| cwd := list_to_map files;
     backups := list_to_map
       [("checkpoint_backup_20250101_000001.csv", Garbage "one");
        ("checkpoint_backup_20250101_000002.csv", Garbage "two");
        ("checkpoint_backup_20250101_000003.csv", Garbage "three");
        ("checkpoint_backup_20250101_000004.csv", Garbage "four");
        ("checkpoint_backup_20250101_000005.csv", Garbage "five");
        ("notes.txt", Garbage "not a backup")];
     now := "20250102_101500";
     now_iso := "2025-01-02T10:15:00";
     gen_calls := 0;
     slept := [] |}.

(** A checkpoint file without the column [extracted_drugs]. *)
Definition short_file : file :=
  Csv ["unique_key"; "text_concat"] [["1_1_1"; "given aspirin"]].

Lemma load_checkpoint_quarantine_witness :
  load_checkpoint (start_world []) = (Ret empty_frame, start_world [])
  /\ exists w',
       load_checkpoint (start_world [(CHECKPOINT_FILE, short_file)])
       = (Ret empty_frame, w')
       /\ backups w' !! "checkpoint_backup_20250102_101500.csv" = Some short_file
       /\ cwd w' !! CHECKPOINT_FILE = None
       /\ cwd w' !! (CHECKPOINT_FILE +:+ ".corrupted") = Some short_file.
Proof.
  split.
  - apply (load_checkpoint_quarantine (start_world [])). reflexivity.
  - destruct (proj2 (load_checkpoint_quarantine
                       (start_world [(CHECKPOINT_FILE, short_file)]))
                    short_file)
      as (w' & H1 & H2 & H3 & H4 & _).
    + reflexivity.
    + right. eexists. split; reflexivity.
    + exists w'. auto.
Defined.

Definition one_record : DataFrame :=
  {| columns := ["unique_key"; "text_concat"; "extracted_drugs"];
     rows := [[VStr "1_1_1"; VStr "given aspirin"; VList [VStr "aspirin"]]] |}.




(** The sixth backup pushes the oldest out. *)
Example oldest_backup_pruned :
  let w' := snd (@save_checkpoint fraction_text one_record
                   (start_world [(CHECKPOINT_FILE, short_file)])) in
  backups w' !! "checkpoint_backup_20250101_000001.csv" = None
  /\ backups w' !! "checkpoint_backup_20250102_101500.csv" = Some short_file
  /\ backups w' !! "notes.txt" = Some (Garbage "not a backup")
  /\ length (backup_names w') = 5.
Proof. vm_compute. repeat split; reflexivity. Qed.

Section WithFloatText.
Context {FT : FloatText}.

(** The text written for the list cell is Python's [str] of the list,
    with single quotes. *)
Example list_cell_text :
  to_csv one_record
  = Csv ["unique_key"; "text_concat"; "extracted_drugs"]
        [["1_1_1"; "given aspirin"; "['aspirin']"]].
Proof. reflexivity. Qed.

Example list_cell_is_not_json :
  Json.loads "['aspirin']" = None /\ safe_json_loads "['aspirin']" = VList [].
Proof. split; reflexivity. Qed.

(** C1 fails on the code: a record whose [extracted_drugs] is the list
    with the one entry aspirin is saved and loaded again, in any world;
    the loaded record has the empty list there. *)
Theorem saved_list_is_lost_on_load (w : World) :
  exists w',
    (save_checkpoint one_record ;; load_checkpoint) w
    = (Ret {| columns := ["unique_key"; "text_concat"; "extracted_drugs"];
              rows := [[VStr "1_1_1"; VStr "given aspirin"; VList []]] |}, w')
    /\ column one_record "extracted_drugs" = [VList [VStr "aspirin"]].
Proof.
  eexists. split; [|reflexivity].
  unfold bind. rewrite save_checkpoint_spec.
  apply load_checkpoint_present with (f := to_csv one_record).
  - apply saved_file.
  - reflexivity.
  - reflexivity.
Qed.

End WithFloatText.
End LoadTheorems.

(** ** The batch pipeline *)

Module PipelineFacts.
Import Py Frame Sys Config DataUtils Pipeline.

Section WithCollaborators.
Context {C : Collaborators} {FT : FloatText} {F : Fuzz}.

Definition prompts_of (batch : list raw_record) : list string :=
  map (fun row => format_prompt (text_concat row)) batch.

(** A raising generator sends [process_batch] to its outer handler: a
    failed row for every record, and a normal return. *)
Lemma process_batch_generator_raises (batch : list raw_record) (w : World)
    (e : string) :
  generator (gen_calls w) (prompts_of batch) = GenerationError e ->
  process_batch batch w
  = (Ret (map (failed_row (now_iso w) e) batch),
     with_gen_calls w (S (gen_calls w))).
Proof.
  intros H. unfold process_batch, try_except, bind, call_generator.
  fold (prompts_of batch). rewrite H. reflexivity.
Qed.

(** [process_batch] never raises: both of its handlers return rows.  It
    calls the generator once and sleeps never. *)
Lemma process_batch_returns (batch : list raw_record) (w : World) :
  exists rows,
    process_batch batch w = (Ret rows, with_gen_calls w (S (gen_calls w))).
Proof.
  unfold process_batch, try_except, bind, call_generator.
  fold (prompts_of batch).
  destruct (generator (gen_calls w) (prompts_of batch)); eexists; reflexivity.
Qed.

(** So the handler of [process_with_retry] is never entered: whatever
    the generator does, the first attempt is the only one. *)
Lemma process_with_retry_single_attempt (batch : list raw_record)
    (max_retries : nat) (w : World) :
  (0 < max_retries)%nat ->
  exists rows,
    process_batch batch w = (Ret rows, with_gen_calls w (S (gen_calls w)))
    /\ process_with_retry batch max_retries w
       = (Ret (Some rows), with_gen_calls w (S (gen_calls w))).
Proof.
  intros Hpos. destruct (process_batch_returns batch w) as [rows Hrows].
  exists rows. split; [exact Hrows|].
  unfold process_with_retry. destruct max_retries as [|n]; [lia|].
  simpl. unfold try_except, bind. rewrite Hrows. reflexivity.
Qed.

End WithCollaborators.

(** A generator whose first call fails and whose later calls answer. *)
Definition flaky : Collaborators :=
  {| format_prompt := fun text => "Process this text: " +:+ text;
     generator := fun n prompts =>
       match n with
       | O => GenerationError "CUDA out of memory"
       | S _ =>
           Responses
             (map (fun _ => Structured [("drugs", ["aspirin"]); ("regimens", [])])
                  prompts)
       end |}.

Definition two_records : list raw_record :=
  [mk_raw "1_1_1" "given aspirin" ["aspirin"] [];
   mk_raw "2_1_1" "aspirin continued" ["aspirin"] []].

Definition idle_world : World :=
  {| cwd := ∅; backups := ∅; now := "20250102_101500";
     now_iso := "2025-01-02T10:15:00"; gen_calls := 0; slept := [] |}.

(** C2 fails on the code: the generator fails once and would answer the
    second call, but [process_with_retry] returns after one call, with
    no sleep, and the batch is recorded as failed. *)
Theorem transient_failure_is_not_retried :
  exists w',
    process_with_retry (C := flaky) (FT := fraction_text)
      two_records MAX_RETRIES idle_world
    = (Ret (Some (map (failed_row "2025-01-02T10:15:00" "CUDA out of memory")
                      two_records)), w')
    /\ gen_calls w' = 1%nat
    /\ slept w' = []
    /\ generator (Collaborators := flaky) 1 (prompts_of (C := flaky) two_records)
       = Responses [Structured [("drugs", ["aspirin"]); ("regimens", [])];
                    Structured [("drugs", ["aspirin"]); ("regimens", [])]].
Proof. eexists. repeat split; reflexivity. Qed.

End PipelineFacts.

Module FrameFacts.
Import Py Frame.

Lemma len_concat (a b : DataFrame) : len (concat a b) = len a + len b.
Proof. unfold len, concat. simpl. now rewrite length_app, !length_map. Qed.

(** Laying a row out again under new columns keeps the cell of every
    one of them. *)
Lemma cell_relaid (cols : list string) (g : string -> value) (c : string) :
  existsb (String.eqb c) cols = true -> cell cols (map g cols) c = g c.
Proof.
  induction cols as [|c' cols IH]; simpl; [discriminate|].
  destruct (String.eqb c c') eqn:E.
  - apply String.eqb_eq in E. now subst.
  - exact IH.
Qed.

Lemma has_column_concat_r (a b : DataFrame) (c : string) :
  has_column b c = true -> has_column (concat a b) c = true.
Proof.
  unfold has_column, concat. simpl. intros H.
  rewrite existsb_app. destruct (existsb (String.eqb c) (columns a)) eqn:E;
    [reflexivity|]. simpl.
  apply existsb_exists in H as [c' [Hin Heq]].
  apply String.eqb_eq in Heq. subst c'.
  apply existsb_exists. exists c. split; [|apply String.eqb_refl].
  apply list_elem_of_In, list_elem_of_filter. split; [exact E|].
  now apply list_elem_of_In.
Qed.

(** The rows [concat] appends hold the cells of the second frame. *)
Lemma column_concat_r (a b : DataFrame) (c : string) :
  has_column b c = true ->
  skipn (len a) (column (concat a b) c) = column b c.
Proof.
  intros H. pose proof (has_column_concat_r a b c H) as Hc.
  unfold column. unfold concat at 2. cbn [rows]. rewrite map_app.
  rewrite drop_app_length' by (unfold len; now rewrite !length_map).
  rewrite map_map. apply map_ext. intros row.
  now apply cell_relaid.
Qed.

End FrameFacts.

Module BatchFacts.
Import Py Frame Sys Config DataUtils Pipeline Main.
Import FrameFacts SaveFacts SaveTheorems PipelineFacts.

(** What [pd.merge] matches rows on. *)
Definition merge_key (row : raw_record) : string * string :=
  (unique_key row, text_concat row).

Lemma matches_failed_row (stamp e : string) (row row' : raw_record) :
  matches row (failed_row stamp e row') = true <-> merge_key row = merge_key row'.
Proof.
  unfold matches, merge_key. simpl.
  rewrite andb_true_iff, !String.eqb_eq. split.
  - intros [-> ->]. reflexivity.
  - intros H. injection H as -> ->. auto.
Qed.

Lemma filter_no_match (stamp e : string) (row : raw_record) (l : list raw_record) :
  merge_key row ∉ map merge_key l ->
  List.filter (matches row) (map (failed_row stamp e) l) = [].
Proof.
  induction l as [|r l IH]; simpl; intros H; [reflexivity|].
  destruct (matches row (failed_row stamp e r)) eqn:E.
  - apply matches_failed_row in E. exfalso. apply H. rewrite E. now left.
  - apply IH. intros Hin. apply H. now right.
Qed.

(** With distinct merge keys every record matches its own failed row and
    no other. *)
Lemma filter_own_row (stamp e : string) (row : raw_record) (l : list raw_record) :
  NoDup (map merge_key l) -> row ∈ l ->
  List.filter (matches row) (map (failed_row stamp e) l) = [failed_row stamp e row].
Proof.
  induction l as [|r l IH]; simpl; intros Hnd Hin; [inversion Hin|].
  apply NoDup_cons in Hnd as [Hr Hnd].
  destruct (matches row (failed_row stamp e r)) eqn:E.
  - apply matches_failed_row in E.
    rewrite filter_no_match by (rewrite E; exact Hr).
    apply elem_of_cons in Hin as [->|Hin]; [reflexivity|].
    exfalso. apply Hr. rewrite <- E. now apply list_elem_of_fmap_2.
  - apply elem_of_cons in Hin as [->|Hin].
    + assert (H : matches r (failed_row stamp e r) = true)
        by now apply matches_failed_row.
      congruence.
    + now apply IH.
Qed.

Lemma merge_left_failed (stamp e : string) (batch : list raw_record) :
  NoDup (map merge_key batch) ->
  merge_left batch (map (failed_row stamp e) batch)
  = map (fun row => (row, Some (failed_row stamp e row))) batch.
Proof.
  intros Hnd. unfold merge_left.
  assert (G : forall l, (forall row, row ∈ l -> row ∈ batch) ->
    flat_map
      (fun row =>
         match List.filter (matches row) (map (failed_row stamp e) batch) with
         | [] => [(row, None)]
         | found => map (fun r => (row, Some r)) found
         end) l
    = map (fun row => (row, Some (failed_row stamp e row))) l).
  { induction l as [|r l IH]; simpl; intros Hl; [reflexivity|].
    rewrite (filter_own_row stamp e r batch Hnd) by (apply Hl; now left).
    simpl. f_equal. apply IH. intros row Hrow. apply Hl. now right. }
  apply G. auto.
Qed.

Section WithCollaborators.
Context {C : Collaborators} {FT : FloatText} {F : Fuzz}.

(** The metric steps go through on a failed row and leave it as it is. *)
Lemma complete_row_failed (normalizer : DrugNormalizer.t)
    (regimen_mapper : RegimenDrugMapper.t) (stamp e : string) (row : raw_record) :
  exists p,
    complete_row normalizer regimen_mapper (row, Some (failed_row stamp e row))
    = Ret p
    /\ p_raw p = row /\ p_result p = failed_row stamp e row.
Proof. eexists. split; [reflexivity|]. split; reflexivity. Qed.

Lemma complete_rows_failed (normalizer : DrugNormalizer.t)
    (regimen_mapper : RegimenDrugMapper.t) (stamp e : string)
    (batch : list raw_record) :
  exists merged,
    complete_rows normalizer regimen_mapper
      (map (fun row => (row, Some (failed_row stamp e row))) batch)
    = Ret merged
    /\ map p_raw merged = batch
    /\ map p_result merged = map (failed_row stamp e) batch.
Proof.
  induction batch as [|row batch (merged & H1 & H2 & H3)].
  - exists []. repeat split.
  - destruct (complete_row_failed normalizer regimen_mapper stamp e row)
      as (p & Hp & Hraw & Hres).
    exists (p :: merged). cbn [map complete_rows].
    rewrite Hp, H1, Hraw, Hres, H2, H3. repeat split.
Qed.

End WithCollaborators.

(** The cells of a merged batch, column by column. *)
Lemma has_merged_column (merged : list processed_row) (c : string) :
  c ∈ ["unique_key"; "extracted_drugs"; "extracted_regimens"] ->
  has_column (frame_of merged) c = true.
Proof.
  intros H. unfold has_column, frame_of. cbn [columns].
  destruct (existsb has_error merged);
    repeat (apply elem_of_cons in H as [->|H]; [reflexivity|]); inversion H.
Qed.

Lemma column_unique_key (merged : list processed_row) :
  column (frame_of merged) "unique_key"
  = map (fun p => VStr (unique_key (p_raw p))) merged.
Proof.
  unfold column, frame_of. cbn [columns rows]. rewrite map_map.
  apply map_ext. intros p. destruct (existsb has_error merged); reflexivity.
Qed.

Lemma column_extracted_drugs (merged : list processed_row) :
  column (frame_of merged) "extracted_drugs"
  = map (fun p => strings (extracted_drugs (p_result p))) merged.
Proof.
  unfold column, frame_of. cbn [columns rows]. rewrite map_map.
  apply map_ext. intros p. destruct (existsb has_error merged); reflexivity.
Qed.

Lemma column_extracted_regimens (merged : list processed_row) :
  column (frame_of merged) "extracted_regimens"
  = map (fun p => strings (extracted_regimens (p_result p))) merged.
Proof.
  unfold column, frame_of. cbn [columns rows]. rewrite map_map.
  apply map_ext. intros p. destruct (existsb has_error merged); reflexivity.
Qed.

(** When some row has an error the frame has the column, and a row's
    cell holds its error text. *)
Lemma column_error (merged : list processed_row) :
  existsb has_error merged = true ->
  has_column (frame_of merged) "error" = true
  /\ column (frame_of merged) "error"
     = map (fun p => match error (p_result p) with
                     | Some e => VStr e
                     | None => VNaN
                     end) merged.
Proof.
  intros H. unfold has_column, column, frame_of. rewrite H. cbn [columns rows].
  split; [reflexivity|]. rewrite map_map. apply map_ext. intros p. reflexivity.
Qed.

End BatchFacts.

Module BatchTheorems.
Import Py Frame Sys Config DataUtils Pipeline Main.
Import FrameFacts SaveFacts SaveTheorems PipelineFacts BatchFacts.

Lemma column_concat_no_rows (a b : DataFrame) (c : string) :
  rows b = [] -> skipn (len a) (column (concat a b) c) = [].
Proof.
  intros H. unfold column, concat. cbn [rows columns]. rewrite H. simpl.
  apply drop_ge. unfold len. rewrite app_nil_r, !length_map. lia.
Qed.

Lemma failed_rows_have_error (merged : list processed_row) (stamp e : string)
    (batch : list raw_record) :
  map p_result merged = map (failed_row stamp e) batch ->
  merged <> [] -> existsb has_error merged = true.
Proof.
  destruct merged as [|p merged]; [congruence|].
  destruct batch as [|row batch]; [discriminate|].
  simpl. intros H _. injection H as Hp _. unfold has_error. now rewrite Hp.
Qed.

(** A column of the merged batch whose cell is a function of the result
    row alone. *)
Lemma map_result_cells {A} (f : result_row -> A) (merged : list processed_row)
    (results : list result_row) :
  map p_result merged = results ->
  map (fun p => f (p_result p)) merged = map f results.
Proof. intros <-. now rewrite map_map. Qed.

Section WithCollaborators.
Context {C : Collaborators} {FT : FloatText} {F : Fuzz}.

Lemma process_with_retry_generator_raises (batch : list raw_record) (w : World)
    (e : string) :
  generator (gen_calls w) (prompts_of batch) = GenerationError e ->
  process_with_retry batch MAX_RETRIES w
  = (Ret (Some (map (failed_row (now_iso w) e) batch)),
     with_gen_calls w (S (gen_calls w))).
Proof.
  intros H.
  destruct (process_with_retry_single_attempt batch MAX_RETRIES w)
    as (rows & Hrows & Hretry); [unfold MAX_RETRIES; lia|].
  rewrite (process_batch_generator_raises batch w e H) in Hrows.
  injection Hrows as <-. exact Hretry.
Qed.

(** C3, as the code has it.  When the generator raises on the batch and
    the records of the batch have distinct merge keys, the turn of the
    batch loop returns; the checkpoint grows by the size of the batch;
    its new rows are the records of the batch, in order, each with an
    empty [extracted_drugs], an empty [extracted_regimens] and, as
    [error], the first 200 characters of the text of the exception,
    which is non-empty when that text is; and this checkpoint is the one
    written to the file. *)
Theorem failed_batch_is_recorded (normalizer : DrugNormalizer.t)
    (regimen_mapper : RegimenDrugMapper.t) (df : DataFrame)
    (batch : list raw_record) (w : World) (e : string) :
  NoDup (map merge_key batch) ->
  generator (gen_calls w) (prompts_of batch) = GenerationError e ->
  exists df' w',
    run_batch normalizer regimen_mapper df batch w = (Ret df', w')
    /\ len df' = len df + length batch
    /\ skipn (len df) (column df' "unique_key")
       = map (fun row => VStr (unique_key row)) batch
    /\ skipn (len df) (column df' "extracted_drugs")
       = map (fun _ => VList []) batch
    /\ skipn (len df) (column df' "extracted_regimens")
       = map (fun _ => VList []) batch
    /\ skipn (len df) (column df' "error")
       = map (fun _ => VStr (PyStr.take 200 e)) batch
    /\ (e <> EmptyString -> PyStr.take 200 e <> EmptyString)
    /\ cwd w' !! CHECKPOINT_FILE = Some (to_csv df').
Proof.
  intros Hnd Hgen.
  destruct (complete_rows_failed normalizer regimen_mapper (now_iso w) e batch)
    as (merged & Hrows & Hraw & Hres).
  assert (Hlen : length merged = length batch)
    by (rewrite <- Hraw; now rewrite length_map).
  exists (concat df (frame_of merged)). eexists.
  split.
  { unfold run_batch, bind, try_except, merged_batch, bind.
    rewrite (process_with_retry_generator_raises batch w e Hgen).
    unfold lift. rewrite (merge_left_failed _ _ _ Hnd), Hrows.
    rewrite save_checkpoint_spec. reflexivity. }
  split.
  { rewrite len_concat. unfold len, frame_of. cbn [rows].
    now rewrite length_map, Hlen. }
  split.
  { rewrite column_concat_r by (apply has_merged_column; set_solver).
    rewrite column_unique_key, <- Hraw. now rewrite map_map. }
  split.
  { rewrite column_concat_r by (apply has_merged_column; set_solver).
    rewrite column_extracted_drugs.
    rewrite (map_result_cells (fun r => Main.strings (extracted_drugs r)) _ _ Hres).
    now rewrite map_map. }
  split.
  { rewrite column_concat_r by (apply has_merged_column; set_solver).
    rewrite column_extracted_regimens.
    rewrite (map_result_cells (fun r => Main.strings (extracted_regimens r)) _ _ Hres).
    now rewrite map_map. }
  split.
  { destruct merged as [|p merged'] eqn:Em.
    - destruct batch; [|discriminate]. now apply column_concat_no_rows.
    - rewrite <- Em in *.
      assert (Hne : merged <> []) by (rewrite Em; discriminate).
      destruct (column_error merged (failed_rows_have_error _ _ _ _ Hres Hne))
        as [Hcol Hcells].
      rewrite column_concat_r by exact Hcol. rewrite Hcells.
      rewrite (map_result_cells
                 (fun r => match error r with Some x => VStr x | None => VNaN end)
                 _ _ Hres).
      now rewrite map_map. }
  split.
  { intros He. apply PyStrFacts.take_nonempty; [exact He | lia]. }
  apply saved_file.
Qed.

End WithCollaborators.
End BatchTheorems.

Module BatchExamples.
Import Py Frame Sys Config DataUtils Pipeline Main.
Import PipelineFacts BatchFacts BatchTheorems.

Definition no_synonyms : DrugNormalizer.t := DrugNormalizer.mk 85 [].
Definition no_regimens : RegimenDrugMapper.t := RegimenDrugMapper.mk 70 [].

(** A generator that raises an exception without a message, as a bare
    [assert] does. *)
Definition silent_failure : Collaborators :=
  {| format_prompt := fun text => "Process this text: " +:+ text;
     generator := fun _ _ => GenerationError EmptyString |}.

(** A cell that holds a non-empty text. *)
Definition has_text (v : value) : bool :=
  match v with
  | VStr (String _ _) => true
  | _ => false
  end.

(** The checkpoint after one turn of the batch loop on two records, from
    the empty checkpoint, with that generator. *)
Definition failed_frame : DataFrame :=
  Eval vm_compute in
    match fst (run_batch (C := silent_failure) (FT := fraction_text)
                 (F := exact_fuzz) no_synonyms no_regimens empty_frame
                 two_records idle_world) with
    | Ret df' => df'
    | Raise _ => empty_frame
    end.
Lemma silent_failure_run :
  fst (run_batch (C := silent_failure) (FT := fraction_text)
         (F := exact_fuzz) no_synonyms no_regimens empty_frame
         two_records idle_world) = Ret failed_frame.
Proof. vm_compute. reflexivity. Qed.
(** Its rows: both records, nothing extracted, the empty text as error. *)
Lemma empty_error_cells :
  column failed_frame "unique_key" = [VStr "1_1_1"; VStr "2_1_1"]
  /\ column failed_frame "extracted_drugs" = [VList []; VList []]
  /\ column failed_frame "error" = [VStr EmptyString; VStr EmptyString]
  /\ forallb has_text (column failed_frame "error") = false.
Proof. vm_compute. repeat split; reflexivity. Qed.
(** C3 as stated fails: the generator raises for the batch, with an
    empty exception text, and the rows recorded for the batch have the
    empty text as their error. *)
Lemma empty_exception_text_gives_empty_error :
  ~ (forall df',
       fst (run_batch (C := silent_failure) (FT := fraction_text) (F := exact_fuzz)
              no_synonyms no_regimens empty_frame two_records idle_world)
       = Ret df' ->
       forallb has_text (column df' "error") = true).
Proof.
  intros H. specialize (H _ silent_failure_run).
  destruct empty_error_cells as (_ & _ & _ & E). congruence.
Qed.
Lemma failed_batch_is_recorded_witness :
  exists df' w',
    run_batch (C := flaky) (FT := fraction_text) (F := exact_fuzz)
      no_synonyms no_regimens empty_frame two_records idle_world = (Ret df', w')
    /\ len df' = len empty_frame + length two_records
    /\ skipn (len empty_frame) (column df' "unique_key")
       = map (fun row => VStr (unique_key row)) two_records
    /\ skipn (len empty_frame) (column df' "extracted_drugs")
       = map (fun _ => VList []) two_records
    /\ skipn (len empty_frame) (column df' "extracted_regimens")
       = map (fun _ => VList []) two_records
    /\ skipn (len empty_frame) (column df' "error")
       = map (fun _ => VStr (PyStr.take 200 "CUDA out of memory")) two_records
    /\ ("CUDA out of memory" <> EmptyString
        -> PyStr.take 200 "CUDA out of memory" <> EmptyString)
    /\ cwd w' !! CHECKPOINT_FILE = Some (to_csv (FT := fraction_text) df').
Proof.
  refine (failed_batch_is_recorded (C := flaky) (FT := fraction_text)
           (F := exact_fuzz) no_synonyms no_regimens empty_frame two_records
           idle_world "CUDA out of memory" _ _).
  - apply (bool_decide_eq_true_1 _). vm_compute. reflexivity.
  - reflexivity.
Defined.

End BatchExamples.

(** * Further properties of the code *)

(** ** _find_best_match: the fuzzy scan *)

Module FuzzyScanFacts.
Import PyStr PyStrFacts PyDict PyDictFacts DrugNormalizer.

Section WithFuzz.
Context {F : Fuzz}.

Definition score_of (drug_name : string) (item : string * string) : Z :=
  ratio drug_name (fst item).

Lemma scan_step_unfold (drug_name : string) (acc : option string * Z)
    (item : string * string) :
  scan_step drug_name acc item
  = if (snd acc <? score_of drug_name item)%Z
    then (Some (snd item), score_of drug_name item) else acc.
Proof. destruct item. reflexivity. Qed.

(** Items that do not beat the best score so far change nothing. *)
Lemma scan_keeps (drug_name : string) (l : dict string) (acc : option string * Z) :
  Forall (fun item => (score_of drug_name item <= snd acc)%Z) l ->
  fold_left (scan_step drug_name) l acc = acc.
Proof.
  revert acc. induction l as [|item l IH]; simpl; intros acc H; [reflexivity|].
  inversion H as [|? ? H1 H2]; subst.
  rewrite scan_step_unfold.
  destruct (Z.ltb_spec (snd acc) (score_of drug_name item)); [lia|].
  now apply IH.
Qed.

(** Items that score below [s] leave the best score below [s]. *)
Lemma scan_below (drug_name : string) (l : dict string) (acc : option string * Z)
    (s : Z) :
  (snd acc < s)%Z ->
  Forall (fun item => (score_of drug_name item < s)%Z) l ->
  (snd (fold_left (scan_step drug_name) l acc) < s)%Z.
Proof.
  revert acc. induction l as [|item l IH]; simpl; intros acc Ha H; [exact Ha|].
  inversion H as [|? ? H1 H2]; subst.
  apply IH; [|exact H2]. rewrite scan_step_unfold.
  destruct (Z.ltb_spec (snd acc) (score_of drug_name item)); simpl; lia.
Qed.

(** No match so far means no positive score so far. *)
Lemma scan_None_score (drug_name : string) (l : dict string)
    (acc : option string * Z) :
  (fst acc = None -> (snd acc <= 0)%Z) ->
  fst (fold_left (scan_step drug_name) l acc) = None ->
  (snd (fold_left (scan_step drug_name) l acc) <= 0)%Z.
Proof.
  revert acc. induction l as [|item l IH]; simpl; intros acc Ha; [exact Ha|].
  apply IH. rewrite scan_step_unfold.
  destruct (Z.ltb_spec (snd acc) (score_of drug_name item)); simpl;
    [discriminate | exact Ha].
Qed.

(** X1. A non-blank name that is no key of the table and scores below a
    positive threshold against every key is returned stripped and
    lowered: it is kept, not dropped and not replaced. *)
Theorem unmatched_name_is_kept (self : t) (drug_name : string) :
  truthy (strip drug_name) = true ->
  get (lower (strip drug_name)) (synonym_map self) = None ->
  (0 < threshold self)%Z ->
  (forall synonym, In synonym (keys (synonym_map self)) ->
     (ratio (lower (strip drug_name)) synonym < threshold self)%Z) ->
  _find_best_match self drug_name = Some (lower (strip drug_name)).
Proof.
  intros Hb Hg Ht Hs. unfold _find_best_match. rewrite Hb. simpl. rewrite Hg.
  destruct (scan _ _) as [best score] eqn:E.
  assert (Hlt : (score < threshold self)%Z).
  { change score with (snd (best, score)). rewrite <- E. unfold scan.
    apply scan_below; [exact Ht|].
    apply List.Forall_forall. intros [k v] Hin. apply Hs.
    unfold keys. apply List.in_map_iff. now exists (k, v). }
  destruct (Z.leb_spec (threshold self) score); [lia | reflexivity].
Qed.

Lemma find_best_match_not_None (self : t) (drug_name : string) :
  (0 < threshold self)%Z ->
  _find_best_match self drug_name <> None.
Proof.
  intros Ht. unfold _find_best_match.
  destruct (negb _); [discriminate|].
  destruct (get _ _); [discriminate|].
  destruct (scan _ _) as [best score] eqn:E.
  destruct (Z.leb_spec (threshold self) score); [|discriminate].
  intros ->.
  assert (H0 : (score <= 0)%Z).
  { unfold scan in E. change score with (snd (@None string, score)).
    rewrite <- E. apply scan_None_score; [simpl; lia|]. now rewrite E. }
  lia.
Qed.

(** X2. With a positive threshold [_find_best_match] never returns
    [None], whatever the table and the scorer; so no entry of the output
    of [normalize_drugs] is [None]. *)
Theorem positive_threshold_never_None (self : t) (drug_name : string)
    (drugs : list string) :
  (0 < threshold self)%Z ->
  _find_best_match self drug_name <> None
  /\ None ∉ normalize_drugs self drugs.
Proof.
  intros Ht. split; [now apply find_best_match_not_None|].
  rewrite NormalizeDrugsFacts.normalize_drugs_unfold. intros Hin.
  apply NormalizeDrugsFacts.unique_not_seen in Hin as [_ Hin].
  apply list_elem_of_fmap in Hin as (d & Hd & _).
  symmetry in Hd. now apply find_best_match_not_None in Hd.
Qed.

(** X3. The fuzzy answer is the canonical name of the first key with the
    highest score: if the table lists the key [synonym] after keys that
    all score lower and before keys that score no higher, and its score
    is positive and reaches the threshold, then a non-blank name that is
    no key itself is mapped to the canonical name of [synonym]. *)
Theorem first_best_score_wins (self : t) (drug_name synonym generic : string)
    (before after : dict string) :
  synonym_map self = before ++ (synonym, generic) :: after ->
  truthy (strip drug_name) = true ->
  get (lower (strip drug_name)) (synonym_map self) = None ->
  let s := ratio (lower (strip drug_name)) synonym in
  (0 < s)%Z -> (threshold self <= s)%Z ->
  Forall (fun item => (ratio (lower (strip drug_name)) (fst item) < s)%Z) before ->
  Forall (fun item => (ratio (lower (strip drug_name)) (fst item) <= s)%Z) after ->
  _find_best_match self drug_name = Some generic.
Proof.
  intros Hm Hb Hg s Hpos Ht Hbefore Hafter.
  unfold _find_best_match. rewrite Hb. cbn [negb]. rewrite Hg.
  assert (E : scan (lower (strip drug_name)) (synonym_map self) = (Some generic, s)).
  { unfold scan. rewrite Hm, fold_left_app. cbn [fold_left].
    pose proof (scan_below (lower (strip drug_name)) before (None, 0%Z) s Hpos Hbefore)
      as Hlt.
    set (acc := fold_left (scan_step (lower (strip drug_name))) before (None, 0%Z)) in *.
    rewrite scan_step_unfold. unfold score_of. cbn [fst snd]. fold s.
    destruct (Z.ltb_spec (snd acc) s); [|lia].
    apply scan_keeps. exact Hafter. }
  rewrite E. destruct (Z.leb_spec (threshold self) s); [reflexivity | lia].
Qed.

End WithFuzz.

Definition vincristine_table : t :=
  mk 85 [("oncovin", "vincristine"); ("vincristine", "vincristine");
         ("vincristinum", "vincristine")].

Lemma unmatched_name_is_kept_witness :
  @_find_best_match position_fuzz vincristine_table " Aspirin" = Some "aspirin".
Proof.
  apply (@unmatched_name_is_kept position_fuzz vincristine_table " Aspirin").
  - reflexivity.
  - reflexivity.
  - reflexivity.
  - intros synonym H. simpl in H.
    destruct H as [<-|[<-|[<-|[]]]]; vm_compute; reflexivity.
Defined.

Lemma positive_threshold_never_None_witness :
  @_find_best_match position_fuzz vincristine_table "zzzz" <> None
  /\ None ∉ @normalize_drugs position_fuzz vincristine_table ["zzzz"; "Oncovin"].
Proof.
  apply (@positive_threshold_never_None position_fuzz vincristine_table "zzzz"
           ["zzzz"; "Oncovin"]).
  reflexivity.
Defined.

Lemma first_best_score_wins_witness :
  @_find_best_match position_fuzz vincristine_table "Vincristin" = Some "vincristine".
Proof.
  apply (@first_best_score_wins position_fuzz vincristine_table "Vincristin"
           "vincristine" "vincristine"
           [("oncovin", "vincristine")] [("vincristinum", "vincristine")]).
  - reflexivity.
  - reflexivity.
  - reflexivity.
  - reflexivity.
  - vm_compute. discriminate.
  - repeat constructor.
  - repeat constructor. vm_compute. discriminate.
Defined.

End FuzzyScanFacts.

(** ** _load_synonyms: what the table holds *)

Module SynonymTableFacts.
Import PyStr PyStrFacts PyDict PyDictFacts DrugNormalizer DrugNormalizerFacts.

Lemma get_set {V} (k k' : string) (v : V) (d : dict V) :
  get k (set k' v d) = if String.eqb k k' then Some v else get k d.
Proof.
  induction d as [|[k0 v0] d IH]; simpl.
  - reflexivity.
  - destruct (String.eqb k' k0) eqn:E; simpl.
    + apply String.eqb_eq in E. subst k0.
      destruct (String.eqb k k'); reflexivity.
    + rewrite IH. destruct (String.eqb k k0) eqn:E0; [|reflexivity].
      apply String.eqb_eq in E0. subst k0.
      destruct (String.eqb k k') eqn:E1; [|reflexivity].
      apply String.eqb_eq in E1. subst k'. rewrite String.eqb_refl in E.
      discriminate.
Qed.

Lemma in_set {V} (k : string) (v : V) (d : dict V) (item : string * V) :
  In item (set k v d) -> item = (k, v) \/ In item d.
Proof.
  induction d as [|[k0 v0] d IH]; simpl.
  - intros [<-|[]]. now left.
  - destruct (String.eqb k k0) eqn:E; simpl.
    + apply String.eqb_eq in E. subst k0. intros [<-|H]; auto.
    + intros [<-|H]; auto. destruct (IH H); auto.
Qed.

(** The names [load_row] enters for a row: its synonyms, then its
    generic name, all stripped. *)
Definition names_of (row : synonym_row) : list string :=
  map strip (split_on "," (DrugSynonym row)) ++ [strip (DrugName row)].

Lemma load_row_unfold (m : dict string) (row : synonym_row) :
  load_row m row = add_synonyms (strip (DrugName row)) (names_of row) m.
Proof. reflexivity. Qed.

(** Once a key maps to [generic], adding names for [generic] keeps it
    so; and a name that is added maps to [generic]. *)
Lemma add_synonyms_keeps (generic : string) (synonyms : list string)
    (m : dict string) (k : string) :
  get k m = Some generic -> get k (add_synonyms generic synonyms m) = Some generic.
Proof.
  unfold add_synonyms. revert m.
  induction synonyms as [|s l IH]; simpl; intros m H; [exact H|].
  apply IH. destruct (truthy s); [|exact H].
  rewrite get_set. destruct (String.eqb k (lower s)); [reflexivity | exact H].
Qed.

Lemma add_synonyms_maps (generic : string) (synonyms : list string)
    (m : dict string) (s : string) :
  In s synonyms -> truthy s = true ->
  get (lower s) (add_synonyms generic synonyms m) = Some generic.
Proof.
  revert m. induction synonyms as [|s0 l IH]; intros m Hin Ht; [destruct Hin|].
  destruct Hin as [->|Hin].
  - unfold add_synonyms. simpl. rewrite Ht.
    apply (add_synonyms_keeps generic l). apply get_set_eq.
  - unfold add_synonyms. simpl. apply (IH _ Hin Ht).
Qed.

(** Keys are never removed. *)
Lemma add_synonyms_has (generic : string) (synonyms : list string)
    (m : dict string) (k : string) :
  is_Some (get k m) -> is_Some (get k (add_synonyms generic synonyms m)).
Proof.
  unfold add_synonyms. revert m.
  induction synonyms as [|s l IH]; simpl; intros m H; [exact H|].
  apply IH. destruct (truthy s); [|exact H].
  rewrite get_set. destruct (String.eqb k (lower s)); [eauto | exact H].
Qed.

Lemma load_rows_has (rows : list synonym_row) (m : dict string) (k : string) :
  is_Some (get k m) -> is_Some (get k (fold_left load_row rows m)).
Proof.
  revert m. induction rows as [|r rows IH]; simpl; intros m H; [exact H|].
  apply IH. rewrite load_row_unfold. now apply add_synonyms_has.
Qed.

Lemma add_synonyms_items (generic : string) (synonyms : list string)
    (m : dict string) (item : string * string) :
  In item (add_synonyms generic synonyms m) -> snd item = generic \/ In item m.
Proof.
  unfold add_synonyms. revert m.
  induction synonyms as [|s l IH]; simpl; intros m H; [now right|].
  destruct (IH _ H) as [Hg|Hin]; [now left|].
  destruct (truthy s); [|now right].
  destruct (in_set _ _ _ _ Hin) as [->|Hm]; [now left | now right].
Qed.

Lemma load_rows_items (rows : list synonym_row) (m : dict string)
    (item : string * string) :
  In item (fold_left load_row rows m) ->
  (exists row, In row rows /\ snd item = strip (DrugName row)) \/ In item m.
Proof.
  revert m. induction rows as [|r rows IH]; simpl; intros m H; [now right|].
  destruct (IH _ H) as [(row & Hrow & Hv)|Hin].
  - left. exists row. auto.
  - rewrite load_row_unfold in Hin.
    destruct (add_synonyms_items _ _ _ _ Hin) as [Hv|Hm]; [|now right].
    left. exists r. auto.
Qed.

(** X4. Every entry of a loaded synonym table has a key that is
    non-empty, stripped and lowered, and a value that is the stripped
    [DrugName] of a row of the file. *)
Theorem loaded_table_entries (rows : list synonym_row) (key generic : string) :
  In (key, generic) (_load_synonyms rows) ->
  (truthy key = true /\ strip key = key /\ lower key = key)
  /\ exists row, In row rows /\ generic = strip (DrugName row).
Proof.
  intros Hin. split.
  - pose proof (load_synonyms_keys rows) as Hk.
    rewrite List.Forall_forall in Hk.
    destruct (Hk key) as [Ht Hn].
    { unfold keys. apply List.in_map_iff. now exists (key, generic). }
    split; [exact Ht|].
    assert (Hl : lower key = key) by (rewrite <- Hn; apply lower_idem).
    split; [|exact Hl].
    rewrite <- Hn at 1. rewrite <- strip_lower, strip_idem, strip_lower. exact Hn.
  - destruct (load_rows_items rows [] (key, generic) Hin) as [(row & H1 & H2)|[]].
    exists row. auto.
Qed.

(** X5. The last row of the file has the last word: each of its
    non-blank synonyms, and its own name, maps to its stripped
    [DrugName], whatever earlier rows said. *)
Theorem last_row_wins (rows : list synonym_row) (row : synonym_row) (s : string) :
  In s (DrugName row :: split_on "," (DrugSynonym row)) ->
  truthy (strip s) = true ->
  get (lower (strip s)) (_load_synonyms (rows ++ [row])) = Some (strip (DrugName row)).
Proof.
  intros Hin Ht. unfold _load_synonyms. rewrite fold_left_app. simpl.
  rewrite load_row_unfold. apply add_synonyms_maps; [|exact Ht].
  unfold names_of. apply List.in_app_iff. destruct Hin as [<-|Hin].
  - right. now left.
  - left. now apply List.in_map.
Qed.

Section WithFuzz.
Context {F : Fuzz}.

(** X6. Every synonym the file lists, and every generic name, resolves:
    written in any letter case and with blanks around it, it is mapped
    to the stripped [DrugName] of some row, for every threshold and
    scorer. *)
Theorem listed_synonym_resolves (rows : list synonym_row) (threshold : Z)
    (row : synonym_row) (s drug_name : string) :
  In row rows ->
  In s (DrugName row :: split_on "," (DrugSynonym row)) ->
  truthy (strip s) = true ->
  lower (strip drug_name) = lower (strip s) ->
  exists row',
    In row' rows
    /\ _find_best_match (init rows threshold) drug_name = Some (strip (DrugName row')).
Proof.
  intros Hrow Hin Ht Hname.
  assert (Hkey : is_Some (get (lower (strip s)) (_load_synonyms rows))).
  { apply List.in_split in Hrow as (l1 & l2 & ->).
    unfold _load_synonyms. rewrite fold_left_app. simpl.
    apply load_rows_has. rewrite load_row_unfold.
    exists (strip (DrugName row)). apply add_synonyms_maps; [|exact Ht].
    unfold names_of. apply List.in_app_iff. destruct Hin as [<-|Hin].
    - right. now left.
    - left. now apply List.in_map. }
  destruct Hkey as [generic Hg].
  assert (Hitem : In (lower (strip s), generic) (_load_synonyms rows)).
  { clear -Hg. induction (_load_synonyms rows) as [|[k v] d IH]; simpl in *;
      [discriminate|].
    destruct (String.eqb (lower (strip s)) k) eqn:E.
    - apply String.eqb_eq in E. injection Hg as ->. subst. now left.
    - right. now apply IH. }
  destruct (load_rows_items rows [] _ Hitem) as [(row' & H1 & H2)|[]].
  exists row'. split; [exact H1|]. simpl in H2. subst generic.
  apply find_best_match_exact; simpl.
  - assert (E : truthy (lower (strip drug_name)) = true)
      by (rewrite Hname, truthy_lower; exact Ht).
    now rewrite truthy_lower in E.
  - now rewrite Hname.
Qed.

End WithFuzz.

Definition two_rows : list synonym_row :=
  [mk_row "Vincristine" "Oncovin, VCR"; mk_row " Leurocristine " "VCR,, LCR "].

Lemma loaded_table_entries_witness :
  (truthy "vcr" = true /\ strip "vcr" = "vcr" /\ lower "vcr" = "vcr")
  /\ exists row, In row two_rows /\ "Leurocristine" = strip (DrugName row).
Proof.
  apply (loaded_table_entries two_rows "vcr" "Leurocristine").
  vm_compute. auto.
Defined.

Lemma last_row_wins_witness :
  get (lower (strip "VCR"))
      (_load_synonyms ([mk_row "Vincristine" "Oncovin, VCR"]
                       ++ [mk_row " Leurocristine " "VCR,, LCR "]))
  = Some (strip " Leurocristine ").
Proof.
  apply (last_row_wins [mk_row "Vincristine" "Oncovin, VCR"]
           (mk_row " Leurocristine " "VCR,, LCR ") "VCR").
  - right. left. reflexivity.
  - reflexivity.
Defined.

Lemma listed_synonym_resolves_witness :
  exists row',
    In row' two_rows
    /\ @_find_best_match position_fuzz (init two_rows 85) " ONCOVIN"
       = Some (strip (DrugName row')).
Proof.
  apply (@listed_synonym_resolves position_fuzz two_rows 85
           (mk_row "Vincristine" "Oncovin, VCR") "Oncovin" " ONCOVIN").
  - left. reflexivity.
  - right. left. reflexivity.
  - reflexivity.
  - reflexivity.
Defined.

End SynonymTableFacts.

(** ** The regimen mapper: lookups *)

Module RegimenLookupFacts.
Import PyStr PyStrFacts PyDict PyDictFacts RegimenDrugMapper.

Lemma key_has_value {V} (k : string) (d : dict V) :
  In k (keys d) -> exists v, get k d = Some v.
Proof.
  induction d as [|[k0 v0] d IH]; simpl; [intros []|].
  destruct (String.eqb k k0) eqn:E; [eauto|].
  intros [H|H]; [|auto]. subst. rewrite String.eqb_refl in E. discriminate.
Qed.

Section WithFuzz.
Context {F : Fuzz}.

(** The score [_fuzzy_match_regimen] gives a known regimen: the best of
    the three ratios. *)
Definition best_of_three (normalized_regimen known_regimen : string) : Z :=
  Z.max (Z.max (ratio normalized_regimen known_regimen)
               (partial_ratio normalized_regimen known_regimen))
        (token_sort_ratio normalized_regimen known_regimen).

Lemma fuzzy_step_unfold (self : t) (normalized : string)
    (acc : option string * Z) (known : string) :
  fuzzy_step self normalized acc known
  = if ((snd acc <? best_of_three normalized known)%Z
        && (threshold self <=? best_of_three normalized known)%Z)%bool
    then (Some known, best_of_three normalized known) else acc.
Proof. reflexivity. Qed.

Lemma fuzzy_fold_key (self : t) (normalized : string) (l : list string)
    (acc : option string * Z) (k : string) :
  fst (fold_left (fuzzy_step self normalized) l acc) = Some k ->
  fst acc = Some k \/ In k l.
Proof.
  revert acc. induction l as [|known l IH]; simpl; intros acc H; [now left|].
  destruct (IH _ H) as [Hacc|Hin]; [|right; now right].
  rewrite fuzzy_step_unfold in Hacc.
  destruct (_ && _)%bool; simpl in Hacc; [|now left].
  injection Hacc as ->. right. now left.
Qed.

(** What [_fuzzy_match_regimen] returns is a key of the table. *)
Lemma fuzzy_match_is_key (self : t) (regimen matched : string) :
  _fuzzy_match_regimen self regimen = Some matched ->
  exists drugs, get matched (regimen_map self) = Some drugs.
Proof.
  unfold _fuzzy_match_regimen. destruct (negb _); [discriminate|].
  unfold mem.
  destruct (get (_normalize_regimen_name regimen) (regimen_map self)) as [d|] eqn:E.
  - intros H. injection H as <-. eauto.
  - intros H. apply fuzzy_fold_key in H as [H|H]; [discriminate|].
    now apply key_has_value.
Qed.

Lemma get_drugs_returns (self : t) (regimen : string) :
  exists drugs,
    get_drugs_from_regimen self regimen = Ret drugs
    /\ (drugs = [] \/ exists key, get key (regimen_map self) = Some drugs).
Proof.
  unfold get_drugs_from_regimen.
  destruct (negb _); [eauto|].
  destruct (_fuzzy_match_regimen self regimen) as [m|] eqn:E; [|eauto].
  destruct (truthy m); [|eauto].
  destruct (fuzzy_match_is_key _ _ _ E) as [drugs Hd]. rewrite Hd. eauto.
Qed.

Lemma regimen_drugs_returns (self : t) (extracted_regimens : list string) :
  exists l, regimen_drugs_of self extracted_regimens = Ret l.
Proof.
  induction extracted_regimens as [|r l (ds & IH)]; simpl; [eauto|].
  destruct (truthy r); [|eauto].
  destruct (get_drugs_returns self r) as (drugs & -> & _). rewrite IH. eauto.
Qed.

(** X7. The lookup of a regimen never raises: [get_drugs_from_regimen]
    returns a list, which is empty or the entry of a key of the table;
    so [get_combined_drugs] returns too. *)
Theorem regimen_lookup_never_raises (self : t) (regimen : string)
    (extracted_drugs extracted_regimens : list string) :
  (exists drugs,
     get_drugs_from_regimen self regimen = Ret drugs
     /\ (drugs = [] \/ exists key, get key (regimen_map self) = Some drugs))
  /\ exists combined,
       get_combined_drugs self extracted_drugs extracted_regimens = Ret combined.
Proof.
  split; [apply get_drugs_returns|].
  unfold get_combined_drugs.
  destruct (regimen_drugs_returns self extracted_regimens) as [l ->]. eauto.
Qed.

Lemma fuzzy_fold_keeps (self : t) (normalized : string) (l : list string)
    (acc : option string * Z) :
  Forall (fun known => (best_of_three normalized known <= snd acc)%Z
                       \/ (best_of_three normalized known < threshold self)%Z) l ->
  fold_left (fuzzy_step self normalized) l acc = acc.
Proof.
  revert acc. induction l as [|known l IH]; simpl; intros acc H; [reflexivity|].
  inversion H as [|? ? H1 H2]; subst. rewrite fuzzy_step_unfold.
  destruct (Z.ltb_spec (snd acc) (best_of_three normalized known));
    destruct (Z.leb_spec (threshold self) (best_of_three normalized known));
    simpl; try (now apply IH); lia.
Qed.

Lemma fuzzy_fold_below (self : t) (normalized : string) (l : list string)
    (acc : option string * Z) (s : Z) :
  (snd acc < s)%Z ->
  Forall (fun known => (best_of_three normalized known < s)%Z) l ->
  (snd (fold_left (fuzzy_step self normalized) l acc) < s)%Z.
Proof.
  revert acc. induction l as [|known l IH]; simpl; intros acc Ha H; [exact Ha|].
  inversion H as [|? ? H1 H2]; subst. apply IH; [|exact H2].
  rewrite fuzzy_step_unfold. destruct (_ && _)%bool; simpl; lia.
Qed.

(** X8. Without an exact hit the regimen resolves to the first known
    regimen with the highest score, when that score is positive and
    reaches the threshold: the keys before it score lower, the keys
    after it score no higher; its drugs are returned. *)
Theorem first_best_regimen_wins (self : t) (regimen known : string)
    (drugs : list string) (before after : dict (list string)) :
  regimen_map self = before ++ (known, drugs) :: after ->
  truthy regimen = true -> truthy known = true ->
  let normalized := _normalize_regimen_name regimen in
  get normalized (regimen_map self) = None ->
  get known before = None ->
  let s := best_of_three normalized known in
  (0 < s)%Z -> (threshold self <= s)%Z ->
  Forall (fun key => (best_of_three normalized key < s)%Z) (keys before) ->
  Forall (fun key => (best_of_three normalized key <= s)%Z) (keys after) ->
  _fuzzy_match_regimen self regimen = Some known
  /\ get_drugs_from_regimen self regimen = Ret drugs.
Proof.
  intros Hm Ht Hk normalized Hmiss Hfresh s Hpos Hth Hbefore Hafter.
  assert (E : _fuzzy_match_regimen self regimen = Some known).
  { unfold _fuzzy_match_regimen. rewrite Ht. cbn [negb]. fold normalized.
    unfold mem. rewrite Hmiss. rewrite Hm. unfold keys.
    rewrite map_app, fold_left_app. cbn [map fold_left fst].
    pose proof (fuzzy_fold_below self normalized (map fst before) (None, 0%Z) s
                  Hpos Hbefore) as Hlt.
    set (acc := fold_left (fuzzy_step self normalized) (map fst before) (None, 0%Z)) in *.
    rewrite fuzzy_step_unfold. fold s.
    destruct (Z.ltb_spec (snd acc) s); [|lia].
    destruct (Z.leb_spec (threshold self) s); [|lia]. cbn [andb].
    rewrite fuzzy_fold_keeps; [reflexivity|].
    eapply List.Forall_impl; [|exact Hafter]. simpl. intros; now left. }
  split; [exact E|].
  unfold get_drugs_from_regimen. rewrite Ht, E, Hk. cbn [negb].
  rewrite Hm.
  assert (G : forall (b : dict (list string)),
            get known b = None ->
            get known (b ++ (known, drugs) :: after) = Some drugs).
  { induction b as [|[k0 v0] b IH]; simpl.
    - now rewrite String.eqb_refl.
    - destruct (String.eqb known k0); [discriminate | exact IH]. }
  now rewrite (G before Hfresh).
Qed.

(** X9. A regimen that is no key after normalisation and whose score
    against every known regimen is below the threshold resolves to
    nothing, and contributes no drugs. *)
Theorem regimen_below_threshold_unresolved (self : t) (regimen : string) :
  get (_normalize_regimen_name regimen) (regimen_map self) = None ->
  Forall (fun key => (best_of_three (_normalize_regimen_name regimen) key
                      < threshold self)%Z) (keys (regimen_map self)) ->
  _fuzzy_match_regimen self regimen = None
  /\ get_drugs_from_regimen self regimen = Ret [].
Proof.
  intros Hmiss Hlow.
  assert (E : _fuzzy_match_regimen self regimen = None).
  { unfold _fuzzy_match_regimen. destruct (negb _); [reflexivity|].
    unfold mem. rewrite Hmiss.
    rewrite fuzzy_fold_keeps; [reflexivity|].
    eapply List.Forall_impl; [|exact Hlow]. simpl. intros; now right. }
  split; [exact E|].
  unfold get_drugs_from_regimen. rewrite E. now destruct (negb _).
Qed.

End WithFuzz.

Definition two_regimens : t :=
  mk 70 [("chop", ["cyclophosphamide"; "doxorubicin"; "vincristine"; "prednisone"]);
         ("abvd", ["doxorubicin"; "bleomycin"; "vinblastine"; "dacarbazine"])].

Lemma first_best_regimen_wins_witness :
  @_fuzzy_match_regimen position_fuzz two_regimens "ABVE regimen" = Some "abvd"
  /\ @get_drugs_from_regimen position_fuzz two_regimens "ABVE regimen"
     = Ret ["doxorubicin"; "bleomycin"; "vinblastine"; "dacarbazine"].
Proof.
  apply (@first_best_regimen_wins position_fuzz two_regimens "ABVE regimen" "abvd"
           ["doxorubicin"; "bleomycin"; "vinblastine"; "dacarbazine"]
           [("chop", ["cyclophosphamide"; "doxorubicin"; "vincristine"; "prednisone"])]
           []).
  - reflexivity.
  - reflexivity.
  - reflexivity.
  - reflexivity.
  - reflexivity.
  - reflexivity.
  - vm_compute. discriminate.
  - repeat constructor.
  - constructor.
Defined.

Lemma regimen_below_threshold_unresolved_witness :
  @_fuzzy_match_regimen position_fuzz two_regimens "radiation" = None
  /\ @get_drugs_from_regimen position_fuzz two_regimens "radiation" = Ret [].
Proof.
  apply (@regimen_below_threshold_unresolved position_fuzz two_regimens "radiation").
  - reflexivity.
  - repeat constructor.
Defined.

End RegimenLookupFacts.

(** ** The regimen mapper: keys and combined drugs *)

Module RegimenCombineFacts.
Import PyStr PyStrFacts PyDict RegimenDrugMapper RegimenLookupFacts.

Lemma lower_cons (c : ascii) (s : string) :
  lower (String c s) = String c s -> lower s = s.
Proof. simpl. intros H. now injection H. Qed.

(** Dropping occurrences of a substring from a lowered text leaves a
    lowered text. *)
Lemma remove_from_lower (old : string) (skip : nat) (s : string) :
  lower s = s -> lower (remove_from old skip s) = remove_from old skip s.
Proof.
  revert skip. induction s as [|c s IH]; intros skip H; [reflexivity|].
  pose proof (lower_cons c s H) as Hs.
  assert (Hc : lower_char c = c) by (simpl in H; now injection H).
  simpl. destruct skip as [|k]; [|now apply IH].
  destruct old as [|o old'].
  - simpl. now rewrite Hc, IH.
  - destruct (startswith (String o old') (String c s)); [now apply IH|].
    simpl. now rewrite Hc, IH.
Qed.

Lemma strip_of_lower (s : string) : lower s = s -> lower (strip s) = strip s.
Proof. intros H. rewrite <- strip_lower. now rewrite H. Qed.

(** X10. The key [_normalize_regimen_name] computes is lowered and
    stripped, for every name. *)
Theorem normalized_regimen_name_form (regimen : string) :
  lower (_normalize_regimen_name regimen) = _normalize_regimen_name regimen
  /\ strip (_normalize_regimen_name regimen) = _normalize_regimen_name regimen.
Proof.
  unfold _normalize_regimen_name, remove_all. split; [|apply strip_idem].
  repeat (apply strip_of_lower; apply remove_from_lower).
  apply lower_idem.
Qed.

Section WithFuzz.
Context {F : Fuzz}.

Lemma regimen_drugs_members (self : t) (extracted_regimens regimen_drugs : list string)
    (d : string) :
  regimen_drugs_of self extracted_regimens = Ret regimen_drugs ->
  (In d regimen_drugs
   <-> exists regimen drugs,
         In regimen extracted_regimens /\ truthy regimen = true
         /\ get_drugs_from_regimen self regimen = Ret drugs /\ In d drugs).
Proof.
  revert regimen_drugs.
  induction extracted_regimens as [|r l IH]; simpl; intros rd H.
  - injection H as <-. split; [intros [] | intros (? & ? & [] & _)].
  - destruct (truthy r) eqn:Hr.
    + destruct (get_drugs_from_regimen self r) as [drugs|] eqn:Hd; [|discriminate].
      destruct (regimen_drugs_of self l) as [more|]; [|discriminate].
      injection H as <-. rewrite List.in_app_iff, (IH more eq_refl). split.
      * intros [Hin|(r' & ds & H1 & H2 & H3 & H4)].
        -- exists r, drugs. auto.
        -- exists r', ds. auto.
      * intros (r' & ds & [<-|H1] & H2 & H3 & H4).
        -- left. rewrite Hd in H3. now injection H3 as <-.
        -- right. exists r', ds. auto.
    + rewrite (IH rd H). split.
      * intros (r' & ds & H1 & H2 & H3 & H4). exists r', ds. auto.
      * intros (r' & ds & [<-|H1] & H2 & H3 & H4); [congruence|].
        exists r', ds. auto.
Qed.

(** X11. The combined drugs are exactly the stripped, lowered forms of
    the truthy extracted drugs and of the truthy drugs of every truthy
    extracted regimen as [get_drugs_from_regimen] resolves it. *)
Theorem combined_drugs_members (self : t)
    (extracted_drugs extracted_regimens : list string) (x : string) :
  exists combined,
    get_combined_drugs self extracted_drugs extracted_regimens = Ret combined
    /\ (x ∈ combined
        <-> exists d,
              truthy d = true /\ x = lower (strip d)
              /\ (In d extracted_drugs
                  \/ exists regimen drugs,
                       In regimen extracted_regimens /\ truthy regimen = true
                       /\ get_drugs_from_regimen self regimen = Ret drugs
                       /\ In d drugs)).
Proof.
  unfold get_combined_drugs.
  destruct (regimen_drugs_of self extracted_regimens) as [rd|e] eqn:E.
  - eexists. split; [reflexivity|].
    rewrite elem_of_list_to_set, list_elem_of_fmap. split.
    + intros (d & -> & Hd). apply list_elem_of_filter in Hd as [Ht Hin].
      apply list_elem_of_In, List.in_app_iff in Hin.
      exists d. split; [exact Ht|]. split; [reflexivity|].
      destruct Hin as [Hin|Hin]; [now left|].
      right. now apply (regimen_drugs_members self _ _ d E).
    + intros (d & Ht & -> & Hin). exists d. split; [reflexivity|].
      apply list_elem_of_filter. split; [exact Ht|].
      apply list_elem_of_In, List.in_app_iff.
      destruct Hin as [Hin|Hin]; [now left|].
      right. now apply (regimen_drugs_members self _ _ d E).
  - exfalso.
    destruct (regimen_drugs_returns self extracted_regimens) as [l Hl].
    rewrite E in Hl. discriminate.
Qed.

End WithFuzz.
End RegimenCombineFacts.

(** ** The metrics: closed forms, symmetry, the two report lists *)

Module MetricsMoreFacts.
Import PyStr PyStrFacts Metrics MetricsFacts.
Local Open Scope Q_scope.

Lemma normalize_drug_list_unfold (drugs : list string) :
  normalize_drug_list drugs
  = map (fun drug => lower (strip drug))
        (filter (fun drug => truthy drug = true) drugs).
Proof. destruct drugs; reflexivity. Qed.

(** The normalised set of a list: the stripped, lowered forms of its
    truthy entries. *)
Lemma elem_of_normalized (drugs : list string) (x : string) :
  x ∈ (list_to_set (normalize_drug_list drugs) : gset string)
  <-> exists d, d ∈ drugs /\ truthy d = true /\ x = lower (strip d).
Proof.
  rewrite normalize_drug_list_unfold, elem_of_list_to_set, list_elem_of_fmap.
  split.
  - intros (d & -> & Hd). apply list_elem_of_filter in Hd as [Ht Hin]. eauto.
  - intros (d & Hin & Ht & ->). exists d. split; [reflexivity|].
    now apply list_elem_of_filter.
Qed.

Lemma filter_nil_iff {A} (P : A -> Prop) `{forall x, Decision (P x)} (l : list A) :
  filter P l = [] <-> forall x, x ∈ l -> ~ P x.
Proof.
  induction l as [|a l IH].
  - split; [intros _ x Hx; inversion Hx | reflexivity].
  - rewrite filter_cons. destruct (decide (P a)) as [Ha|Ha].
    + split; [discriminate|]. intros Hall. exfalso. apply (Hall a); [now left | exact Ha].
    + rewrite IH. split.
      * intros Hall x Hx. apply elem_of_cons in Hx as [->|Hx]; auto.
      * intros Hall x Hx. apply Hall. now right.
Qed.

(** X12. Nothing is reported as hallucinated exactly when every
    normalised extracted drug is in the normalised ground truth, and
    nothing as missing exactly when every normalised ground-truth drug
    was extracted. *)
Theorem report_lists_empty_iff (extracted ground_truth : list string) :
  let E : gset string := list_to_set (normalize_drug_list extracted) in
  let G : gset string := list_to_set (normalize_drug_list ground_truth) in
  let s := compute_metrics extracted ground_truth in
  (hallucinated s = [] <-> E ⊆ G) /\ (missing s = [] <-> G ⊆ E).
Proof.
  intros E G s.
  assert (K : forall (l : list string) (X Y : gset string),
    X = list_to_set (normalize_drug_list l) ->
    (filter (fun drug => strip (lower drug) ∈ X ∖ Y) l = [] <-> X ⊆ Y)).
  { intros l X Y ->. rewrite filter_nil_iff. split.
    - intros Hall x Hx. pose proof Hx as Hx'.
      apply elem_of_normalized in Hx' as (d & Hin & Ht & ->).
      destruct (decide (lower (strip d) ∈ Y)) as [|Hn]; [assumption|].
      exfalso. apply (Hall d Hin). rewrite strip_lower. set_solver.
    - intros Hsub x Hx. set_solver. }
  split; [apply (K extracted E G eq_refl) | apply (K ground_truth G E eq_refl)].
Qed.

(** X13. Exchanging the extracted list and the ground truth exchanges
    precision with recall and the hallucinated with the missing entries,
    and leaves f1 as it is. *)
Theorem metrics_swap (extracted ground_truth : list string) :
  let s := compute_metrics extracted ground_truth in
  let s' := compute_metrics ground_truth extracted in
  precision s' = recall s /\ recall s' = precision s /\ f1 s' == f1 s
  /\ missing s' = hallucinated s /\ hallucinated s' = missing s.
Proof.
  intros s s'. unfold s, s', compute_metrics, score_sets.
  set (E := list_to_set (normalize_drug_list extracted) : gset string).
  set (G := list_to_set (normalize_drug_list ground_truth) : gset string).
  cbn [precision recall f1 missing hallucinated].
  rewrite (comm_L (∩) G E).
  set (p := if (0 <? size (E ∩ G) + size (E ∖ G))%nat
            then of_count (size (E ∩ G)) / of_count (size (E ∩ G) + size (E ∖ G))
            else 0).
  set (r := if (0 <? size (E ∩ G) + size (G ∖ E))%nat
            then of_count (size (E ∩ G)) / of_count (size (E ∩ G) + size (G ∖ E))
            else 0).
  repeat split; try reflexivity.
  assert (Hpos : positive (r + p) = positive (p + r)).
  { unfold positive. f_equal. simpl. lia. }
  rewrite Hpos. destruct (positive (p + r)); [|reflexivity].
  rewrite (Qmult_comm r p), (Qplus_comm r p). reflexivity.
Qed.

(** X14. Precision is the share of the normalised extracted set E that
    is in the normalised ground truth G, recall the share of G that is
    in E, each the one division of the two counts and 0 for an empty
    set; f1 is 0 when E and G have no name in common and positive when
    they have one. *)
Theorem precision_recall_closed_form (extracted ground_truth : list string) :
  let E : gset string := list_to_set (normalize_drug_list extracted) in
  let G : gset string := list_to_set (normalize_drug_list ground_truth) in
  let s := compute_metrics extracted ground_truth in
  precision s = (if (0 <? size E)%nat
                 then of_count (size (E ∩ G)) / of_count (size E) else 0)
  /\ recall s = (if (0 <? size G)%nat
                 then of_count (size (E ∩ G)) / of_count (size G) else 0)
  /\ (E ∩ G = ∅ -> f1 s = 0)
  /\ (E ∩ G ≠ ∅ -> 0 < f1 s).
Proof.
  intros E G s. unfold s, compute_metrics, score_sets. fold E G.
  cbn [precision recall f1].
  pose proof (size_parts E G) as HE. pose proof (size_parts G E) as HG.
  rewrite (comm_L (∩) G E) in HG. rewrite HE, HG.
  split; [reflexivity|]. split; [reflexivity|]. split.
  - intros Hz. rewrite Hz, size_empty.
    destruct (0 <? size E)%nat, (0 <? size G)%nat; reflexivity.
  - intros Hne.
    assert (Ht : (0 < size (E ∩ G))%nat).
    { destruct (size (E ∩ G)) eqn:Hsize; [|lia].
      apply size_empty_iff in Hsize. exfalso. apply Hne.
      now apply leibniz_equiv. }
    assert (HsE : (0 < size E)%nat) by lia.
    assert (HsG : (0 < size G)%nat) by lia.
    destruct (Nat.ltb_spec 0 (size E)); [|lia].
    destruct (Nat.ltb_spec 0 (size G)); [|lia].
    pose proof (of_count_pos _ Ht) as Ha.
    pose proof (of_count_pos _ HsE) as Hx.
    pose proof (of_count_pos _ HsG) as Hy.
    assert (Hp : 0 < of_count (size (E ∩ G)) / of_count (size E))
      by (apply Qlt_shift_div_l; [exact Hx | lra]).
    assert (Hr : 0 < of_count (size (E ∩ G)) / of_count (size G))
      by (apply Qlt_shift_div_l; [exact Hy | lra]).
    set (p := of_count (size (E ∩ G)) / of_count (size E)) in *.
    set (r := of_count (size (E ∩ G)) / of_count (size G)) in *.
    assert (Hsum : 0 < p + r) by lra.
    rewrite (proj2 (positive_spec _) Hsum).
    apply Qlt_shift_div_l; [exact Hsum|]. nra.
Qed.

End MetricsMoreFacts.

(** ** The checkpoint store: what a save leaves alone *)

Module SaveMoreFacts.
Import Py Frame Sys Config DataUtils StoreFacts SaveFacts SaveTheorems.

Lemma pruned_are_backups (w : World) (n : string) :
  n ∈ pruned w -> is_backup_name n /\ is_Some (backups w !! n).
Proof.
  intros H. apply elem_of_backup_files. rewrite pruned_kept.
  apply elem_of_app. now left.
Qed.

Section WithFloatText.
Context {FT : FloatText}.

(** X15. A save touches only its own files.  In the working directory
    the checkpoint file holds the new content, no temporary file is
    left, and every other file is as before; in the backup directory every file
    whose name does not start with checkpoint_backup_ is as before; the
    clock and the generator are untouched. *)
Theorem save_checkpoint_touches_only_its_files (df : DataFrame) (w : World) :
  exists w',
    save_checkpoint df w = (Ret tt, w')
    /\ cwd w' !! CHECKPOINT_FILE = Some (to_csv df)
    /\ cwd w' !! (CHECKPOINT_FILE +:+ ".tmp") = None
    /\ (forall n, n <> CHECKPOINT_FILE -> n <> CHECKPOINT_FILE +:+ ".tmp" ->
          cwd w' !! n = cwd w !! n)
    /\ (forall n, ~ is_backup_name n -> backups w' !! n = backups w !! n)
    /\ now w' = now w /\ gen_calls w' = gen_calls w /\ slept w' = slept w.
Proof.
  eexists. split; [apply save_checkpoint_spec|].
  assert (Hcwd : cwd (after_backup w) = cwd w)
    by (unfold after_backup; destruct (cwd w !! CHECKPOINT_FILE); reflexivity).
  split; [apply saved_file|].
  split.
  { simpl. rewrite lookup_insert_ne by discriminate. apply lookup_delete_eq. }
  split.
  { intros n H1 H2. simpl. rewrite lookup_insert_ne by congruence.
    rewrite lookup_delete_ne by congruence.
    rewrite lookup_insert_ne by congruence. now rewrite Hcwd. }
  split.
  { intros n Hn. simpl. rewrite lookup_foldr_delete.
    destruct (decide (n ∈ reverse (pruned (after_write df (after_backup w)))))
      as [Hin|_].
    - rewrite elem_of_reverse in Hin. apply pruned_are_backups in Hin as [Hb _].
      contradiction.
    - unfold after_backup. destruct (cwd w !! CHECKPOINT_FILE); [|reflexivity].
      simpl. apply lookup_insert_ne. intros <-. apply Hn, backup_name_is_backup. }
  unfold after_backup. destruct (cwd w !! CHECKPOINT_FILE); auto.
Qed.

(** X16. With at most five backups in the directory once the copy is
    made, a save prunes nothing. *)
Theorem up_to_five_backups_nothing_pruned (df : DataFrame) (w : World) :
  length (backup_names (after_backup w)) <= 5 ->
  exists w',
    save_checkpoint df w = (Ret tt, w')
    /\ backups w' = backups (after_backup w).
Proof.
  intros Hlen. eexists. split; [apply save_checkpoint_spec|].
  set (w2 := after_write df (after_backup w)).
  assert (E : length (backup_files_of (elements (dom (backups w2))))
              = length (backup_names (after_backup w)))
    by (rewrite backup_files_perm; reflexivity).
  assert (Hnone : pruned w2 = []).
  { unfold pruned.
    destruct (Nat.ltb_spec 5 (length (backup_files_of (elements (dom (backups w2))))));
      [lia | reflexivity]. }
  unfold after_prune. rewrite Hnone. reflexivity.
Qed.

(** X17. When no backup in the directory has a name after the one the
    clock gives now, the copy a save makes of the checkpoint file in
    place is still there after the save. *)
Theorem fresh_backup_survives (df : DataFrame) (w : World) (old : file) :
  cwd w !! CHECKPOINT_FILE = Some old ->
  (forall n, n ∈ backup_names w -> name_le n (backup_name w)) ->
  exists w',
    save_checkpoint df w = (Ret tt, w')
    /\ backups w' !! backup_name w = Some old.
Proof.
  intros Hold Hlatest. eexists. split; [apply save_checkpoint_spec|].
  set (w2 := after_write df (after_backup w)).
  assert (Hb : backups w2 = <[backup_name w := old]> (backups w))
    by (unfold w2, after_backup; rewrite Hold; reflexivity).
  cbn [after_prune backups with_backups]. rewrite lookup_foldr_delete.
  destruct (decide (backup_name w ∈ reverse (pruned w2))) as [Hin|_];
    [|rewrite Hb; apply lookup_insert_eq].
  exfalso. rewrite elem_of_reverse in Hin.
  pose proof (backup_files_NoDup w2) as Hnd. rewrite pruned_kept in Hnd.
  apply NoDup_app in Hnd as (_ & Hdisj & _).
  pose proof (backup_files_sorted (elements (dom (backups w2)))) as Hs.
  rewrite pruned_kept in Hs.
  assert (Hk : exists k, k ∈ kept w2).
  { destruct (kept w2) as [|k l] eqn:E; [|exists k; now left].
    exfalso. unfold pruned, kept in *.
    destruct (Nat.ltb_spec 5 (length (backup_files_of (elements (dom (backups w2))))))
      as [H5|H5]; [|inversion Hin].
    apply (f_equal length) in E. rewrite length_skipn in E.
    cbn [length] in E. lia. }
  destruct Hk as [k Hk].
  pose proof (StronglySorted_app_1_elem_of _ _ _ _ _ Hs Hin Hk) as Hle.
  assert (Hk' : k ∈ pruned w2 ++ kept w2) by (apply elem_of_app; now right).
  rewrite <- pruned_kept in Hk'. apply elem_of_backup_files in Hk' as [Hkb Hks].
  assert (Hge : name_le k (backup_name w)).
  { destruct (decide (k = backup_name w)) as [->|Hne].
    - destruct (leb_total (backup_name w) (backup_name w)); assumption.
    - apply Hlatest. unfold backup_names.
      apply list_elem_of_filter. split; [exact Hkb|].
      apply elem_of_elements, elem_of_dom.
      rewrite Hb, lookup_insert_ne in Hks by congruence. exact Hks. }
  assert (k = backup_name w) by (apply leb_antisym; assumption).
  subst k. exact (Hdisj _ Hin Hk).
Qed.

End WithFloatText.
End SaveMoreFacts.

Module SaveMoreExamples.
Import Py Frame Sys Config DataUtils StoreFacts SaveFacts SaveTheorems.
Import LoadTheorems SaveMoreFacts.

Lemma up_to_five_backups_nothing_pruned_witness :
  exists w',
    save_checkpoint (FT := fraction_text) one_record (start_world []) = (Ret tt, w')
    /\ backups w' = backups (after_backup (start_world [])).
Proof.
  apply (up_to_five_backups_nothing_pruned (FT := fraction_text) one_record
           (start_world [])).
  vm_compute. lia.
Defined.

Lemma fresh_backup_survives_witness :
  exists w',
    save_checkpoint (FT := fraction_text) one_record
      (start_world [(CHECKPOINT_FILE, short_file)]) = (Ret tt, w')
    /\ backups w' !! backup_name (start_world [(CHECKPOINT_FILE, short_file)])
       = Some short_file.
Proof.
  apply (fresh_backup_survives (FT := fraction_text) one_record
           (start_world [(CHECKPOINT_FILE, short_file)]) short_file).
  - reflexivity.
  - apply Forall_forall. apply (bool_decide_eq_true_1 _). vm_compute. reflexivity.
Defined.

End SaveMoreExamples.

(** ** The checkpoint store: loading *)

Module LoadMoreFacts.
Import Py Frame Sys Config DataUtils StoreFacts SaveFacts SaveTheorems LoadTheorems.

(** The world a load leaves when it finds the file [f] unusable. *)
Definition quarantined (f : file) (w : World) : World :=
  with_cwd (with_backups w (<[backup_name w := f]> (backups w)))
           (<[CHECKPOINT_FILE +:+ ".corrupted" := f]> (delete CHECKPOINT_FILE (cwd w))).

Lemma load_checkpoint_unusable (w : World) (f : file) :
  cwd w !! CHECKPOINT_FILE = Some f -> unusable f ->
  load_checkpoint w = (Ret empty_frame, quarantined f w).
Proof.
  intros Hf Hbad.
  unfold load_checkpoint, create_backup_dir, bind, ret, path_exists,
    try_except, read_csv_file, get_backup_filename, copy_to_backups,
    rename, raise.
  rewrite bool_decide_eq_true_2 by eauto.
  rewrite Hf.
  destruct Hbad as [[e He]|[df [Hr Hc]]].
  - rewrite He. rewrite Hf. simpl. rewrite Hf. reflexivity.
  - rewrite Hr, Hc. rewrite Hf. simpl. rewrite Hf. reflexivity.
Qed.

Lemma load_checkpoint_absent (w : World) :
  cwd w !! CHECKPOINT_FILE = None -> load_checkpoint w = (Ret empty_frame, w).
Proof.
  intros Hf.
  unfold load_checkpoint, create_backup_dir, bind, ret, path_exists.
  rewrite bool_decide_eq_false_2; [reflexivity|].
  rewrite Hf. intros [? ?]. discriminate.
Qed.

(** X18. An unusable checkpoint file is quarantined once: the load that
    finds it returns the empty frame, and a second load, in the world
    the first one left, returns the empty frame again and changes
    nothing. *)
Theorem quarantine_happens_once (w : World) (f : file) :
  cwd w !! CHECKPOINT_FILE = Some f -> unusable f ->
  exists w',
    load_checkpoint w = (Ret empty_frame, w')
    /\ load_checkpoint w' = (Ret empty_frame, w')
    /\ (load_checkpoint ;; load_checkpoint) w = (Ret empty_frame, w').
Proof.
  intros Hf Hbad. exists (quarantined f w).
  assert (H1 : load_checkpoint w = (Ret empty_frame, quarantined f w))
    by now apply load_checkpoint_unusable.
  assert (H2 : load_checkpoint (quarantined f w) = (Ret empty_frame, quarantined f w)).
  { apply load_checkpoint_absent. simpl.
    rewrite lookup_insert_ne by discriminate. apply lookup_delete_eq. }
  split; [exact H1|]. split; [exact H2|].
  unfold bind. now rewrite H1.
Qed.

Section WithFloatText.
Context {FT : FloatText}.







End WithFloatText.

Lemma quarantine_happens_once_witness :
  exists w',
    load_checkpoint (start_world [(CHECKPOINT_FILE, short_file)])
    = (Ret empty_frame, w')
    /\ load_checkpoint w' = (Ret empty_frame, w')
    /\ (load_checkpoint ;; load_checkpoint)
         (start_world [(CHECKPOINT_FILE, short_file)]) = (Ret empty_frame, w').
Proof.
  apply (quarantine_happens_once (start_world [(CHECKPOINT_FILE, short_file)])
           short_file).
  - reflexivity.
  - right. eexists. split; reflexivity.
Defined.


End LoadMoreFacts.

(** ** The batch pipeline: responses, merging, the batch loop *)

Module PipelineMoreFacts.
Import Py Frame Sys Config DataUtils Pipeline Main.
Import FrameFacts SaveFacts SaveTheorems PipelineFacts BatchFacts.

(** What [pd.merge] matches a result row on. *)
Definition result_key (r : result_row) : string * string :=
  (r_unique_key r, r_text_concat r).

Lemma matches_iff (row : raw_record) (r : result_row) :
  matches row r = true <-> result_key r = merge_key row.
Proof.
  unfold matches, result_key, merge_key.
  rewrite andb_true_iff, !String.eqb_eq. split.
  - intros [-> ->]. reflexivity.
  - intros H. injection H as -> ->. auto.
Qed.

Lemma filter_matches_none (row : raw_record) (rs : list result_row) :
  merge_key row ∉ map result_key rs -> List.filter (matches row) rs = [].
Proof.
  induction rs as [|r rs IH]; simpl; intros H; [reflexivity|].
  destruct (matches row r) eqn:E.
  - apply matches_iff in E. exfalso. apply H. rewrite E. now left.
  - apply IH. intros Hin. apply H. now right.
Qed.

(** Among results with distinct keys a record matches the one with its
    key and no other. *)
Lemma filter_matches_one (row : raw_record) (r : result_row) (rs : list result_row) :
  NoDup (map result_key rs) -> r ∈ rs -> result_key r = merge_key row ->
  List.filter (matches row) rs = [r].
Proof.
  induction rs as [|r0 rs IH]; simpl; intros Hnd Hin Hk; [inversion Hin|].
  apply NoDup_cons in Hnd as [Hr0 Hnd].
  destruct (matches row r0) eqn:E.
  - apply matches_iff in E.
    rewrite filter_matches_none by (rewrite <- E; exact Hr0).
    apply elem_of_cons in Hin as [->|Hin]; [reflexivity|].
    exfalso. apply Hr0. rewrite E, <- Hk. now apply list_elem_of_fmap_2.
  - apply elem_of_cons in Hin as [->|Hin].
    + apply matches_iff in Hk. congruence.
    + now apply IH.
Qed.

Lemma combine_aligned (batch : list raw_record) (rs : list result_row)
    (row : raw_record) (r : result_row) :
  map result_key rs = map merge_key batch ->
  In (row, r) (combine batch rs) -> result_key r = merge_key row.
Proof.
  revert rs. induction batch as [|b batch IH]; intros [|r0 rs]; simpl;
    intros H Hin; try contradiction.
  destruct Hin as [Hin|Hin].
  - injection Hin as <- <-. congruence.
  - apply (IH rs); [congruence | exact Hin].
Qed.

(** The left merge of a batch with results that carry the keys of its
    records, in order and without repetition, pairs them up one to
    one. *)
Lemma merge_left_aligned (batch : list raw_record) (rs : list result_row) :
  map result_key rs = map merge_key batch ->
  NoDup (map merge_key batch) ->
  merge_left batch rs = map (fun p => (fst p, Some (snd p))) (combine batch rs).
Proof.
  intros Hkeys Hnd. unfold merge_left.
  assert (Hnd' : NoDup (map result_key rs)) by now rewrite Hkeys.
  assert (G : forall b rs',
    length b = length rs' ->
    (forall row r, In (row, r) (combine b rs') ->
                   r ∈ rs /\ result_key r = merge_key row) ->
    flat_map
      (fun row =>
         match List.filter (matches row) rs with
         | [] => [(row, None)]
         | found => map (fun r => (row, Some r)) found
         end) b
    = map (fun p => (fst p, Some (snd p))) (combine b rs')).
  { induction b as [|row b IH]; intros [|r rs'] Hlen Hall; simpl in *;
      try reflexivity; try discriminate.
    destruct (Hall row r) as [Hin Hk]; [now left|].
    rewrite (filter_matches_one row r rs Hnd' Hin Hk). simpl. f_equal.
    apply IH; [lia|]. intros row' r' H'. apply Hall. now right. }
  apply G.
  - apply (f_equal length) in Hkeys. now rewrite !length_map in Hkeys.
  - intros row r Hin. split.
    + apply list_elem_of_In. now apply List.in_combine_r in Hin.
    + now apply (combine_aligned batch rs).
Qed.

Section WithCollaborators.
Context {C : Collaborators} {FT : FloatText} {F : Fuzz}.

Lemma row_of_response_key (stamp : string) (resp : response) (row : raw_record) :
  result_key (row_of_response stamp (resp, row)) = merge_key row.
Proof. destruct resp; reflexivity. Qed.

(** What a response leaves in its row. *)
Definition recorded (resp : response) (r : result_row) : Prop :=
  match resp with
  | Structured data =>
      error r = None
      /\ extracted_drugs r = get_list "drugs" data
      /\ extracted_regimens r = get_list "regimens" data
  | Malformed e =>
      error r = Some (PyStr.take 200 e)
      /\ extracted_drugs r = [] /\ extracted_regimens r = []
  end.

Lemma rows_of_responses (stamp : string) (l : list response)
    (batch : list raw_record) :
  length l = length batch ->
  let rows := map (row_of_response stamp) (combine l batch) in
  map result_key rows = map merge_key batch /\ Forall2 recorded l rows.
Proof.
  revert batch. induction l as [|resp l IH]; intros [|row batch] Hlen;
    simpl in *; try discriminate.
  - split; constructor.
  - destruct (IH batch) as [H1 H2]; [lia|]. split.
    + f_equal; [apply row_of_response_key | exact H1].
    + constructor; [|exact H2]. destruct resp; simpl; auto.
Qed.

Lemma process_batch_responses (batch : list raw_record) (w : World)
    (l : list response) :
  generator (gen_calls w) (prompts_of batch) = Responses l ->
  process_batch batch w
  = (Ret (map (row_of_response (now_iso w)) (combine l batch)),
     with_gen_calls w (S (gen_calls w))).
Proof.
  intros H. unfold process_batch, try_except, bind, call_generator.
  fold (prompts_of batch). rewrite H. reflexivity.
Qed.

(** X20. When the generator answers every record of the batch,
    [process_batch] returns one row per record, in the order of the
    batch and with the record's key; a well-formed response leaves its
    lists and no error in its row, a malformed one leaves empty lists
    and the first 200 characters of its error, and does not touch the
    rows of the others. *)
Theorem malformed_response_degrades_its_row_only (batch : list raw_record)
    (w : World) (l : list response) :
  generator (gen_calls w) (prompts_of batch) = Responses l ->
  length l = length batch ->
  exists rows w',
    process_batch batch w = (Ret rows, w')
    /\ map r_unique_key rows = map unique_key batch
    /\ Forall2 recorded l rows.
Proof.
  intros Hgen Hlen. eexists. eexists.
  split; [exact (process_batch_responses batch w l Hgen)|].
  destruct (rows_of_responses (now_iso w) l batch Hlen) as [Hk Hr].
  split; [|exact Hr].
  apply (f_equal (map fst)) in Hk. rewrite !map_map in Hk.
  rewrite map_map. exact Hk.
Qed.

(** X21. [process_with_retry] makes no second attempt: it never sleeps
    and never raises; with a retry count of 0 it returns [None] without
    calling the generator, otherwise it returns rows after exactly one
    call, whatever the generator answers. *)
Theorem retry_budget_is_never_used (batch : list raw_record)
    (max_retries : nat) (w : World) :
  exists result w',
    process_with_retry batch max_retries w = (Ret result, w')
    /\ slept w' = slept w
    /\ (max_retries = 0%nat -> result = None /\ gen_calls w' = gen_calls w)
    /\ ((0 < max_retries)%nat ->
          (exists rows, result = Some rows) /\ gen_calls w' = S (gen_calls w)).
Proof.
  destruct max_retries as [|n].
  - exists None, w. repeat split; try lia; auto.
  - destruct (process_with_retry_single_attempt batch (S n) w) as (rows & _ & H);
      [lia|].
    exists (Some rows). eexists. split; [exact H|].
    repeat split; try discriminate; eauto.
Qed.

End WithCollaborators.
End PipelineMoreFacts.

Module BatchLoopFacts.
Import Py Frame Sys Config DataUtils Pipeline Main.
Import FrameFacts SaveFacts SaveTheorems PipelineFacts BatchFacts PipelineMoreFacts.

Lemma all_strings_Some (l : list (option string)) :
  None ∉ l -> exists r, all_strings l = Some r.
Proof.
  induction l as [|[s|] l IH]; simpl; intros H.
  - eauto.
  - destruct IH as [r ->]; [|eauto]. intros Hin. apply H. now right.
  - exfalso. apply H. now left.
Qed.

Lemma combine_fst_snd {A B} (a : list A) (b : list B) :
  length a = length b ->
  map fst (combine a b) = a /\ map snd (combine a b) = b.
Proof.
  revert b. induction a as [|x a IH]; intros [|y b] H; simpl in *;
    try discriminate; [auto|].
  destruct (IH b) as [H1 H2]; [lia|]. now rewrite H1, H2.
Qed.

Lemma combine_firstn {A B} (a : list A) (b : list B) :
  combine a b = combine a (firstn (length a) b).
Proof.
  revert b. induction a as [|x a IH]; intros [|y b]; simpl; try reflexivity.
  now rewrite <- IH.
Qed.

Section WithCollaborators.
Context {C : Collaborators} {FT : FloatText} {F : Fuzz}.

Lemma mapped_regimens_returns (mapper : RegimenDrugMapper.t)
    (acc : PyDict.dict (list string)) (l : list string) :
  exists d, mapped_regimens mapper acc l = Ret d.
Proof.
  revert acc. induction l as [|r l IH]; simpl; intros acc; [eauto|].
  destruct (PyStr.truthy r); [|apply IH].
  destruct (RegimenLookupFacts.get_drugs_returns mapper r) as (drugs & -> & _).
  apply IH.
Qed.

(** With a positive threshold the metric steps go through on every
    merged row that has a result, and keep the record and the result. *)
Lemma complete_row_returns (normalizer : DrugNormalizer.t)
    (regimen_mapper : RegimenDrugMapper.t) (row : raw_record) (r : result_row) :
  (0 < DrugNormalizer.threshold normalizer)%Z ->
  exists p,
    complete_row normalizer regimen_mapper (row, Some r) = Ret p
    /\ p_raw p = row /\ p_result p = r.
Proof.
  intros Ht. unfold complete_row, compute_metrics_normalized.
  destruct (all_strings_Some
              (DrugNormalizer.normalize_drugs normalizer (extracted_drugs r)))
    as [names ->].
  { rewrite NormalizeDrugsFacts.normalize_drugs_unfold. intros Hin.
    apply NormalizeDrugsFacts.unique_not_seen in Hin as [_ Hin].
    apply list_elem_of_fmap in Hin as (d & Hd & _). symmetry in Hd.
    now apply FuzzyScanFacts.find_best_match_not_None in Hd. }
  unfold RegimenDrugMapper.get_combined_drugs.
  destruct (RegimenLookupFacts.regimen_drugs_returns regimen_mapper
              (extracted_regimens r)) as [l ->].
  destruct (mapped_regimens_returns regimen_mapper [] (extracted_regimens r))
    as [d ->].
  eexists. split; [reflexivity|]. split; reflexivity.
Qed.

Lemma complete_rows_returns (normalizer : DrugNormalizer.t)
    (regimen_mapper : RegimenDrugMapper.t)
    (pairs : list (raw_record * result_row)) :
  (0 < DrugNormalizer.threshold normalizer)%Z ->
  exists merged,
    complete_rows normalizer regimen_mapper
      (map (fun p => (fst p, Some (snd p))) pairs) = Ret merged
    /\ map p_raw merged = map fst pairs
    /\ map p_result merged = map snd pairs.
Proof.
  intros Ht. induction pairs as [|[row r] pairs (merged & H1 & H2 & H3)].
  - exists []. repeat split.
  - destruct (complete_row_returns normalizer regimen_mapper row r Ht)
      as (p & Hp & Hraw & Hres).
    exists (p :: merged). cbn [map complete_rows fst snd].
    rewrite Hp, H1, Hraw, Hres, H2, H3. repeat split.
Qed.

(** A merged row without a result stops the metric steps. *)
Lemma complete_rows_raises (normalizer : DrugNormalizer.t)
    (regimen_mapper : RegimenDrugMapper.t)
    (merged : list (raw_record * option result_row)) (row : raw_record) :
  In (row, None) merged ->
  exists e, complete_rows normalizer regimen_mapper merged = Raise e.
Proof.
  induction merged as [|m merged IH]; simpl; intros Hin; [destruct Hin|].
  destruct (complete_row normalizer regimen_mapper m) as [p|e] eqn:E; [|eauto].
  destruct Hin as [->|Hin]; [discriminate|].
  destruct (IH Hin) as [e ->]. eauto.
Qed.

Lemma process_with_retry_responses (batch : list raw_record) (w : World)
    (l : list response) :
  generator (gen_calls w) (prompts_of batch) = Responses l ->
  process_with_retry batch MAX_RETRIES w
  = (Ret (Some (map (row_of_response (now_iso w)) (combine l batch))),
     with_gen_calls w (S (gen_calls w))).
Proof.
  intros H.
  destruct (process_with_retry_single_attempt batch MAX_RETRIES w)
    as (rows & Hrows & Hretry); [unfold MAX_RETRIES; lia|].
  rewrite (process_batch_responses batch w l H) in Hrows.
  injection Hrows as <-. exact Hretry.
Qed.

(** X22. If the generator answers fewer prompts than the batch has
    records (with distinct merge keys), the turn of the batch loop
    raises: the records of the batch, answered or not, do not reach the
    checkpoint, and the checkpoint as it was before the batch is what is
    saved. *)
Theorem short_answer_drops_the_batch (normalizer : DrugNormalizer.t)
    (regimen_mapper : RegimenDrugMapper.t) (df : DataFrame)
    (batch : list raw_record) (w : World) (l : list response) :
  NoDup (map merge_key batch) ->
  generator (gen_calls w) (prompts_of batch) = Responses l ->
  length l < length batch ->
  exists e w',
    run_batch normalizer regimen_mapper df batch w = (Raise e, w')
    /\ cwd w' !! CHECKPOINT_FILE = Some (to_csv df).
Proof.
  intros Hnd Hgen Hshort.
  set (rows := map (row_of_response (now_iso w)) (combine l batch)).
  assert (Hkeys : map result_key rows
                  = map merge_key (firstn (length l) batch)).
  { unfold rows. rewrite combine_firstn.
    apply rows_of_responses. rewrite length_firstn. lia. }
  destruct (skipn (length l) batch) as [|row rest] eqn:Erest.
  { apply (f_equal length) in Erest. rewrite length_skipn in Erest.
    simpl in Erest. lia. }
  assert (Hsplit : batch = firstn (length l) batch ++ row :: rest)
    by (rewrite <- Erest; symmetry; apply firstn_skipn).
  assert (Hnone : In (row, None) (merge_left batch rows)).
  { unfold merge_left. apply List.in_flat_map. exists row. split.
    - rewrite Hsplit. apply List.in_app_iff. right. now left.
    - rewrite filter_matches_none; [now left|].
      rewrite Hkeys. rewrite Hsplit, map_app in Hnd.
      apply NoDup_app in Hnd as (_ & Hdisj & _).
      intros Hin. apply (Hdisj _ Hin). now left. }
  destruct (complete_rows_raises normalizer regimen_mapper _ _ Hnone) as [e He].
  exists e. eexists. split.
  - unfold run_batch, bind, try_except, merged_batch, bind.
    rewrite (process_with_retry_responses batch w l Hgen).
    unfold lift. fold rows. rewrite He.
    rewrite save_checkpoint_spec. unfold raise. reflexivity.
  - apply saved_file.
Qed.

(** X23. When the generator answers every record of a batch (not
    empty, as the batches of the loop are, and with distinct merge keys)
    and the threshold of the normaliser is positive, the turn of the
    batch loop returns; the checkpoint grows by the size of the batch;
    its new rows carry the keys of the records, in order, and the drugs
    and regimens of the responses (empty lists for a malformed
    response); and this checkpoint is the one written to the file. *)
Theorem answered_batch_is_recorded (normalizer : DrugNormalizer.t)
    (regimen_mapper : RegimenDrugMapper.t) (df : DataFrame)
    (batch : list raw_record) (w : World) (l : list response) :
  batch <> [] ->
  NoDup (map merge_key batch) ->
  (0 < DrugNormalizer.threshold normalizer)%Z ->
  generator (gen_calls w) (prompts_of batch) = Responses l ->
  length l = length batch ->
  let drugs_of resp :=
    match resp with Structured data => get_list "drugs" data | Malformed _ => [] end in
  let regimens_of resp :=
    match resp with Structured data => get_list "regimens" data | Malformed _ => [] end in
  exists df' w',
    run_batch normalizer regimen_mapper df batch w = (Ret df', w')
    /\ len df' = len df + length batch
    /\ skipn (len df) (column df' "unique_key")
       = map (fun row => VStr (unique_key row)) batch
    /\ skipn (len df) (column df' "extracted_drugs")
       = map (fun resp => Main.strings (drugs_of resp)) l
    /\ skipn (len df) (column df' "extracted_regimens")
       = map (fun resp => Main.strings (regimens_of resp)) l
    /\ cwd w' !! CHECKPOINT_FILE = Some (to_csv df').
Proof.
  intros _ Hnd Ht Hgen Hlen drugs_of regimens_of.
  set (rows := map (row_of_response (now_iso w)) (combine l batch)).
  destruct (rows_of_responses (now_iso w) l batch Hlen) as [Hkeys Hrec].
  fold rows in Hkeys, Hrec.
  assert (Hrl : length rows = length batch).
  { apply (f_equal length) in Hkeys. now rewrite !length_map in Hkeys. }
  destruct (complete_rows_returns normalizer regimen_mapper (combine batch rows) Ht)
    as (merged & Hrows & Hraw & Hres).
  destruct (combine_fst_snd batch rows (eq_sym Hrl)) as [Hf Hs].
  rewrite Hf in Hraw. rewrite Hs in Hres.
  assert (Hml : length merged = length batch)
    by (rewrite <- Hraw; now rewrite length_map).
  assert (Hd : map extracted_drugs rows = map drugs_of l
               /\ map extracted_regimens rows = map regimens_of l).
  { clear -Hrec. induction Hrec as [|resp r l rows H _ [IH1 IH2]]; simpl;
      [split; reflexivity|].
    rewrite IH1, IH2. destruct resp; simpl in H; destruct H as (_ & -> & ->);
      split; reflexivity. }
  destruct Hd as [Hdrugs Hregs].
  exists (concat df (frame_of merged)). eexists.
  split.
  { unfold run_batch, bind, try_except, merged_batch, bind.
    rewrite (process_with_retry_responses batch w l Hgen).
    unfold lift. fold rows. rewrite (merge_left_aligned batch rows Hkeys Hnd), Hrows.
    rewrite save_checkpoint_spec. reflexivity. }
  split.
  { rewrite len_concat. unfold len, frame_of. cbn [Frame.rows].
    now rewrite length_map, Hml. }
  split.
  { rewrite column_concat_r by (apply has_merged_column; set_solver).
    rewrite column_unique_key, <- Hraw. now rewrite map_map. }
  split.
  { rewrite column_concat_r by (apply has_merged_column; set_solver).
    rewrite column_extracted_drugs.
    rewrite (BatchTheorems.map_result_cells
               (fun r => Main.strings (extracted_drugs r)) _ _ Hres).
    rewrite <- (map_map extracted_drugs Main.strings), Hdrugs. now rewrite map_map. }
  split.
  { rewrite column_concat_r by (apply has_merged_column; set_solver).
    rewrite column_extracted_regimens.
    rewrite (BatchTheorems.map_result_cells
               (fun r => Main.strings (extracted_regimens r)) _ _ Hres).
    rewrite <- (map_map extracted_regimens Main.strings), Hregs. now rewrite map_map. }
  apply saved_file.
Qed.

End WithCollaborators.
End BatchLoopFacts.

Module BatchLoopExamples.
Import Py Frame Sys Config DataUtils Pipeline Main.
Import PipelineFacts BatchFacts PipelineMoreFacts BatchLoopFacts BatchExamples.

Definition aspirin_answer : response :=
  Structured [("drugs", ["aspirin"]); ("regimens", ["chop"])].

Definition undecodable : response :=
  Malformed "Expecting value: line 1 column 1 (char 0)".

(** A generator whose second response cannot be decoded. *)
Definition mixed : Collaborators :=
  {| format_prompt := fun text => "Process this text: " +:+ text;
     generator := fun _ _ => Responses [aspirin_answer; undecodable] |}.

(** A generator that answers one prompt only. *)
Definition short_answer : Collaborators :=
  {| format_prompt := fun text => "Process this text: " +:+ text;
     generator := fun _ _ => Responses [aspirin_answer] |}.

Lemma two_records_distinct : NoDup (map merge_key two_records).
Proof. apply (bool_decide_eq_true_1 _). vm_compute. reflexivity. Defined.

Lemma malformed_response_degrades_its_row_only_witness :
  exists rows w',
    process_batch (C := mixed) (FT := fraction_text) two_records idle_world
    = (Ret rows, w')
    /\ map r_unique_key rows = map unique_key two_records
    /\ Forall2 recorded [aspirin_answer; undecodable] rows.
Proof.
  apply (malformed_response_degrades_its_row_only (C := mixed) (FT := fraction_text)
           two_records idle_world [aspirin_answer; undecodable]).
  - reflexivity.
  - reflexivity.
Defined.

Lemma short_answer_drops_the_batch_witness :
  exists e w',
    run_batch (C := short_answer) (FT := fraction_text) (F := exact_fuzz)
      no_synonyms no_regimens LoadTheorems.one_record two_records idle_world
    = (Raise e, w')
    /\ cwd w' !! CHECKPOINT_FILE
       = Some (to_csv (FT := fraction_text) LoadTheorems.one_record).
Proof.
  apply (short_answer_drops_the_batch (C := short_answer) (FT := fraction_text)
           (F := exact_fuzz) no_synonyms no_regimens LoadTheorems.one_record
           two_records idle_world [aspirin_answer]).
  - exact two_records_distinct.
  - reflexivity.
  - simpl. lia.
Defined.

Lemma answered_batch_is_recorded_witness :
  exists df' w',
    run_batch (C := mixed) (FT := fraction_text) (F := exact_fuzz)
      no_synonyms no_regimens LoadTheorems.one_record two_records idle_world
    = (Ret df', w')
    /\ len df' = len LoadTheorems.one_record + length two_records
    /\ skipn (len LoadTheorems.one_record) (column df' "unique_key")
       = map (fun row => VStr (unique_key row)) two_records
    /\ skipn (len LoadTheorems.one_record) (column df' "extracted_drugs")
       = [VList [VStr "aspirin"]; VList []]
    /\ skipn (len LoadTheorems.one_record) (column df' "extracted_regimens")
       = [VList [VStr "chop"]; VList []]
    /\ cwd w' !! CHECKPOINT_FILE = Some (to_csv (FT := fraction_text) df').
Proof.
  apply (answered_batch_is_recorded (C := mixed) (FT := fraction_text)
           (F := exact_fuzz) no_synonyms no_regimens LoadTheorems.one_record
           two_records idle_world [aspirin_answer; undecodable]).
  - discriminate.
  - exact two_records_distinct.
  - reflexivity.
  - reflexivity.
  - reflexivity.
Defined.

End BatchLoopExamples.

(** ** The batches of the loop *)

Module BatchingFacts.
Import Pipeline Main.

Lemma batches_from_concat (size turns : nat) (todo : list raw_record) :
  0 < size -> length todo <= turns ->
  List.concat (batches_from size turns todo) = todo.
Proof.
  intros Hs. revert todo. induction turns as [|t IH]; intros [|r todo'] Hl;
    try reflexivity; [simpl in Hl; lia|].
  cbn [batches_from List.concat]. rewrite IH; [apply firstn_skipn|].
  rewrite length_skipn. simpl in Hl. simpl length. lia.
Qed.

Lemma batches_from_sizes (size turns : nat) (todo : list raw_record) :
  0 < size ->
  Forall (fun b => 0 < length b <= size) (batches_from size turns todo).
Proof.
  intros Hs. revert todo. induction turns as [|t IH]; intros [|r todo'];
    try constructor; [|apply IH].
  rewrite length_firstn. simpl length. lia.
Qed.

Lemma batches_from_count (size turns : nat) (todo : list raw_record) :
  0 < size -> length todo <= turns ->
  length todo <= length (batches_from size turns todo) * size
  /\ length (batches_from size turns todo) * size < length todo + size.
Proof.
  intros Hs. revert todo. induction turns as [|t IH]; intros [|r todo'] Hl;
    try (simpl in *; lia).
  cbn [batches_from length]. rewrite Nat.mul_succ_l.
  destruct (IH (skipn size (r :: todo'))) as [H1 H2].
  { rewrite length_skipn. simpl in Hl. simpl length. lia. }
  rewrite length_skipn in H1, H2. cbn [length] in H1, H2.
  destruct (length (batches_from size t (skipn size (r :: todo'))))
    as [|n]; [lia|].
  rewrite Nat.mul_succ_l in *. lia.
Qed.

Lemma batches_from_lookup (size turns : nat) (todo : list raw_record)
    (i : nat) (b : list raw_record) :
  batches_from size turns todo !! i = Some b ->
  b = firstn size (skipn (i * size) todo).
Proof.
  revert todo i. induction turns as [|t IH]; intros [|r todo'] i H;
    try discriminate.
  destruct i as [|i]; cbn [batches_from] in H.
  - injection H as <-. reflexivity.
  - apply IH in H. rewrite H, drop_drop. reflexivity.
Qed.

(** X24. The batches the loop takes, for a positive batch size: put
    end to end they are the backlog, in order; none is empty or longer
    than the batch size; the i-th is the slice of the backlog from
    [i * size] to [i * size + size]; and their number is the length of
    the backlog divided by the batch size, rounded up. *)
Theorem batches_partition (size : nat) (todo : list raw_record) :
  0 < size ->
  List.concat (batches size todo) = todo
  /\ Forall (fun b => 0 < length b <= size) (batches size todo)
  /\ (forall i b, batches size todo !! i = Some b ->
        b = firstn size (skipn (i * size) todo))
  /\ length todo <= length (batches size todo) * size
  /\ length (batches size todo) * size < length todo + size.
Proof.
  intros Hs. unfold batches.
  split; [now apply batches_from_concat|].
  split; [now apply batches_from_sizes|].
  split; [intros i b; apply batches_from_lookup|].
  now apply batches_from_count.
Qed.

End BatchingFacts.

(** ** The batch loop from end to end *)

Module RunFacts.
Import Py Frame Sys Config DataUtils Pipeline Main.
Import FrameFacts SaveFacts SaveTheorems LoadTheorems PipelineFacts BatchFacts.
Import PipelineMoreFacts BatchLoopFacts BatchingFacts.

(** A column of a concatenation holds the cells of the first frame, then
    those of the second. *)
Lemma column_concat (a b : DataFrame) (c : string) :
  has_column (concat a b) c = true ->
  column (concat a b) c = column a c ++ column b c.
Proof.
  intros Hc. unfold column. unfold concat at 2. cbn [rows].
  rewrite map_app, !map_map.
  f_equal; apply map_ext; intros row; now apply cell_relaid.
Qed.

Lemma filter_none {A} (p : A -> bool) (l : list A) :
  (forall x, In x l -> p x = false) -> List.filter p l = [].
Proof.
  induction l as [|x l IH]; simpl; intros H; [reflexivity|].
  rewrite (H x) by now left. apply IH. intros y Hy. apply H. now right.
Qed.

Lemma batches_from_distinct (size turns : nat) (todo : list raw_record) :
  NoDup (map merge_key todo) ->
  Forall (fun b => NoDup (map merge_key b)) (batches_from size turns todo).
Proof.
  revert todo. induction turns as [|t IH]; intros [|r todo'] H;
    try constructor.
  - rewrite <- (firstn_skipn size (r :: todo')), map_app in H.
    now apply NoDup_app in H as (H & _ & _).
  - apply IH.
    rewrite <- (firstn_skipn size (r :: todo')), map_app in H.
    now apply NoDup_app in H as (_ & _ & H).
Qed.

Section WithCollaborators.
Context {C : Collaborators} {FT : FloatText} {F : Fuzz}.

(** The world a turn of the loop leaves when it saves [df]: one more
    call of the generator, then the three blocks of [save_checkpoint]. *)
Definition after_turn (df : DataFrame) (w : World) : World :=
  after_prune (after_write df (after_backup (with_gen_calls w (S (gen_calls w))))).

Lemma gen_calls_after_turn (df : DataFrame) (w : World) :
  gen_calls (after_turn df w) = S (gen_calls w).
Proof.
  unfold after_turn, after_backup. cbn [cwd with_gen_calls].
  destruct (cwd w !! CHECKPOINT_FILE); reflexivity.
Qed.

Lemma run_batch_answered (normalizer : DrugNormalizer.t)
    (regimen_mapper : RegimenDrugMapper.t) (df : DataFrame)
    (batch : list raw_record) (w : World) (l : list response) :
  NoDup (map merge_key batch) ->
  (0 < DrugNormalizer.threshold normalizer)%Z ->
  generator (gen_calls w) (prompts_of batch) = Responses l ->
  length l = length batch ->
  exists merged,
    run_batch normalizer regimen_mapper df batch w
    = (Ret (concat df (frame_of merged)),
       after_turn (concat df (frame_of merged)) w)
    /\ map p_raw merged = batch.
Proof.
  intros Hnd Ht Hgen Hlen.
  set (rows := map (row_of_response (now_iso w)) (combine l batch)).
  destruct (rows_of_responses (now_iso w) l batch Hlen) as [Hkeys _].
  fold rows in Hkeys.
  assert (Hrl : length rows = length batch).
  { apply (f_equal length) in Hkeys. now rewrite !length_map in Hkeys. }
  destruct (complete_rows_returns normalizer regimen_mapper (combine batch rows) Ht)
    as (merged & Hrows & Hraw & _).
  destruct (combine_fst_snd batch rows (eq_sym Hrl)) as [Hf _].
  rewrite Hf in Hraw.
  exists merged. split; [|exact Hraw].
  unfold run_batch, bind, try_except, merged_batch, bind.
  rewrite (process_with_retry_responses batch w l Hgen).
  unfold lift. fold rows. rewrite (merge_left_aligned batch rows Hkeys Hnd), Hrows.
  rewrite save_checkpoint_spec. reflexivity.
Qed.

Lemma run_batch_short (normalizer : DrugNormalizer.t)
    (regimen_mapper : RegimenDrugMapper.t) (df : DataFrame)
    (batch : list raw_record) (w : World) (l : list response) :
  NoDup (map merge_key batch) ->
  generator (gen_calls w) (prompts_of batch) = Responses l ->
  length l < length batch ->
  exists e,
    run_batch normalizer regimen_mapper df batch w = (Raise e, after_turn df w).
Proof.
  intros Hnd Hgen Hshort.
  set (rows := map (row_of_response (now_iso w)) (combine l batch)).
  assert (Hkeys : map result_key rows
                  = map merge_key (firstn (length l) batch)).
  { unfold rows. rewrite combine_firstn.
    apply rows_of_responses. rewrite length_firstn. lia. }
  destruct (skipn (length l) batch) as [|row rest] eqn:Erest.
  { apply (f_equal length) in Erest. rewrite length_skipn in Erest.
    simpl in Erest. lia. }
  assert (Hsplit : batch = firstn (length l) batch ++ row :: rest)
    by (rewrite <- Erest; symmetry; apply firstn_skipn).
  assert (Hnone : In (row, None) (merge_left batch rows)).
  { unfold merge_left. apply List.in_flat_map. exists row. split.
    - rewrite Hsplit. apply List.in_app_iff. right. now left.
    - rewrite filter_matches_none; [now left|].
      rewrite Hkeys. rewrite Hsplit, map_app in Hnd.
      apply NoDup_app in Hnd as (_ & Hdisj & _).
      intros Hin. apply (Hdisj _ Hin). now left. }
  destruct (complete_rows_raises normalizer regimen_mapper _ _ Hnone) as [e He].
  exists e.
  unfold run_batch, bind, try_except, merged_batch, bind.
  rewrite (process_with_retry_responses batch w l Hgen).
  unfold lift. fold rows. rewrite He.
  rewrite save_checkpoint_spec. unfold raise. reflexivity.
Qed.

Lemma run_batches_app (normalizer : DrugNormalizer.t)
    (regimen_mapper : RegimenDrugMapper.t) (a b : list (list raw_record)) :
  forall df w,
    run_batches normalizer regimen_mapper df (a ++ b) w
    = match run_batches normalizer regimen_mapper df a w with
      | (Ret df', w') => run_batches normalizer regimen_mapper df' b w'
      | (Raise e, w') => (Raise e, w')
      end.
Proof.
  induction a as [|batch a IH]; intros df w; [reflexivity|].
  cbn [app run_batches]. unfold bind.
  destruct (run_batch normalizer regimen_mapper df batch w) as [[df1|e] w1];
    [apply IH | reflexivity].
Qed.

(** Batches the generator answers in full, call after call. *)
Lemma run_batches_answered (normalizer : DrugNormalizer.t)
    (regimen_mapper : RegimenDrugMapper.t) (todo : list (list raw_record)) :
  (0 < DrugNormalizer.threshold normalizer)%Z ->
  Forall (fun b => NoDup (map merge_key b)) todo ->
  forall df w,
    (forall i b, todo !! i = Some b ->
       exists l, generator (gen_calls w + i) (prompts_of b) = Responses l
                 /\ length l = length b) ->
    exists df' w',
      run_batches normalizer regimen_mapper df todo w = (Ret df', w')
      /\ len df' = len df + length (List.concat todo)
      /\ column df' "unique_key"
         = column df "unique_key"
           ++ map (fun r => VStr (unique_key r)) (List.concat todo)
      /\ gen_calls w' = gen_calls w + length todo
      /\ ((todo = [] /\ df' = df /\ w' = w)
          \/ cwd w' !! CHECKPOINT_FILE = Some (to_csv df')).
Proof.
  intros Ht Hnd. induction Hnd as [|batch todo Hb _ IH]; intros df w Hgen.
  - exists df, w. cbn [List.concat map length]. rewrite app_nil_r, !Nat.add_0_r.
    repeat split. now left.
  - destruct (Hgen 0 batch eq_refl) as (l & Hl & Hlen).
    rewrite Nat.add_0_r in Hl.
    destruct (run_batch_answered normalizer regimen_mapper df batch w l
                Hb Ht Hl Hlen) as (merged & Hrun & Hraw).
    set (df1 := concat df (frame_of merged)) in *.
    destruct (IH df1 (after_turn df1 w)) as (df' & w' & Hrest & Hlen' & Hcol & Hcalls & Hfile).
    { intros i b Hi. rewrite gen_calls_after_turn.
      replace (S (gen_calls w) + i) with (gen_calls w + S i) by lia.
      now apply Hgen. }
    assert (Hm : length merged = length batch)
      by (rewrite <- Hraw; now rewrite length_map).
    assert (Hlen1 : len df1 = len df + length batch).
    { unfold df1. rewrite len_concat. unfold len, frame_of. cbn [Frame.rows].
      now rewrite length_map, Hm. }
    assert (Hcol1 : column df1 "unique_key"
                    = column df "unique_key"
                      ++ map (fun r => VStr (unique_key r)) batch).
    { unfold df1. rewrite column_concat.
      - rewrite column_unique_key, <- Hraw. now rewrite map_map.
      - apply has_column_concat_r, has_merged_column. set_solver. }
    exists df', w'. split.
    { cbn [run_batches]. unfold bind. rewrite Hrun. exact Hrest. }
    cbn [List.concat]. rewrite length_app, map_app.
    split; [lia|].
    split; [rewrite Hcol, Hcol1; now rewrite app_assoc|].
    split; [rewrite Hcalls, gen_calls_after_turn; cbn [length]; lia|].
    right. destruct Hfile as [(_ & -> & ->)|Hfile]; [apply saved_file | exact Hfile].
Qed.

(** X25. When every batch is answered in full (a generator that
    answers every prompt of every call, a positive threshold, records
    with distinct merge keys), the loop returns; the checkpoint has
    grown by one row for each record of the backlog, in the order of
    the backlog; the generator was called once for each batch; and the
    checkpoint file holds the final checkpoint. *)
Theorem every_record_is_recorded_once (normalizer : DrugNormalizer.t)
    (regimen_mapper : RegimenDrugMapper.t) (df : DataFrame)
    (todo : list raw_record) (size : nat) (w : World) :
  0 < size ->
  (0 < DrugNormalizer.threshold normalizer)%Z ->
  NoDup (map merge_key todo) ->
  (forall n prompts,
     exists l, generator n prompts = Responses l /\ length l = length prompts) ->
  exists df' w',
    run_batches normalizer regimen_mapper df (batches size todo) w = (Ret df', w')
    /\ len df' = len df + length todo
    /\ skipn (len df) (column df' "unique_key")
       = map (fun r => VStr (unique_key r)) todo
    /\ gen_calls w' = gen_calls w + length (batches size todo)
    /\ (todo <> [] -> cwd w' !! CHECKPOINT_FILE = Some (to_csv df')).
Proof.
  intros Hs Ht Hnd Hgen.
  pose proof (batches_from_concat size (length todo) todo Hs (le_n _)) as Hcat.
  fold (batches size todo) in Hcat.
  destruct (run_batches_answered normalizer regimen_mapper (batches size todo) Ht
              (batches_from_distinct size (length todo) todo Hnd) df w)
    as (df' & w' & Hrun & Hlen & Hcol & Hcalls & Hfile).
  { intros i b _. destruct (Hgen (gen_calls w + i) (prompts_of b)) as (l & Hl & Hlen).
    exists l. split; [exact Hl|]. rewrite Hlen. apply length_map. }
  rewrite Hcat in Hlen, Hcol.
  exists df', w'. repeat split; try assumption.
  - rewrite Hcol. apply drop_app_length'. unfold column, len. now rewrite length_map.
  - intros Hne. destruct Hfile as [(Hnil & _)|Hfile]; [|exact Hfile].
    rewrite Hnil in Hcat. simpl in Hcat. congruence.
Qed.

(** X26. When the generator answers the first batches in full and then
    answers a batch short, the loop raises at that batch: the generator
    is not called for the batches after it; the checkpoint file holds
    the checkpoint with the records of the batches before it, one row
    each, in order, and none of the short batch. *)
Theorem short_answer_stops_the_loop (normalizer : DrugNormalizer.t)
    (regimen_mapper : RegimenDrugMapper.t) (df : DataFrame)
    (todo : list raw_record) (size : nat)
    (done : list (list raw_record)) (bad : list raw_record)
    (rest : list (list raw_record)) (w : World) :
  0 < size ->
  (0 < DrugNormalizer.threshold normalizer)%Z ->
  NoDup (map merge_key todo) ->
  batches size todo = done ++ bad :: rest ->
  (forall i b, done !! i = Some b ->
     exists l, generator (gen_calls w + i) (prompts_of b) = Responses l
               /\ length l = length b) ->
  (exists l, generator (gen_calls w + length done) (prompts_of bad) = Responses l
             /\ length l < length bad) ->
  exists e df' w',
    run_batches normalizer regimen_mapper df (batches size todo) w = (Raise e, w')
    /\ len df' = len df + length (List.concat done)
    /\ skipn (len df) (column df' "unique_key")
       = map (fun r => VStr (unique_key r)) (List.concat done)
    /\ cwd w' !! CHECKPOINT_FILE = Some (to_csv df')
    /\ gen_calls w' = gen_calls w + length done + 1.
Proof.
  intros Hs Ht Hnd Hsplit Hgen (l & Hl & Hshort).
  pose proof (batches_from_distinct size (length todo) todo Hnd) as Hd.
  fold (batches size todo) in Hd. rewrite Hsplit in Hd.
  apply Forall_app in Hd as [Hdone Hd]. apply Forall_cons in Hd as [Hbad _].
  destruct (run_batches_answered normalizer regimen_mapper done Ht Hdone df w Hgen)
    as (df' & w1 & Hrun & Hlen & Hcol & Hcalls & _).
  rewrite <- Hcalls in Hl.
  destruct (run_batch_short normalizer regimen_mapper df' bad w1 l Hbad Hl Hshort)
    as [e He].
  exists e, df', (after_turn df' w1). split.
  { rewrite Hsplit, run_batches_app, Hrun. cbn [run_batches]. unfold bind.
    now rewrite He. }
  split; [exact Hlen|].
  split.
  { rewrite Hcol. apply drop_app_length'. unfold column, len. now rewrite length_map. }
  split; [apply saved_file|].
  rewrite gen_calls_after_turn, Hcalls. lia.
Qed.

(** X27. A run that finds nothing left to do (a readable checkpoint
    with the required columns whose [unique_key] column holds the key of
    every raw record) calls no generator and leaves every file as it
    was.  (The report it prints before it returns only reads the
    checkpoint.) *)
Theorem rerun_with_nothing_left_is_idle (raw_data : list raw_record)
    (synonym_rows : list DrugNormalizer.synonym_row)
    (regimen_rows : list RegimenDrugMapper.regimen_row)
    (w : World) (f : file) (df : DataFrame) :
  cwd w !! CHECKPOINT_FILE = Some f ->
  read_csv converters f = Ret df ->
  forallb (has_column df) required_columns = true ->
  (forall r, In r raw_data -> VStr (unique_key r) ∈ column df "unique_key") ->
  snd (run_pipeline raw_data synonym_rows regimen_rows w) = w.
Proof.
  intros Hf Hr Hc Hkeys.
  unfold run_pipeline, bind.
  rewrite (load_checkpoint_present w f df Hf Hr Hc). cbv zeta.
  rewrite filter_none; [reflexivity|].
  intros r Hin. apply Hkeys in Hin.
  apply negb_false_iff, existsb_exists.
  exists (VStr (unique_key r)). split; [|apply String.eqb_refl].
  destruct (is_empty df) eqn:E; [|now apply list_elem_of_In].
  exfalso. unfold column in Hin. apply list_elem_of_fmap in Hin as (row & Hcell & Hrow).
  unfold is_empty in E.
  destruct (columns df); [discriminate Hcell|].
  destruct (rows df); [inversion Hrow | discriminate E].
Qed.

End WithCollaborators.
End RunFacts.

Module RunExamples.
Import Py Frame Sys Config DataUtils Pipeline Main.
Import LoadTheorems PipelineFacts BatchFacts BatchingFacts RunFacts.
Import BatchExamples BatchLoopExamples.

(** A generator that answers every prompt. *)
Definition steady : Collaborators :=
  {| format_prompt := fun text => "Process this text: " +:+ text;
     generator := fun _ prompts =>
       Responses (map (fun _ => aspirin_answer) prompts) |}.

(** A generator that answers every prompt of its first call and none
    afterwards. *)
Definition tiring : Collaborators :=
  {| format_prompt := fun text => "Process this text: " +:+ text;
     generator := fun n prompts =>
       match n with
       | 0 => Responses (map (fun _ => aspirin_answer) prompts)
       | S _ => Responses []
       end |}.

Definition three_records : list raw_record :=
  two_records ++ [mk_raw "3_1_1" "no treatment given" [] []].

(** A checkpoint file with the two records. *)
Definition two_done_file : file :=
  Csv ["unique_key"; "text_concat"; "extracted_drugs"]
      [["1_1_1"; "given aspirin"; "[]"];
       ["2_1_1"; "aspirin continued"; "[]"]].

Definition two_done : DataFrame :=
  {| columns := ["unique_key"; "text_concat"; "extracted_drugs"];
     rows := [[VStr "1_1_1"; VStr "given aspirin"; VList []];
              [VStr "2_1_1"; VStr "aspirin continued"; VList []]] |}.

Lemma batches_partition_witness :
  List.concat (batches 2 three_records) = three_records
  /\ Forall (fun b => 0 < length b <= 2) (batches 2 three_records)
  /\ (forall i b, batches 2 three_records !! i = Some b ->
        b = firstn 2 (skipn (i * 2) three_records))
  /\ length three_records <= length (batches 2 three_records) * 2
  /\ length (batches 2 three_records) * 2 < length three_records + 2.
Proof. apply (batches_partition 2 three_records). lia. Defined.

Lemma every_record_is_recorded_once_witness :
  exists df' w',
    run_batches (C := steady) (FT := fraction_text) (F := exact_fuzz)
      no_synonyms no_regimens one_record (batches 1 two_records) idle_world
    = (Ret df', w')
    /\ len df' = len one_record + length two_records
    /\ skipn (len one_record) (column df' "unique_key")
       = map (fun r => VStr (unique_key r)) two_records
    /\ gen_calls w' = gen_calls idle_world + length (batches 1 two_records)
    /\ (two_records <> [] ->
        cwd w' !! CHECKPOINT_FILE = Some (to_csv (FT := fraction_text) df')).
Proof.
  apply (every_record_is_recorded_once (C := steady) (FT := fraction_text)
           (F := exact_fuzz) no_synonyms no_regimens one_record two_records 1
           idle_world).
  - lia.
  - reflexivity.
  - exact two_records_distinct.
  - intros n prompts. eexists. split; [reflexivity | apply length_map].
Defined.

Lemma short_answer_stops_the_loop_witness :
  exists e df' w',
    run_batches (C := tiring) (FT := fraction_text) (F := exact_fuzz)
      no_synonyms no_regimens one_record (batches 1 three_records) idle_world
    = (Raise e, w')
    /\ len df' = len one_record + length (List.concat [firstn 1 two_records])
    /\ skipn (len one_record) (column df' "unique_key")
       = map (fun r => VStr (unique_key r)) (List.concat [firstn 1 two_records])
    /\ cwd w' !! CHECKPOINT_FILE = Some (to_csv (FT := fraction_text) df')
    /\ gen_calls w' = gen_calls idle_world + length [firstn 1 two_records] + 1.
Proof.
  apply (short_answer_stops_the_loop (C := tiring) (FT := fraction_text)
           (F := exact_fuzz) no_synonyms no_regimens one_record three_records 1
           [firstn 1 two_records] (skipn 1 two_records)
           [skipn 2 three_records] idle_world).
  - lia.
  - reflexivity.
  - apply (bool_decide_eq_true_1 _). vm_compute. reflexivity.
  - reflexivity.
  - intros [|i] b H; [|discriminate H]. injection H as <-.
    eexists. split; reflexivity.
  - eexists. split; [reflexivity | simpl; lia].
Defined.

Lemma rerun_with_nothing_left_is_idle_witness :
  snd (run_pipeline (C := steady) (FT := fraction_text) (F := exact_fuzz)
         two_records [] [] (start_world [(CHECKPOINT_FILE, two_done_file)]))
  = start_world [(CHECKPOINT_FILE, two_done_file)].
Proof.
  apply (rerun_with_nothing_left_is_idle (C := steady) (FT := fraction_text)
           (F := exact_fuzz) two_records [] []
           (start_world [(CHECKPOINT_FILE, two_done_file)]) two_done_file two_done).
  - vm_compute. reflexivity.
  - vm_compute. reflexivity.
  - reflexivity.
  - intros r Hin. apply list_elem_of_In.
    destruct Hin as [<-|[<-|[]]]; simpl; auto.
Defined.

End RunExamples.
